(** * DataHeatBalance: construction validation, reverse constructions,
      variable-slat blinds and the window-screen optical model

    Shallow embedding of five routines of [src/EnergyPlus/DataHeatBalance.cc]:
    [CheckAndSetConstructionProperties], [AssignReverseConstructionNumber],
    [AddVariableSlatBlind], [CalcScreenTransmittance] and
    [ComputeNominalUwithConvCoeffs].

    Conventions of the embedding.
    - [int] is [Z]; [Real64] is the type [R] of real numbers, i.e. the
      arithmetic is exact (no rounding, no NaN, no infinities).
    - [FArray1D] arrays are lists read and written with a 1-based index.
      The source does not check indices: here a read outside the extent
      gives the element type's default value and a write outside the extent
      leaves the array as it is.
    - The module-level registries ([Material], [Construct], [Blind],
      [SurfaceScreens], ...) are passed explicitly.
    - Every [ShowSevereError]/[ShowWarningError] call site is one constructor
      of [Message]; the [ShowContinueError] lines that follow it belong to
      the same message.  The text itself is not modelled. *)

From Stdlib Require Import ZArith List Ascii String Bool Reals Lra Lia.
Import ListNotations.
Open Scope Z_scope.

(** ** Fortran-style arrays and counted loops *)

Section FArray.
Context {A : Type}.

(** [a(i)], 1-based. *)
Definition fget (d : A) (a : list A) (i : Z) : A :=
  if i <? 1 then d else nth (Z.to_nat (i - 1)) a d.

Fixpoint nset (a : list A) (n : nat) (v : A) : list A :=
  match a, n with
  | [], _ => []
  | _ :: t, O => v :: t
  | h :: t, S n' => h :: nset t n' v
  end.

(** [a(i) = v], 1-based. *)
Definition fset (a : list A) (i : Z) (v : A) : list A :=
  if i <? 1 then a else nset a (Z.to_nat (i - 1)) v.
End FArray.

(** The index values of [for ( i = lo; i <= hi; ++i )]. *)
Definition upto (lo hi : Z) : list Z :=
  map (fun k => lo + Z.of_nat k) (seq 0 (Z.to_nat (hi - lo + 1))).

(** The index values of [for ( i = hi; i >= lo; --i )]. *)
Definition downto (hi lo : Z) : list Z := rev (upto lo hi).

(** A counted loop whose body updates the loop-carried state. *)
Definition for_each {S : Type} (idx : list Z) (body : Z -> S -> S) (s : S) : S :=
  fold_left (fun acc i => body i acc) idx s.

(** A counted loop whose body may [break]: the body returns the new state
    and whether it left the loop. *)
Fixpoint for_each_break {S : Type} (idx : list Z) (body : Z -> S -> S * bool) (s : S) : S :=
  match idx with
  | [] => s
  | i :: rest =>
      let '(s', brk) := body i s in
      if brk then s' else for_each_break rest body s'
  end.

(** ** Real64 comparisons as booleans *)

Definition Rltb (x y : R) : bool := if Rlt_dec x y then true else false.
Definition Rleb (x y : R) : bool := if Rle_dec x y then true else false.
Definition Rgtb (x y : R) : bool := Rltb y x.
Definition Reqb (x y : R) : bool := if Req_dec_T x y then true else false.
Definition Rneb (x y : R) : bool := negb (Reqb x y).

(** ** Module parameters *)

Definition MaxLayersInConstruct : Z := 11.

Definition RegularMaterial : Z := 0.
Definition Air : Z := 1.
Definition Shade : Z := 2.
Definition WindowGlass : Z := 3.
Definition WindowGas : Z := 4.
Definition WindowBlind : Z := 5.
Definition WindowGasMixture : Z := 6.
Definition Screen : Z := 7.
Definition EcoRoof : Z := 8.
Definition IRTMaterial : Z := 9.
Definition WindowSimpleGlazing : Z := 10.
Definition ComplexWindowShade : Z := 11.
Definition ComplexWindowGap : Z := 12.
Definition GlassEquivalentLayer : Z := 13.
Definition ShadeEquivalentLayer : Z := 14.
Definition DrapeEquivalentLayer : Z := 15.
Definition BlindEquivalentLayer : Z := 16.
Definition ScreenEquivalentLayer : Z := 17.
Definition GapEquivalentLayer : Z := 18.

Definition FixedSlats : Z := 1.
Definition VariableSlats : Z := 2.

(** Angle constants of [DataGlobals] (the declarations are not part of the
    sources at hand; the values are the ones their names state). *)
Definition Pi : R := PI.
Definition PiOvr2 : R := (PI / 2)%R.
Definition DegToRadians : R := (PI / 180)%R.

(** ** Diagnostics *)

Inductive Message : Type :=
| MsgWrongMaterialsMix          (* window has materials other than glass, gas, shade, ... *)
| MsgTooManyLayers              (* more than 8 layers *)
| MsgSingleLayerNotGlass        (* single-layer window is gas, shade, screen or blind *)
| MsgDiffusingGlassWithShade    (* diffusing glass and a shade, screen or blind layer *)
| MsgDiffusingGlassNotInnermost (* diffusing glass that is not the innermost glass layer *)
| MsgSlatWiderThanGaps          (* between-glass blind wider than the adjacent gas layers *)
| MsgSimpleGlazingOtherGlass    (* simple window with another glazing layer *)
| MsgSimpleGlazingOtherGas      (* simple window with a gas layer *)
| MsgWindowLayeringRules        (* "Error in window construction": the layering rulebook *)
| MsgOutsideLayerAir
| MsgInsideLayerAir
| MsgInteriorEcoRoof
| MsgIRTTooManyLayers
| MsgBlindMaxLessThanMin        (* maximum slat angle below the minimum *)
| MsgBlindAngleOutOfRange       (* slat angle outside the input min/max range *)
| MsgBlindMinBelowGeometry      (* minimum slat angle below the geometric minimum *)
| MsgBlindMaxAboveGeometry.     (* maximum slat angle above the geometric maximum *)

Inductive Diagnostic : Type :=
| SevereError (m : Message)
| WarningError (m : Message).

(** ** Records *)

(** The fields of [MaterialProperties], [ConstructionData] and
    [WindowBlindProperties] that the four routines read or write. *)

Record MaterialProperties : Type := mkMaterialProperties {
  Mat_Name : string;
  Mat_Group : Z;
  Mat_Roughness : Z;
  Mat_AbsorpVisible : R;
  Mat_AbsorpSolar : R;
  Mat_AbsorpThermal : R;
  Mat_AbsorpThermalFront : R;
  Mat_AbsorpThermalBack : R;
  Mat_Thickness : R;
  Mat_GasType : list Z;
  Mat_GasFract : list R;
  Mat_SolarDiffusing : bool;
  Mat_BlindDataPtr : Z
}.

Definition default_MaterialProperties : MaterialProperties :=
  {| Mat_Name := EmptyString; Mat_Group := (-1); Mat_Roughness := 0; Mat_AbsorpVisible :=
     0%R; Mat_AbsorpSolar := 0%R; Mat_AbsorpThermal := 0%R; Mat_AbsorpThermalFront := 0%R;
     Mat_AbsorpThermalBack := 0%R; Mat_Thickness := 0%R; Mat_GasType := repeat 0 5%nat;
     Mat_GasFract := repeat 0%R 5%nat; Mat_SolarDiffusing := false; Mat_BlindDataPtr := 0 |}.

Record ConstructionData : Type := mkConstructionData {
  Con_Name : string;
  Con_TotLayers : Z;
  Con_LayerPoint : list Z;
  Con_IsUsed : bool;
  Con_DayltPropPtr : Z;
  Con_InsideAbsorpVis : R;
  Con_OutsideAbsorpVis : R;
  Con_InsideAbsorpSolar : R;
  Con_OutsideAbsorpSolar : R;
  Con_InsideAbsorpThermal : R;
  Con_OutsideAbsorpThermal : R;
  Con_OutsideRoughness : Z;
  Con_ReflectVisDiffBack : R;
  Con_AbsDiffShade : R;
  Con_TotSolidLayers : Z;
  Con_TotGlassLayers : Z;
  Con_NumCTFTerms : Z;
  Con_NumHistories : Z;
  Con_TypeIsWindow : bool;
  Con_WindowTypeBSDF : bool;
  Con_WindowTypeEQL : bool;
  Con_TypeIsEcoRoof : bool;
  Con_TypeIsIRT : bool
}.

Definition default_ConstructionData : ConstructionData :=
  {| Con_Name := EmptyString; Con_TotLayers := 0; Con_LayerPoint := repeat 0 (Z.to_nat
     MaxLayersInConstruct); Con_IsUsed := false; Con_DayltPropPtr := 0; Con_InsideAbsorpVis
     := 0%R; Con_OutsideAbsorpVis := 0%R; Con_InsideAbsorpSolar := 0%R;
     Con_OutsideAbsorpSolar := 0%R; Con_InsideAbsorpThermal := 0%R; Con_OutsideAbsorpThermal
     := 0%R; Con_OutsideRoughness := 0; Con_ReflectVisDiffBack := 0%R; Con_AbsDiffShade :=
     0%R; Con_TotSolidLayers := 0; Con_TotGlassLayers := 0; Con_NumCTFTerms := 0;
     Con_NumHistories := 0; Con_TypeIsWindow := false; Con_WindowTypeBSDF := false;
     Con_WindowTypeEQL := false; Con_TypeIsEcoRoof := false; Con_TypeIsIRT := false |}.

Definition set_Con_Name (v : string) (x : ConstructionData) : ConstructionData :=
  {| Con_Name := v; Con_TotLayers := Con_TotLayers x; Con_LayerPoint := Con_LayerPoint x;
     Con_IsUsed := Con_IsUsed x; Con_DayltPropPtr := Con_DayltPropPtr x; Con_InsideAbsorpVis
     := Con_InsideAbsorpVis x; Con_OutsideAbsorpVis := Con_OutsideAbsorpVis x;
     Con_InsideAbsorpSolar := Con_InsideAbsorpSolar x; Con_OutsideAbsorpSolar :=
     Con_OutsideAbsorpSolar x; Con_InsideAbsorpThermal := Con_InsideAbsorpThermal x;
     Con_OutsideAbsorpThermal := Con_OutsideAbsorpThermal x; Con_OutsideRoughness :=
     Con_OutsideRoughness x; Con_ReflectVisDiffBack := Con_ReflectVisDiffBack x;
     Con_AbsDiffShade := Con_AbsDiffShade x; Con_TotSolidLayers := Con_TotSolidLayers x;
     Con_TotGlassLayers := Con_TotGlassLayers x; Con_NumCTFTerms := Con_NumCTFTerms x;
     Con_NumHistories := Con_NumHistories x; Con_TypeIsWindow := Con_TypeIsWindow x;
     Con_WindowTypeBSDF := Con_WindowTypeBSDF x; Con_WindowTypeEQL := Con_WindowTypeEQL x;
     Con_TypeIsEcoRoof := Con_TypeIsEcoRoof x; Con_TypeIsIRT := Con_TypeIsIRT x |}.

Definition set_Con_TotLayers (v : Z) (x : ConstructionData) : ConstructionData :=
  {| Con_Name := Con_Name x; Con_TotLayers := v; Con_LayerPoint := Con_LayerPoint x;
     Con_IsUsed := Con_IsUsed x; Con_DayltPropPtr := Con_DayltPropPtr x; Con_InsideAbsorpVis
     := Con_InsideAbsorpVis x; Con_OutsideAbsorpVis := Con_OutsideAbsorpVis x;
     Con_InsideAbsorpSolar := Con_InsideAbsorpSolar x; Con_OutsideAbsorpSolar :=
     Con_OutsideAbsorpSolar x; Con_InsideAbsorpThermal := Con_InsideAbsorpThermal x;
     Con_OutsideAbsorpThermal := Con_OutsideAbsorpThermal x; Con_OutsideRoughness :=
     Con_OutsideRoughness x; Con_ReflectVisDiffBack := Con_ReflectVisDiffBack x;
     Con_AbsDiffShade := Con_AbsDiffShade x; Con_TotSolidLayers := Con_TotSolidLayers x;
     Con_TotGlassLayers := Con_TotGlassLayers x; Con_NumCTFTerms := Con_NumCTFTerms x;
     Con_NumHistories := Con_NumHistories x; Con_TypeIsWindow := Con_TypeIsWindow x;
     Con_WindowTypeBSDF := Con_WindowTypeBSDF x; Con_WindowTypeEQL := Con_WindowTypeEQL x;
     Con_TypeIsEcoRoof := Con_TypeIsEcoRoof x; Con_TypeIsIRT := Con_TypeIsIRT x |}.

Definition set_Con_LayerPoint (v : list Z) (x : ConstructionData) : ConstructionData :=
  {| Con_Name := Con_Name x; Con_TotLayers := Con_TotLayers x; Con_LayerPoint := v;
     Con_IsUsed := Con_IsUsed x; Con_DayltPropPtr := Con_DayltPropPtr x; Con_InsideAbsorpVis
     := Con_InsideAbsorpVis x; Con_OutsideAbsorpVis := Con_OutsideAbsorpVis x;
     Con_InsideAbsorpSolar := Con_InsideAbsorpSolar x; Con_OutsideAbsorpSolar :=
     Con_OutsideAbsorpSolar x; Con_InsideAbsorpThermal := Con_InsideAbsorpThermal x;
     Con_OutsideAbsorpThermal := Con_OutsideAbsorpThermal x; Con_OutsideRoughness :=
     Con_OutsideRoughness x; Con_ReflectVisDiffBack := Con_ReflectVisDiffBack x;
     Con_AbsDiffShade := Con_AbsDiffShade x; Con_TotSolidLayers := Con_TotSolidLayers x;
     Con_TotGlassLayers := Con_TotGlassLayers x; Con_NumCTFTerms := Con_NumCTFTerms x;
     Con_NumHistories := Con_NumHistories x; Con_TypeIsWindow := Con_TypeIsWindow x;
     Con_WindowTypeBSDF := Con_WindowTypeBSDF x; Con_WindowTypeEQL := Con_WindowTypeEQL x;
     Con_TypeIsEcoRoof := Con_TypeIsEcoRoof x; Con_TypeIsIRT := Con_TypeIsIRT x |}.

Definition set_Con_IsUsed (v : bool) (x : ConstructionData) : ConstructionData :=
  {| Con_Name := Con_Name x; Con_TotLayers := Con_TotLayers x; Con_LayerPoint :=
     Con_LayerPoint x; Con_IsUsed := v; Con_DayltPropPtr := Con_DayltPropPtr x;
     Con_InsideAbsorpVis := Con_InsideAbsorpVis x; Con_OutsideAbsorpVis :=
     Con_OutsideAbsorpVis x; Con_InsideAbsorpSolar := Con_InsideAbsorpSolar x;
     Con_OutsideAbsorpSolar := Con_OutsideAbsorpSolar x; Con_InsideAbsorpThermal :=
     Con_InsideAbsorpThermal x; Con_OutsideAbsorpThermal := Con_OutsideAbsorpThermal x;
     Con_OutsideRoughness := Con_OutsideRoughness x; Con_ReflectVisDiffBack :=
     Con_ReflectVisDiffBack x; Con_AbsDiffShade := Con_AbsDiffShade x; Con_TotSolidLayers :=
     Con_TotSolidLayers x; Con_TotGlassLayers := Con_TotGlassLayers x; Con_NumCTFTerms :=
     Con_NumCTFTerms x; Con_NumHistories := Con_NumHistories x; Con_TypeIsWindow :=
     Con_TypeIsWindow x; Con_WindowTypeBSDF := Con_WindowTypeBSDF x; Con_WindowTypeEQL :=
     Con_WindowTypeEQL x; Con_TypeIsEcoRoof := Con_TypeIsEcoRoof x; Con_TypeIsIRT :=
     Con_TypeIsIRT x |}.

Definition set_Con_DayltPropPtr (v : Z) (x : ConstructionData) : ConstructionData :=
  {| Con_Name := Con_Name x; Con_TotLayers := Con_TotLayers x; Con_LayerPoint :=
     Con_LayerPoint x; Con_IsUsed := Con_IsUsed x; Con_DayltPropPtr := v;
     Con_InsideAbsorpVis := Con_InsideAbsorpVis x; Con_OutsideAbsorpVis :=
     Con_OutsideAbsorpVis x; Con_InsideAbsorpSolar := Con_InsideAbsorpSolar x;
     Con_OutsideAbsorpSolar := Con_OutsideAbsorpSolar x; Con_InsideAbsorpThermal :=
     Con_InsideAbsorpThermal x; Con_OutsideAbsorpThermal := Con_OutsideAbsorpThermal x;
     Con_OutsideRoughness := Con_OutsideRoughness x; Con_ReflectVisDiffBack :=
     Con_ReflectVisDiffBack x; Con_AbsDiffShade := Con_AbsDiffShade x; Con_TotSolidLayers :=
     Con_TotSolidLayers x; Con_TotGlassLayers := Con_TotGlassLayers x; Con_NumCTFTerms :=
     Con_NumCTFTerms x; Con_NumHistories := Con_NumHistories x; Con_TypeIsWindow :=
     Con_TypeIsWindow x; Con_WindowTypeBSDF := Con_WindowTypeBSDF x; Con_WindowTypeEQL :=
     Con_WindowTypeEQL x; Con_TypeIsEcoRoof := Con_TypeIsEcoRoof x; Con_TypeIsIRT :=
     Con_TypeIsIRT x |}.

Definition set_Con_InsideAbsorpVis (v : R) (x : ConstructionData) : ConstructionData :=
  {| Con_Name := Con_Name x; Con_TotLayers := Con_TotLayers x; Con_LayerPoint :=
     Con_LayerPoint x; Con_IsUsed := Con_IsUsed x; Con_DayltPropPtr := Con_DayltPropPtr x;
     Con_InsideAbsorpVis := v; Con_OutsideAbsorpVis := Con_OutsideAbsorpVis x;
     Con_InsideAbsorpSolar := Con_InsideAbsorpSolar x; Con_OutsideAbsorpSolar :=
     Con_OutsideAbsorpSolar x; Con_InsideAbsorpThermal := Con_InsideAbsorpThermal x;
     Con_OutsideAbsorpThermal := Con_OutsideAbsorpThermal x; Con_OutsideRoughness :=
     Con_OutsideRoughness x; Con_ReflectVisDiffBack := Con_ReflectVisDiffBack x;
     Con_AbsDiffShade := Con_AbsDiffShade x; Con_TotSolidLayers := Con_TotSolidLayers x;
     Con_TotGlassLayers := Con_TotGlassLayers x; Con_NumCTFTerms := Con_NumCTFTerms x;
     Con_NumHistories := Con_NumHistories x; Con_TypeIsWindow := Con_TypeIsWindow x;
     Con_WindowTypeBSDF := Con_WindowTypeBSDF x; Con_WindowTypeEQL := Con_WindowTypeEQL x;
     Con_TypeIsEcoRoof := Con_TypeIsEcoRoof x; Con_TypeIsIRT := Con_TypeIsIRT x |}.

Definition set_Con_OutsideAbsorpVis (v : R) (x : ConstructionData) : ConstructionData :=
  {| Con_Name := Con_Name x; Con_TotLayers := Con_TotLayers x; Con_LayerPoint :=
     Con_LayerPoint x; Con_IsUsed := Con_IsUsed x; Con_DayltPropPtr := Con_DayltPropPtr x;
     Con_InsideAbsorpVis := Con_InsideAbsorpVis x; Con_OutsideAbsorpVis := v;
     Con_InsideAbsorpSolar := Con_InsideAbsorpSolar x; Con_OutsideAbsorpSolar :=
     Con_OutsideAbsorpSolar x; Con_InsideAbsorpThermal := Con_InsideAbsorpThermal x;
     Con_OutsideAbsorpThermal := Con_OutsideAbsorpThermal x; Con_OutsideRoughness :=
     Con_OutsideRoughness x; Con_ReflectVisDiffBack := Con_ReflectVisDiffBack x;
     Con_AbsDiffShade := Con_AbsDiffShade x; Con_TotSolidLayers := Con_TotSolidLayers x;
     Con_TotGlassLayers := Con_TotGlassLayers x; Con_NumCTFTerms := Con_NumCTFTerms x;
     Con_NumHistories := Con_NumHistories x; Con_TypeIsWindow := Con_TypeIsWindow x;
     Con_WindowTypeBSDF := Con_WindowTypeBSDF x; Con_WindowTypeEQL := Con_WindowTypeEQL x;
     Con_TypeIsEcoRoof := Con_TypeIsEcoRoof x; Con_TypeIsIRT := Con_TypeIsIRT x |}.

Definition set_Con_InsideAbsorpSolar (v : R) (x : ConstructionData) : ConstructionData :=
  {| Con_Name := Con_Name x; Con_TotLayers := Con_TotLayers x; Con_LayerPoint :=
     Con_LayerPoint x; Con_IsUsed := Con_IsUsed x; Con_DayltPropPtr := Con_DayltPropPtr x;
     Con_InsideAbsorpVis := Con_InsideAbsorpVis x; Con_OutsideAbsorpVis :=
     Con_OutsideAbsorpVis x; Con_InsideAbsorpSolar := v; Con_OutsideAbsorpSolar :=
     Con_OutsideAbsorpSolar x; Con_InsideAbsorpThermal := Con_InsideAbsorpThermal x;
     Con_OutsideAbsorpThermal := Con_OutsideAbsorpThermal x; Con_OutsideRoughness :=
     Con_OutsideRoughness x; Con_ReflectVisDiffBack := Con_ReflectVisDiffBack x;
     Con_AbsDiffShade := Con_AbsDiffShade x; Con_TotSolidLayers := Con_TotSolidLayers x;
     Con_TotGlassLayers := Con_TotGlassLayers x; Con_NumCTFTerms := Con_NumCTFTerms x;
     Con_NumHistories := Con_NumHistories x; Con_TypeIsWindow := Con_TypeIsWindow x;
     Con_WindowTypeBSDF := Con_WindowTypeBSDF x; Con_WindowTypeEQL := Con_WindowTypeEQL x;
     Con_TypeIsEcoRoof := Con_TypeIsEcoRoof x; Con_TypeIsIRT := Con_TypeIsIRT x |}.

Definition set_Con_OutsideAbsorpSolar (v : R) (x : ConstructionData) : ConstructionData :=
  {| Con_Name := Con_Name x; Con_TotLayers := Con_TotLayers x; Con_LayerPoint :=
     Con_LayerPoint x; Con_IsUsed := Con_IsUsed x; Con_DayltPropPtr := Con_DayltPropPtr x;
     Con_InsideAbsorpVis := Con_InsideAbsorpVis x; Con_OutsideAbsorpVis :=
     Con_OutsideAbsorpVis x; Con_InsideAbsorpSolar := Con_InsideAbsorpSolar x;
     Con_OutsideAbsorpSolar := v; Con_InsideAbsorpThermal := Con_InsideAbsorpThermal x;
     Con_OutsideAbsorpThermal := Con_OutsideAbsorpThermal x; Con_OutsideRoughness :=
     Con_OutsideRoughness x; Con_ReflectVisDiffBack := Con_ReflectVisDiffBack x;
     Con_AbsDiffShade := Con_AbsDiffShade x; Con_TotSolidLayers := Con_TotSolidLayers x;
     Con_TotGlassLayers := Con_TotGlassLayers x; Con_NumCTFTerms := Con_NumCTFTerms x;
     Con_NumHistories := Con_NumHistories x; Con_TypeIsWindow := Con_TypeIsWindow x;
     Con_WindowTypeBSDF := Con_WindowTypeBSDF x; Con_WindowTypeEQL := Con_WindowTypeEQL x;
     Con_TypeIsEcoRoof := Con_TypeIsEcoRoof x; Con_TypeIsIRT := Con_TypeIsIRT x |}.

Definition set_Con_InsideAbsorpThermal (v : R) (x : ConstructionData) : ConstructionData :=
  {| Con_Name := Con_Name x; Con_TotLayers := Con_TotLayers x; Con_LayerPoint :=
     Con_LayerPoint x; Con_IsUsed := Con_IsUsed x; Con_DayltPropPtr := Con_DayltPropPtr x;
     Con_InsideAbsorpVis := Con_InsideAbsorpVis x; Con_OutsideAbsorpVis :=
     Con_OutsideAbsorpVis x; Con_InsideAbsorpSolar := Con_InsideAbsorpSolar x;
     Con_OutsideAbsorpSolar := Con_OutsideAbsorpSolar x; Con_InsideAbsorpThermal := v;
     Con_OutsideAbsorpThermal := Con_OutsideAbsorpThermal x; Con_OutsideRoughness :=
     Con_OutsideRoughness x; Con_ReflectVisDiffBack := Con_ReflectVisDiffBack x;
     Con_AbsDiffShade := Con_AbsDiffShade x; Con_TotSolidLayers := Con_TotSolidLayers x;
     Con_TotGlassLayers := Con_TotGlassLayers x; Con_NumCTFTerms := Con_NumCTFTerms x;
     Con_NumHistories := Con_NumHistories x; Con_TypeIsWindow := Con_TypeIsWindow x;
     Con_WindowTypeBSDF := Con_WindowTypeBSDF x; Con_WindowTypeEQL := Con_WindowTypeEQL x;
     Con_TypeIsEcoRoof := Con_TypeIsEcoRoof x; Con_TypeIsIRT := Con_TypeIsIRT x |}.

Definition set_Con_OutsideAbsorpThermal (v : R) (x : ConstructionData) : ConstructionData :=
  {| Con_Name := Con_Name x; Con_TotLayers := Con_TotLayers x; Con_LayerPoint :=
     Con_LayerPoint x; Con_IsUsed := Con_IsUsed x; Con_DayltPropPtr := Con_DayltPropPtr x;
     Con_InsideAbsorpVis := Con_InsideAbsorpVis x; Con_OutsideAbsorpVis :=
     Con_OutsideAbsorpVis x; Con_InsideAbsorpSolar := Con_InsideAbsorpSolar x;
     Con_OutsideAbsorpSolar := Con_OutsideAbsorpSolar x; Con_InsideAbsorpThermal :=
     Con_InsideAbsorpThermal x; Con_OutsideAbsorpThermal := v; Con_OutsideRoughness :=
     Con_OutsideRoughness x; Con_ReflectVisDiffBack := Con_ReflectVisDiffBack x;
     Con_AbsDiffShade := Con_AbsDiffShade x; Con_TotSolidLayers := Con_TotSolidLayers x;
     Con_TotGlassLayers := Con_TotGlassLayers x; Con_NumCTFTerms := Con_NumCTFTerms x;
     Con_NumHistories := Con_NumHistories x; Con_TypeIsWindow := Con_TypeIsWindow x;
     Con_WindowTypeBSDF := Con_WindowTypeBSDF x; Con_WindowTypeEQL := Con_WindowTypeEQL x;
     Con_TypeIsEcoRoof := Con_TypeIsEcoRoof x; Con_TypeIsIRT := Con_TypeIsIRT x |}.

Definition set_Con_OutsideRoughness (v : Z) (x : ConstructionData) : ConstructionData :=
  {| Con_Name := Con_Name x; Con_TotLayers := Con_TotLayers x; Con_LayerPoint :=
     Con_LayerPoint x; Con_IsUsed := Con_IsUsed x; Con_DayltPropPtr := Con_DayltPropPtr x;
     Con_InsideAbsorpVis := Con_InsideAbsorpVis x; Con_OutsideAbsorpVis :=
     Con_OutsideAbsorpVis x; Con_InsideAbsorpSolar := Con_InsideAbsorpSolar x;
     Con_OutsideAbsorpSolar := Con_OutsideAbsorpSolar x; Con_InsideAbsorpThermal :=
     Con_InsideAbsorpThermal x; Con_OutsideAbsorpThermal := Con_OutsideAbsorpThermal x;
     Con_OutsideRoughness := v; Con_ReflectVisDiffBack := Con_ReflectVisDiffBack x;
     Con_AbsDiffShade := Con_AbsDiffShade x; Con_TotSolidLayers := Con_TotSolidLayers x;
     Con_TotGlassLayers := Con_TotGlassLayers x; Con_NumCTFTerms := Con_NumCTFTerms x;
     Con_NumHistories := Con_NumHistories x; Con_TypeIsWindow := Con_TypeIsWindow x;
     Con_WindowTypeBSDF := Con_WindowTypeBSDF x; Con_WindowTypeEQL := Con_WindowTypeEQL x;
     Con_TypeIsEcoRoof := Con_TypeIsEcoRoof x; Con_TypeIsIRT := Con_TypeIsIRT x |}.

Definition set_Con_ReflectVisDiffBack (v : R) (x : ConstructionData) : ConstructionData :=
  {| Con_Name := Con_Name x; Con_TotLayers := Con_TotLayers x; Con_LayerPoint :=
     Con_LayerPoint x; Con_IsUsed := Con_IsUsed x; Con_DayltPropPtr := Con_DayltPropPtr x;
     Con_InsideAbsorpVis := Con_InsideAbsorpVis x; Con_OutsideAbsorpVis :=
     Con_OutsideAbsorpVis x; Con_InsideAbsorpSolar := Con_InsideAbsorpSolar x;
     Con_OutsideAbsorpSolar := Con_OutsideAbsorpSolar x; Con_InsideAbsorpThermal :=
     Con_InsideAbsorpThermal x; Con_OutsideAbsorpThermal := Con_OutsideAbsorpThermal x;
     Con_OutsideRoughness := Con_OutsideRoughness x; Con_ReflectVisDiffBack := v;
     Con_AbsDiffShade := Con_AbsDiffShade x; Con_TotSolidLayers := Con_TotSolidLayers x;
     Con_TotGlassLayers := Con_TotGlassLayers x; Con_NumCTFTerms := Con_NumCTFTerms x;
     Con_NumHistories := Con_NumHistories x; Con_TypeIsWindow := Con_TypeIsWindow x;
     Con_WindowTypeBSDF := Con_WindowTypeBSDF x; Con_WindowTypeEQL := Con_WindowTypeEQL x;
     Con_TypeIsEcoRoof := Con_TypeIsEcoRoof x; Con_TypeIsIRT := Con_TypeIsIRT x |}.

Definition set_Con_AbsDiffShade (v : R) (x : ConstructionData) : ConstructionData :=
  {| Con_Name := Con_Name x; Con_TotLayers := Con_TotLayers x; Con_LayerPoint :=
     Con_LayerPoint x; Con_IsUsed := Con_IsUsed x; Con_DayltPropPtr := Con_DayltPropPtr x;
     Con_InsideAbsorpVis := Con_InsideAbsorpVis x; Con_OutsideAbsorpVis :=
     Con_OutsideAbsorpVis x; Con_InsideAbsorpSolar := Con_InsideAbsorpSolar x;
     Con_OutsideAbsorpSolar := Con_OutsideAbsorpSolar x; Con_InsideAbsorpThermal :=
     Con_InsideAbsorpThermal x; Con_OutsideAbsorpThermal := Con_OutsideAbsorpThermal x;
     Con_OutsideRoughness := Con_OutsideRoughness x; Con_ReflectVisDiffBack :=
     Con_ReflectVisDiffBack x; Con_AbsDiffShade := v; Con_TotSolidLayers :=
     Con_TotSolidLayers x; Con_TotGlassLayers := Con_TotGlassLayers x; Con_NumCTFTerms :=
     Con_NumCTFTerms x; Con_NumHistories := Con_NumHistories x; Con_TypeIsWindow :=
     Con_TypeIsWindow x; Con_WindowTypeBSDF := Con_WindowTypeBSDF x; Con_WindowTypeEQL :=
     Con_WindowTypeEQL x; Con_TypeIsEcoRoof := Con_TypeIsEcoRoof x; Con_TypeIsIRT :=
     Con_TypeIsIRT x |}.

Definition set_Con_TotSolidLayers (v : Z) (x : ConstructionData) : ConstructionData :=
  {| Con_Name := Con_Name x; Con_TotLayers := Con_TotLayers x; Con_LayerPoint :=
     Con_LayerPoint x; Con_IsUsed := Con_IsUsed x; Con_DayltPropPtr := Con_DayltPropPtr x;
     Con_InsideAbsorpVis := Con_InsideAbsorpVis x; Con_OutsideAbsorpVis :=
     Con_OutsideAbsorpVis x; Con_InsideAbsorpSolar := Con_InsideAbsorpSolar x;
     Con_OutsideAbsorpSolar := Con_OutsideAbsorpSolar x; Con_InsideAbsorpThermal :=
     Con_InsideAbsorpThermal x; Con_OutsideAbsorpThermal := Con_OutsideAbsorpThermal x;
     Con_OutsideRoughness := Con_OutsideRoughness x; Con_ReflectVisDiffBack :=
     Con_ReflectVisDiffBack x; Con_AbsDiffShade := Con_AbsDiffShade x; Con_TotSolidLayers :=
     v; Con_TotGlassLayers := Con_TotGlassLayers x; Con_NumCTFTerms := Con_NumCTFTerms x;
     Con_NumHistories := Con_NumHistories x; Con_TypeIsWindow := Con_TypeIsWindow x;
     Con_WindowTypeBSDF := Con_WindowTypeBSDF x; Con_WindowTypeEQL := Con_WindowTypeEQL x;
     Con_TypeIsEcoRoof := Con_TypeIsEcoRoof x; Con_TypeIsIRT := Con_TypeIsIRT x |}.

Definition set_Con_TotGlassLayers (v : Z) (x : ConstructionData) : ConstructionData :=
  {| Con_Name := Con_Name x; Con_TotLayers := Con_TotLayers x; Con_LayerPoint :=
     Con_LayerPoint x; Con_IsUsed := Con_IsUsed x; Con_DayltPropPtr := Con_DayltPropPtr x;
     Con_InsideAbsorpVis := Con_InsideAbsorpVis x; Con_OutsideAbsorpVis :=
     Con_OutsideAbsorpVis x; Con_InsideAbsorpSolar := Con_InsideAbsorpSolar x;
     Con_OutsideAbsorpSolar := Con_OutsideAbsorpSolar x; Con_InsideAbsorpThermal :=
     Con_InsideAbsorpThermal x; Con_OutsideAbsorpThermal := Con_OutsideAbsorpThermal x;
     Con_OutsideRoughness := Con_OutsideRoughness x; Con_ReflectVisDiffBack :=
     Con_ReflectVisDiffBack x; Con_AbsDiffShade := Con_AbsDiffShade x; Con_TotSolidLayers :=
     Con_TotSolidLayers x; Con_TotGlassLayers := v; Con_NumCTFTerms := Con_NumCTFTerms x;
     Con_NumHistories := Con_NumHistories x; Con_TypeIsWindow := Con_TypeIsWindow x;
     Con_WindowTypeBSDF := Con_WindowTypeBSDF x; Con_WindowTypeEQL := Con_WindowTypeEQL x;
     Con_TypeIsEcoRoof := Con_TypeIsEcoRoof x; Con_TypeIsIRT := Con_TypeIsIRT x |}.

Definition set_Con_NumCTFTerms (v : Z) (x : ConstructionData) : ConstructionData :=
  {| Con_Name := Con_Name x; Con_TotLayers := Con_TotLayers x; Con_LayerPoint :=
     Con_LayerPoint x; Con_IsUsed := Con_IsUsed x; Con_DayltPropPtr := Con_DayltPropPtr x;
     Con_InsideAbsorpVis := Con_InsideAbsorpVis x; Con_OutsideAbsorpVis :=
     Con_OutsideAbsorpVis x; Con_InsideAbsorpSolar := Con_InsideAbsorpSolar x;
     Con_OutsideAbsorpSolar := Con_OutsideAbsorpSolar x; Con_InsideAbsorpThermal :=
     Con_InsideAbsorpThermal x; Con_OutsideAbsorpThermal := Con_OutsideAbsorpThermal x;
     Con_OutsideRoughness := Con_OutsideRoughness x; Con_ReflectVisDiffBack :=
     Con_ReflectVisDiffBack x; Con_AbsDiffShade := Con_AbsDiffShade x; Con_TotSolidLayers :=
     Con_TotSolidLayers x; Con_TotGlassLayers := Con_TotGlassLayers x; Con_NumCTFTerms := v;
     Con_NumHistories := Con_NumHistories x; Con_TypeIsWindow := Con_TypeIsWindow x;
     Con_WindowTypeBSDF := Con_WindowTypeBSDF x; Con_WindowTypeEQL := Con_WindowTypeEQL x;
     Con_TypeIsEcoRoof := Con_TypeIsEcoRoof x; Con_TypeIsIRT := Con_TypeIsIRT x |}.

Definition set_Con_NumHistories (v : Z) (x : ConstructionData) : ConstructionData :=
  {| Con_Name := Con_Name x; Con_TotLayers := Con_TotLayers x; Con_LayerPoint :=
     Con_LayerPoint x; Con_IsUsed := Con_IsUsed x; Con_DayltPropPtr := Con_DayltPropPtr x;
     Con_InsideAbsorpVis := Con_InsideAbsorpVis x; Con_OutsideAbsorpVis :=
     Con_OutsideAbsorpVis x; Con_InsideAbsorpSolar := Con_InsideAbsorpSolar x;
     Con_OutsideAbsorpSolar := Con_OutsideAbsorpSolar x; Con_InsideAbsorpThermal :=
     Con_InsideAbsorpThermal x; Con_OutsideAbsorpThermal := Con_OutsideAbsorpThermal x;
     Con_OutsideRoughness := Con_OutsideRoughness x; Con_ReflectVisDiffBack :=
     Con_ReflectVisDiffBack x; Con_AbsDiffShade := Con_AbsDiffShade x; Con_TotSolidLayers :=
     Con_TotSolidLayers x; Con_TotGlassLayers := Con_TotGlassLayers x; Con_NumCTFTerms :=
     Con_NumCTFTerms x; Con_NumHistories := v; Con_TypeIsWindow := Con_TypeIsWindow x;
     Con_WindowTypeBSDF := Con_WindowTypeBSDF x; Con_WindowTypeEQL := Con_WindowTypeEQL x;
     Con_TypeIsEcoRoof := Con_TypeIsEcoRoof x; Con_TypeIsIRT := Con_TypeIsIRT x |}.

Definition set_Con_TypeIsWindow (v : bool) (x : ConstructionData) : ConstructionData :=
  {| Con_Name := Con_Name x; Con_TotLayers := Con_TotLayers x; Con_LayerPoint :=
     Con_LayerPoint x; Con_IsUsed := Con_IsUsed x; Con_DayltPropPtr := Con_DayltPropPtr x;
     Con_InsideAbsorpVis := Con_InsideAbsorpVis x; Con_OutsideAbsorpVis :=
     Con_OutsideAbsorpVis x; Con_InsideAbsorpSolar := Con_InsideAbsorpSolar x;
     Con_OutsideAbsorpSolar := Con_OutsideAbsorpSolar x; Con_InsideAbsorpThermal :=
     Con_InsideAbsorpThermal x; Con_OutsideAbsorpThermal := Con_OutsideAbsorpThermal x;
     Con_OutsideRoughness := Con_OutsideRoughness x; Con_ReflectVisDiffBack :=
     Con_ReflectVisDiffBack x; Con_AbsDiffShade := Con_AbsDiffShade x; Con_TotSolidLayers :=
     Con_TotSolidLayers x; Con_TotGlassLayers := Con_TotGlassLayers x; Con_NumCTFTerms :=
     Con_NumCTFTerms x; Con_NumHistories := Con_NumHistories x; Con_TypeIsWindow := v;
     Con_WindowTypeBSDF := Con_WindowTypeBSDF x; Con_WindowTypeEQL := Con_WindowTypeEQL x;
     Con_TypeIsEcoRoof := Con_TypeIsEcoRoof x; Con_TypeIsIRT := Con_TypeIsIRT x |}.

Definition set_Con_WindowTypeBSDF (v : bool) (x : ConstructionData) : ConstructionData :=
  {| Con_Name := Con_Name x; Con_TotLayers := Con_TotLayers x; Con_LayerPoint :=
     Con_LayerPoint x; Con_IsUsed := Con_IsUsed x; Con_DayltPropPtr := Con_DayltPropPtr x;
     Con_InsideAbsorpVis := Con_InsideAbsorpVis x; Con_OutsideAbsorpVis :=
     Con_OutsideAbsorpVis x; Con_InsideAbsorpSolar := Con_InsideAbsorpSolar x;
     Con_OutsideAbsorpSolar := Con_OutsideAbsorpSolar x; Con_InsideAbsorpThermal :=
     Con_InsideAbsorpThermal x; Con_OutsideAbsorpThermal := Con_OutsideAbsorpThermal x;
     Con_OutsideRoughness := Con_OutsideRoughness x; Con_ReflectVisDiffBack :=
     Con_ReflectVisDiffBack x; Con_AbsDiffShade := Con_AbsDiffShade x; Con_TotSolidLayers :=
     Con_TotSolidLayers x; Con_TotGlassLayers := Con_TotGlassLayers x; Con_NumCTFTerms :=
     Con_NumCTFTerms x; Con_NumHistories := Con_NumHistories x; Con_TypeIsWindow :=
     Con_TypeIsWindow x; Con_WindowTypeBSDF := v; Con_WindowTypeEQL := Con_WindowTypeEQL x;
     Con_TypeIsEcoRoof := Con_TypeIsEcoRoof x; Con_TypeIsIRT := Con_TypeIsIRT x |}.

Definition set_Con_WindowTypeEQL (v : bool) (x : ConstructionData) : ConstructionData :=
  {| Con_Name := Con_Name x; Con_TotLayers := Con_TotLayers x; Con_LayerPoint :=
     Con_LayerPoint x; Con_IsUsed := Con_IsUsed x; Con_DayltPropPtr := Con_DayltPropPtr x;
     Con_InsideAbsorpVis := Con_InsideAbsorpVis x; Con_OutsideAbsorpVis :=
     Con_OutsideAbsorpVis x; Con_InsideAbsorpSolar := Con_InsideAbsorpSolar x;
     Con_OutsideAbsorpSolar := Con_OutsideAbsorpSolar x; Con_InsideAbsorpThermal :=
     Con_InsideAbsorpThermal x; Con_OutsideAbsorpThermal := Con_OutsideAbsorpThermal x;
     Con_OutsideRoughness := Con_OutsideRoughness x; Con_ReflectVisDiffBack :=
     Con_ReflectVisDiffBack x; Con_AbsDiffShade := Con_AbsDiffShade x; Con_TotSolidLayers :=
     Con_TotSolidLayers x; Con_TotGlassLayers := Con_TotGlassLayers x; Con_NumCTFTerms :=
     Con_NumCTFTerms x; Con_NumHistories := Con_NumHistories x; Con_TypeIsWindow :=
     Con_TypeIsWindow x; Con_WindowTypeBSDF := Con_WindowTypeBSDF x; Con_WindowTypeEQL := v;
     Con_TypeIsEcoRoof := Con_TypeIsEcoRoof x; Con_TypeIsIRT := Con_TypeIsIRT x |}.

Definition set_Con_TypeIsEcoRoof (v : bool) (x : ConstructionData) : ConstructionData :=
  {| Con_Name := Con_Name x; Con_TotLayers := Con_TotLayers x; Con_LayerPoint :=
     Con_LayerPoint x; Con_IsUsed := Con_IsUsed x; Con_DayltPropPtr := Con_DayltPropPtr x;
     Con_InsideAbsorpVis := Con_InsideAbsorpVis x; Con_OutsideAbsorpVis :=
     Con_OutsideAbsorpVis x; Con_InsideAbsorpSolar := Con_InsideAbsorpSolar x;
     Con_OutsideAbsorpSolar := Con_OutsideAbsorpSolar x; Con_InsideAbsorpThermal :=
     Con_InsideAbsorpThermal x; Con_OutsideAbsorpThermal := Con_OutsideAbsorpThermal x;
     Con_OutsideRoughness := Con_OutsideRoughness x; Con_ReflectVisDiffBack :=
     Con_ReflectVisDiffBack x; Con_AbsDiffShade := Con_AbsDiffShade x; Con_TotSolidLayers :=
     Con_TotSolidLayers x; Con_TotGlassLayers := Con_TotGlassLayers x; Con_NumCTFTerms :=
     Con_NumCTFTerms x; Con_NumHistories := Con_NumHistories x; Con_TypeIsWindow :=
     Con_TypeIsWindow x; Con_WindowTypeBSDF := Con_WindowTypeBSDF x; Con_WindowTypeEQL :=
     Con_WindowTypeEQL x; Con_TypeIsEcoRoof := v; Con_TypeIsIRT := Con_TypeIsIRT x |}.

Definition set_Con_TypeIsIRT (v : bool) (x : ConstructionData) : ConstructionData :=
  {| Con_Name := Con_Name x; Con_TotLayers := Con_TotLayers x; Con_LayerPoint :=
     Con_LayerPoint x; Con_IsUsed := Con_IsUsed x; Con_DayltPropPtr := Con_DayltPropPtr x;
     Con_InsideAbsorpVis := Con_InsideAbsorpVis x; Con_OutsideAbsorpVis :=
     Con_OutsideAbsorpVis x; Con_InsideAbsorpSolar := Con_InsideAbsorpSolar x;
     Con_OutsideAbsorpSolar := Con_OutsideAbsorpSolar x; Con_InsideAbsorpThermal :=
     Con_InsideAbsorpThermal x; Con_OutsideAbsorpThermal := Con_OutsideAbsorpThermal x;
     Con_OutsideRoughness := Con_OutsideRoughness x; Con_ReflectVisDiffBack :=
     Con_ReflectVisDiffBack x; Con_AbsDiffShade := Con_AbsDiffShade x; Con_TotSolidLayers :=
     Con_TotSolidLayers x; Con_TotGlassLayers := Con_TotGlassLayers x; Con_NumCTFTerms :=
     Con_NumCTFTerms x; Con_NumHistories := Con_NumHistories x; Con_TypeIsWindow :=
     Con_TypeIsWindow x; Con_WindowTypeBSDF := Con_WindowTypeBSDF x; Con_WindowTypeEQL :=
     Con_WindowTypeEQL x; Con_TypeIsEcoRoof := Con_TypeIsEcoRoof x; Con_TypeIsIRT := v |}.

Record WindowBlindProperties : Type := mkWindowBlindProperties {
  Bl_Name : string;
  Bl_SlatAngleType : Z;
  Bl_SlatWidth : R;
  Bl_SlatSeparation : R;
  Bl_SlatThickness : R;
  Bl_SlatAngle : R;
  Bl_MinSlatAngle : R;
  Bl_MaxSlatAngle : R
}.

Definition default_WindowBlindProperties : WindowBlindProperties :=
  {| Bl_Name := EmptyString; Bl_SlatAngleType := FixedSlats; Bl_SlatWidth := 0%R;
     Bl_SlatSeparation := 0%R; Bl_SlatThickness := 0%R; Bl_SlatAngle := 0%R; Bl_MinSlatAngle
     := 0%R; Bl_MaxSlatAngle := 0%R |}.

Definition set_Bl_Name (v : string) (x : WindowBlindProperties) : WindowBlindProperties :=
  {| Bl_Name := v; Bl_SlatAngleType := Bl_SlatAngleType x; Bl_SlatWidth := Bl_SlatWidth x;
     Bl_SlatSeparation := Bl_SlatSeparation x; Bl_SlatThickness := Bl_SlatThickness x;
     Bl_SlatAngle := Bl_SlatAngle x; Bl_MinSlatAngle := Bl_MinSlatAngle x; Bl_MaxSlatAngle
     := Bl_MaxSlatAngle x |}.

Definition set_Bl_SlatAngleType (v : Z) (x : WindowBlindProperties) : WindowBlindProperties :=
  {| Bl_Name := Bl_Name x; Bl_SlatAngleType := v; Bl_SlatWidth := Bl_SlatWidth x;
     Bl_SlatSeparation := Bl_SlatSeparation x; Bl_SlatThickness := Bl_SlatThickness x;
     Bl_SlatAngle := Bl_SlatAngle x; Bl_MinSlatAngle := Bl_MinSlatAngle x; Bl_MaxSlatAngle
     := Bl_MaxSlatAngle x |}.

Definition set_Bl_MinSlatAngle (v : R) (x : WindowBlindProperties) : WindowBlindProperties :=
  {| Bl_Name := Bl_Name x; Bl_SlatAngleType := Bl_SlatAngleType x; Bl_SlatWidth :=
     Bl_SlatWidth x; Bl_SlatSeparation := Bl_SlatSeparation x; Bl_SlatThickness :=
     Bl_SlatThickness x; Bl_SlatAngle := Bl_SlatAngle x; Bl_MinSlatAngle := v;
     Bl_MaxSlatAngle := Bl_MaxSlatAngle x |}.

Definition set_Bl_MaxSlatAngle (v : R) (x : WindowBlindProperties) : WindowBlindProperties :=
  {| Bl_Name := Bl_Name x; Bl_SlatAngleType := Bl_SlatAngleType x; Bl_SlatWidth :=
     Bl_SlatWidth x; Bl_SlatSeparation := Bl_SlatSeparation x; Bl_SlatThickness :=
     Bl_SlatThickness x; Bl_SlatAngle := Bl_SlatAngle x; Bl_MinSlatAngle := Bl_MinSlatAngle
     x; Bl_MaxSlatAngle := v |}.


(** ** Error flag and message stream *)

(** The [bool & ErrorsFound] argument together with the messages shown so
    far.  Every severe message of the routines below is paired with
    [ErrorsFound = true]; warnings leave the flag alone. *)
Record Report : Type := mkReport {
  ErrorsFound : bool;
  Shown : list Diagnostic
}.

Definition severe (m : Message) (r : Report) : Report :=
  {| ErrorsFound := true; Shown := Shown r ++ [SevereError m] |}.

Definition warning (m : Message) (r : Report) : Report :=
  {| ErrorsFound := ErrorsFound r; Shown := Shown r ++ [WarningError m] |}.

(** ** CheckAndSetConstructionProperties *)

(** A [return] in the middle of the routine, or the values that flow on. *)
Inductive Flow (A : Type) : Type :=
| Return (c : ConstructionData) (r : Report)
| Continue (a : A).
Arguments Return {A} c r.
Arguments Continue {A} a.

Section ConstructionValidator.
Variable Material : list MaterialProperties.
Variable Blind : list WindowBlindProperties.

Definition Mat (MaterNum : Z) : MaterialProperties :=
  fget default_MaterialProperties Material MaterNum.
Definition Bl (BlNum : Z) : WindowBlindProperties :=
  fget default_WindowBlindProperties Blind BlNum.
Definition LayerPoint (c : ConstructionData) (Layer : Z) : Z :=
  fget 0 (Con_LayerPoint c) Layer.
(** [Material( Construct( ConstrNum ).LayerPoint( Layer ) ).Group] *)
Definition LayerGroup (c : ConstructionData) (Layer : Z) : Z :=
  Mat_Group (Mat (LayerPoint c Layer)).
Definition GasType (m : MaterialProperties) (IGas : Z) : Z := fget 0 (Mat_GasType m) IGas.
Definition GasFract (m : MaterialProperties) (IGas : Z) : R := fget 0%R (Mat_GasFract m) IGas.

(** The disjunction of line 711. *)
Definition is_window_group (g : Z) : bool :=
  (g =? WindowGlass) || (g =? WindowGas) || (g =? WindowGasMixture) || (g =? Shade)
  || (g =? WindowBlind) || (g =? Screen) || (g =? WindowSimpleGlazing)
  || (g =? ComplexWindowShade) || (g =? ComplexWindowGap) || (g =? GlassEquivalentLayer)
  || (g =? ShadeEquivalentLayer) || (g =? DrapeEquivalentLayer)
  || (g =? ScreenEquivalentLayer) || (g =? BlindEquivalentLayer)
  || (g =? GapEquivalentLayer).

(** The conjunction of line 726. *)
Definition not_window_group (g : Z) : bool :=
  negb (g =? WindowGlass) && negb (g =? WindowGas) && negb (g =? WindowGasMixture)
  && negb (g =? Shade) && negb (g =? WindowBlind) && negb (g =? Screen)
  && negb (g =? WindowSimpleGlazing) && negb (g =? ComplexWindowShade)
  && negb (g =? ComplexWindowGap) && negb (g =? GlassEquivalentLayer)
  && negb (g =? GapEquivalentLayer) && negb (g =? ShadeEquivalentLayer)
  && negb (g =? DrapeEquivalentLayer) && negb (g =? ScreenEquivalentLayer)
  && negb (g =? BlindEquivalentLayer).

(** Body of the loop of lines 708-712. *)
Definition classify_step (c : ConstructionData) (Layer : Z) (TypeIsWindow : bool) : bool :=
  let MaterNum := LayerPoint c Layer in
  if MaterNum =? 0 then TypeIsWindow
  else if is_window_group (Mat_Group (Mat MaterNum)) then true else TypeIsWindow.

(** Body of the loop of lines 723-727. *)
Definition mix_step (c : ConstructionData) (Layer : Z) (WrongMaterialsMix : bool) : bool :=
  let MaterNum := LayerPoint c Layer in
  if MaterNum =? 0 then WrongMaterialsMix
  else if not_window_group (Mat_Group (Mat MaterNum)) then true else WrongMaterialsMix.

(** The disjunction of line 739. *)
Definition single_layer_not_glass (g : Z) : bool :=
  (g =? Shade) || (g =? WindowGas) || (g =? WindowGasMixture) || (g =? WindowBlind)
  || (g =? Screen) || (g =? ComplexWindowShade) || (g =? ComplexWindowGap).

(** Loop-carried values of lines 750-763. *)
Record LayerCounts : Type := mkLayerCounts {
  TotGlassLayers : Z;
  TotShadeLayers : Z;
  TotGasLayers : Z;
  AdjacentSameGroup : bool   (* [WrongWindowLayering] as the loop leaves it *)
}.

Definition count_step (c : ConstructionData) (TotLayers Layer : Z) (s : LayerCounts)
  : LayerCounts :=
  let MaterNum := LayerPoint c Layer in
  if MaterNum =? 0 then s
  else
    let g := Mat_Group (Mat MaterNum) in
    let glass := if g =? WindowGlass then TotGlassLayers s + 1 else TotGlassLayers s in
    let glass := if g =? WindowSimpleGlazing then glass + 1 else glass in
    let shade :=
      if (g =? Shade) || (g =? WindowBlind) || (g =? Screen) || (g =? ComplexWindowShade)
      then TotShadeLayers s + 1 else TotShadeLayers s in
    let gas :=
      if (g =? WindowGas) || (g =? WindowGasMixture) || (g =? ComplexWindowGap)
      then TotGasLayers s + 1 else TotGasLayers s in
    let wrong :=
      if Layer <? TotLayers then
        let MaterNumNext := LayerPoint c (Layer + 1) in
        if MaterNumNext =? 0 then AdjacentSameGroup s
        else if g =? Mat_Group (Mat MaterNumNext) then true else AdjacentSameGroup s
      else AdjacentSameGroup s in
    mkLayerCounts glass shade gas wrong.

(** Body of the loop of lines 785-794 (it leaves at the first hit). *)
Definition diffusing_shade_step (c : ConstructionData) (TotShade : Z) (Layer : Z)
    (r : Report) : Report * bool :=
  let MaterNum := LayerPoint c Layer in
  if MaterNum =? 0 then (r, false)
  else if Mat_SolarDiffusing (Mat MaterNum) && (TotShade >? 0)
       then (severe MsgDiffusingGlassWithShade r, true)
       else (r, false).

(** Body of the loop of lines 799-810; the state is [GlassLayNum] and the report. *)
Definition diffusing_innermost_step (c : ConstructionData) (TotGlass : Z) (Layer : Z)
    (s : Z * Report) : Z * Report :=
  let MaterNum := LayerPoint c Layer in
  if MaterNum =? 0 then s
  else if Mat_Group (Mat MaterNum) =? WindowGlass then
    let GlassLayNum := fst s + 1 in
    if (GlassLayNum <? TotGlass) && Mat_SolarDiffusing (Mat MaterNum)
    then (GlassLayNum, severe MsgDiffusingGlassNotInnermost (snd s))
    else (GlassLayNum, snd s)
  else s.

Definition is_gas_group (g : Z) : bool := (g =? WindowGas) || (g =? WindowGasMixture).
Definition is_shade_or_blind_not_screen (g : Z) : bool :=
  ((g =? Shade) || (g =? WindowBlind)) && negb (g =? Screen).

(** The condition of line 833. *)
Definition double_pane_pattern (c : ConstructionData) : bool :=
  (LayerGroup c 1 =? WindowGlass) && is_gas_group (LayerGroup c 2)
  && is_shade_or_blind_not_screen (LayerGroup c 3)
  && is_gas_group (LayerGroup c 4) && (LayerGroup c 5 =? WindowGlass).

(** The condition of line 839. *)
Definition triple_pane_pattern (c : ConstructionData) : bool :=
  (LayerGroup c 1 =? WindowGlass) && is_gas_group (LayerGroup c 2)
  && (LayerGroup c 3 =? WindowGlass) && is_gas_group (LayerGroup c 4)
  && is_shade_or_blind_not_screen (LayerGroup c 5)
  && is_gas_group (LayerGroup c 6) && (LayerGroup c 7 =? WindowGlass).

(** Body of the loop of lines 878-880. *)
Definition gas_step (MatGapL MatGapR : Z) (IGas : Z) (WrongWindowLayering : bool) : bool :=
  if negb (GasType (Mat MatGapL) IGas =? GasType (Mat MatGapR) IGas)
     || Rneb (GasFract (Mat MatGapL) IGas) (GasFract (Mat MatGapR) IGas)
  then true else WrongWindowLayering.

(** Lines 874-894: the two gas layers next to a between-glass shade or blind. *)
Definition adjacent_gas_check (c : ConstructionData) (LayNumSh MatSh : Z) (r : Report)
  : bool * Report :=
  let MatGapL := LayerPoint c (LayNumSh - 1) in
  let MatGapR := LayerPoint c (LayNumSh + 1) in
  let wrong := for_each (upto 1 5) (gas_step MatGapL MatGapR) false in
  let wrong :=
    if Rgtb (Rabs (Mat_Thickness (Mat MatGapL) - Mat_Thickness (Mat MatGapR))) 0.0005
    then true else wrong in
  let r :=
    if Mat_Group (Mat MatSh) =? WindowBlind then
      let BlNum := Mat_BlindDataPtr (Mat MatSh) in
      if BlNum >? 0 then
        if Rltb (Mat_Thickness (Mat MatGapL) + Mat_Thickness (Mat MatGapR))
                (Bl_SlatWidth (Bl BlNum))
        then severe MsgSlatWiderThanGaps r else r
      else r
    else r in
  (wrong, r).

(** Lines 824-896, entered with [WrongWindowLayering] false. *)
Definition between_glass_check (c : ConstructionData) (TotLayers TotGlass : Z) (r : Report)
  : bool * Report :=
  if TotGlass =? 4 then (true, r)
  else if (TotGlass =? 2) || (TotGlass =? 3) then
    let '(wrong, ValidBGShadeBlindConst) :=
      if TotGlass =? 2 then
        if negb (TotLayers =? 5) then (true, false)
        else (false, double_pane_pattern c)
      else
        if negb (TotLayers =? 7) then (true, false)
        else (false, triple_pane_pattern c) in
    let wrong := if negb ValidBGShadeBlindConst then true else wrong in
    if negb wrong then
      let LayNumSh := 2 * TotGlass - 1 in
      let MatSh := LayerPoint c LayNumSh in
      let wrong :=
        if negb (Mat_Group (Mat MatSh) =? Shade) && negb (Mat_Group (Mat MatSh) =? WindowBlind)
        then true else wrong in
      let wrong := if negb (TotLayers =? 2 * TotGlass + 1) then true else wrong in
      if negb wrong then adjacent_gas_check c LayNumSh MatSh r
      else (wrong, r)
    else (wrong, r)
  else (false, r).

(** Body of the loop of lines 903-916. *)
Definition simple_glazing_step (c : ConstructionData) (Layer : Z) (r : Report) : Report :=
  let MaterNum := LayerPoint c Layer in
  if MaterNum =? 0 then r
  else
    let r := if Mat_Group (Mat MaterNum) =? WindowGlass
             then severe MsgSimpleGlazingOtherGlass r else r in
    if Mat_Group (Mat MaterNum) =? WindowGas
    then severe MsgSimpleGlazingOtherGas r else r.

(** Lines 721-743: materials of a window, number of layers, single layer. *)
Definition materials_check (c : ConstructionData) (r : Report) : Report :=
  let TotLayers := Con_TotLayers c in
  let WrongMaterialsMix := for_each (upto 1 TotLayers) (mix_step c) false in
  if WrongMaterialsMix then severe MsgWrongMaterialsMix r
  else if (TotLayers >? 8) && negb (Con_WindowTypeBSDF c) && negb (Con_WindowTypeEQL c)
  then severe MsgTooManyLayers r
  else if TotLayers =? 1 then
    if single_layer_not_glass (LayerGroup c 1)
    then severe MsgSingleLayerNotGlass r else r
  else r.

(** Lines 747-763. *)
Definition count_layers (c : ConstructionData) : LayerCounts :=
  for_each (upto 1 (Con_TotLayers c)) (count_step c (Con_TotLayers c))
           (mkLayerCounts 0 0 0 false).

(** Lines 767-773: a BSDF window returns here. *)
Definition bsdf_window (c : ConstructionData) (n : LayerCounts) (InsideLayer : Z)
  : ConstructionData :=
  let c := set_Con_TotGlassLayers (TotGlassLayers n) c in
  let c := set_Con_TotSolidLayers (TotGlassLayers n + TotShadeLayers n) c in
  let c := set_Con_InsideAbsorpThermal
             (Mat_AbsorpThermalBack (Mat (LayerPoint c InsideLayer))) c in
  set_Con_OutsideAbsorpThermal (Mat_AbsorpThermalFront (Mat (LayerPoint c 1))) c.

(** Lines 775-779: an equivalent-layer window returns here. *)
Definition eql_window (c : ConstructionData) (InsideLayer : Z) : ConstructionData :=
  let c := set_Con_InsideAbsorpThermal
             (Mat_AbsorpThermalBack (Mat (LayerPoint c InsideLayer))) c in
  set_Con_OutsideAbsorpThermal (Mat_AbsorpThermalFront (Mat (LayerPoint c 1))) c.

(** Lines 784-811: the two rules on diffusing glass. *)
Definition diffusing_glass_checks (c : ConstructionData) (n : LayerCounts) (r : Report)
  : Report :=
  let TotLayers := Con_TotLayers c in
  let r := for_each_break (upto 1 TotLayers) (diffusing_shade_step c (TotShadeLayers n)) r in
  if TotGlassLayers n >? 1
  then snd (for_each (upto 1 TotLayers)
                     (diffusing_innermost_step c (TotGlassLayers n)) (0, r))
  else r.

(** The condition of line 820 but for its last conjunct. *)
Definition shading_between_glass (c : ConstructionData) (n : LayerCounts) : bool :=
  let TotLayers := Con_TotLayers c in
  (TotShadeLayers n =? 1)
  && negb (LayerGroup c 1 =? Shade) && negb (LayerGroup c 1 =? WindowBlind)
  && negb (LayerGroup c 1 =? Screen)
  && negb (LayerGroup c TotLayers =? Shade)
  && negb (LayerGroup c TotLayers =? WindowBlind)
  && negb (LayerGroup c TotLayers =? ComplexWindowShade).

(** Lines 781-940: the layering rules.  The result is the report with the
    messages of the rules that have one of their own, followed by the
    rulebook message when [WrongWindowLayering] was raised. *)
Definition layering_checks (c : ConstructionData) (n : LayerCounts) (r : Report) : Report :=
  let TotLayers := Con_TotLayers c in
  let WrongWindowLayering := AdjacentSameGroup n in
  (* gas cannot be first or last layer *)
  let WrongWindowLayering :=
    if is_gas_group (LayerGroup c 1) || is_gas_group (LayerGroup c TotLayers)
    then true else WrongWindowLayering in
  (* at most one shade, screen or blind *)
  let WrongWindowLayering :=
    if TotShadeLayers n >? 1 then true else WrongWindowLayering in
  let r := diffusing_glass_checks c n r in
  (* interior window screen *)
  let WrongWindowLayering :=
    if (TotShadeLayers n =? 1) && (LayerGroup c TotLayers =? Screen)
       && negb (TotLayers =? 1)
    then true else WrongWindowLayering in
  (* between-glass shade or blind *)
  let '(WrongWindowLayering, r) :=
    if shading_between_glass c n && negb WrongWindowLayering
    then between_glass_check c TotLayers (TotGlassLayers n) r
    else (WrongWindowLayering, r) in
  (* simple windows *)
  let r :=
    if LayerGroup c 1 =? WindowSimpleGlazing then
      if TotLayers >? 1
      then for_each (upto 1 TotLayers) (simple_glazing_step c) r
      else r
    else r in
  if WrongWindowLayering then severe MsgWindowLayeringRules r else r.

(** Lines 942-964: layer totals and thermal absorptances of a window.  The
    result is the construction and [InsideLayer]. *)
Definition window_totals (c : ConstructionData) (n : LayerCounts)
    (InsideLayer InsideMaterNum : Z) : ConstructionData * Z :=
  let c := set_Con_TotGlassLayers (TotGlassLayers n) c in
  let c := set_Con_TotSolidLayers (TotGlassLayers n + TotShadeLayers n) c in
  let InsideLayer :=
    if (LayerGroup c InsideLayer =? Shade) || (LayerGroup c InsideLayer =? WindowBlind)
    then InsideLayer - 1 else InsideLayer in
  let InsideMaterNum :=
    if InsideLayer >? 0 then LayerPoint c InsideLayer else InsideMaterNum in
  let c :=
    if InsideLayer >? 0
    then set_Con_InsideAbsorpThermal
           (Mat_AbsorpThermalBack (Mat (LayerPoint c InsideLayer))) c
    else c in
  let c :=
    if negb (InsideMaterNum =? 0)
    then set_Con_InsideAbsorpSolar (Mat_AbsorpSolar (Mat InsideMaterNum))
           (set_Con_InsideAbsorpVis (Mat_AbsorpVisible (Mat InsideMaterNum)) c)
    else c in
  let c :=
    if (LayerGroup c 1 =? WindowGlass) || (LayerGroup c 1 =? WindowSimpleGlazing)
    then set_Con_OutsideAbsorpThermal (Mat_AbsorpThermalFront (Mat (LayerPoint c 1))) c
    else set_Con_OutsideAbsorpThermal (Mat_AbsorpThermal (Mat (LayerPoint c 1))) c in
  (c, InsideLayer).

(** Lines 717-964: the branch for a window construction.  It hands on the
    construction, the report and [InsideLayer], or returns (BSDF and
    equivalent-layer windows). *)
Definition window_branch (c : ConstructionData) (r : Report) (InsideLayer InsideMaterNum : Z)
  : Flow (ConstructionData * Report * Z) :=
  let c := set_Con_NumHistories 0 (set_Con_NumCTFTerms 0 c) in
  let r := materials_check c r in
  let n := count_layers c in
  if Con_WindowTypeBSDF c then Return (bsdf_window c n InsideLayer) r
  else if Con_WindowTypeEQL c then Return (eql_window c InsideLayer) r
  else
    let r := layering_checks c n r in
    let '(c, InsideLayer) := window_totals c n InsideLayer InsideMaterNum in
    Continue (c, r, InsideLayer).

(** Body of the loop of lines 989-995. *)
Definition ecoroof_step (c : ConstructionData) (Layer : Z) (r : Report) : Report :=
  if LayerGroup c Layer =? EcoRoof then severe MsgInteriorEcoRoof r else r.

(** Lines 971-1005: roughness, Air at a boundary, EcoRoof and IRT. *)
Definition boundary_checks (c : ConstructionData) (r : Report) (InsideLayer : Z)
  : ConstructionData * Report :=
  let TotLayers := Con_TotLayers c in
  let c := set_Con_OutsideRoughness (Mat_Roughness (Mat (LayerPoint c 1))) c in
  let r := if LayerGroup c 1 =? Air then severe MsgOutsideLayerAir r else r in
  let r :=
    if InsideLayer >? 0 then
      if LayerGroup c InsideLayer =? Air then severe MsgInsideLayerAir r else r
    else r in
  let '(c, r) :=
    if LayerGroup c 1 =? EcoRoof
    then (set_Con_TypeIsEcoRoof true c, for_each (upto 2 TotLayers) (ecoroof_step c) r)
    else (c, r) in
  let '(c, r) :=
    if LayerGroup c 1 =? IRTMaterial
    then (set_Con_TypeIsIRT true c,
          if negb (Con_TotLayers c =? 1) then severe MsgIRTTooManyLayers r else r)
    else (c, r) in
  (c, r).

(** Lines 684-692. *)
Definition inside_absorptances (c : ConstructionData) (InsideMaterNum : Z)
  : ConstructionData :=
  let c := set_Con_DayltPropPtr 0 c in
  if negb (InsideMaterNum =? 0)
  then set_Con_ReflectVisDiffBack (1 - Mat_AbsorpVisible (Mat InsideMaterNum))%R
         (set_Con_InsideAbsorpSolar (Mat_AbsorpSolar (Mat InsideMaterNum))
            (set_Con_InsideAbsorpVis (Mat_AbsorpVisible (Mat InsideMaterNum)) c))
  else c.

(** Lines 694-702. *)
Definition outside_absorptances (c : ConstructionData) (OutsideMaterNum : Z)
  : ConstructionData :=
  let c :=
    if negb (OutsideMaterNum =? 0)
    then set_Con_OutsideAbsorpSolar (Mat_AbsorpSolar (Mat OutsideMaterNum))
           (set_Con_OutsideAbsorpVis (Mat_AbsorpVisible (Mat OutsideMaterNum)) c)
    else c in
  set_Con_AbsDiffShade 0%R (set_Con_TotGlassLayers 0 (set_Con_TotSolidLayers 0 c)).

(** Lines 707-712. *)
Definition classify (c : ConstructionData) : ConstructionData :=
  set_Con_TypeIsWindow (for_each (upto 1 (Con_TotLayers c)) (classify_step c) false) c.

(** Lines 966-969: the branch for an opaque surface. *)
Definition opaque_branch (c : ConstructionData) (InsideLayer : Z) : ConstructionData :=
  let c := set_Con_InsideAbsorpThermal
             (Mat_AbsorpThermal (Mat (LayerPoint c InsideLayer))) c in
  set_Con_OutsideAbsorpThermal (Mat_AbsorpThermal (Mat (LayerPoint c 1))) c.

(** The routine on the construction [Construct( ConstrNum )]. *)
Definition check_construction (c : ConstructionData) (r : Report)
  : ConstructionData * Report :=
  let TotLayers := Con_TotLayers c in
  let InsideLayer := TotLayers in
  if LayerPoint c InsideLayer <=? 0 then (c, r)   (* error condition *)
  else if TotLayers =? 0 then (c, r)              (* error condition *)
  else
    let InsideMaterNum := LayerPoint c InsideLayer in
    let c := inside_absorptances c InsideMaterNum in
    let OutsideMaterNum := LayerPoint c 1 in
    let c := outside_absorptances c OutsideMaterNum in
    let c := classify c in
    if InsideMaterNum =? 0 then (c, r)
    else if OutsideMaterNum =? 0 then (c, r)
    else
      let flow :=
        if Con_TypeIsWindow c
        then window_branch c r InsideLayer InsideMaterNum
        else Continue (opaque_branch c InsideLayer, r, InsideLayer) in
      match flow with
      | Return c r => (c, r)
      | Continue (c, r, InsideLayer) => boundary_checks c r InsideLayer
      end.

(** [CheckAndSetConstructionProperties( ConstrNum, ErrorsFound )] on the
    registry [Construct]. *)
Definition CheckAndSetConstructionProperties (Construct : list ConstructionData)
    (ConstrNum : Z) (r : Report) : list ConstructionData * Report :=
  let '(c, r) := check_construction (fget default_ConstructionData Construct ConstrNum) r in
  (fset Construct ConstrNum c, r).

End ConstructionValidator.

(** A first run on a concrete registry: glass / air gap is a window with a
    non-window material in it. *)
Definition mat_of_group (g : Z) : MaterialProperties :=
  {| Mat_Name := EmptyString; Mat_Group := g; Mat_Roughness := 0; Mat_AbsorpVisible := 0%R;
     Mat_AbsorpSolar := 0%R; Mat_AbsorpThermal := 0%R; Mat_AbsorpThermalFront := 0%R;
     Mat_AbsorpThermalBack := 0%R; Mat_Thickness := 0%R; Mat_GasType := repeat 0 5%nat;
     Mat_GasFract := repeat 0%R 5%nat; Mat_SolarDiffusing := false; Mat_BlindDataPtr := 0 |}.

Definition layers_of (l : list Z) : list Z :=
  l ++ repeat 0 (Z.to_nat MaxLayersInConstruct - List.length l).

Definition construct_of (l : list Z) : ConstructionData :=
  set_Con_LayerPoint (layers_of l)
    (set_Con_TotLayers (Z.of_nat (List.length l)) default_ConstructionData).

Definition no_report : Report := mkReport false [].

(** ** Strings *)

(** [trim]: the string without its trailing blanks. *)
Fixpoint trim (s : string) : string :=
  match s with
  | EmptyString => EmptyString
  | String ch rest =>
      match trim rest with
      | EmptyString => if Ascii.eqb ch " "%char then EmptyString else String ch EmptyString
      | t => String ch t
      end
  end.

(** Modelled from the spec: [InputProcessor::FindItemInList( String,
    ListOfItems, NumItems )] is not among the sources.  The blind cloner
    uses it to "look up a clone by a reserved name-prefix convention; if
    found, return its index", so it is the position of the first of the first
    [NumItems] names equal to [String], and 0 when there is none. *)
Fixpoint find_from (s : string) (names : list string) (n : nat) (pos : Z) : Z :=
  match n, names with
  | O, _ => 0
  | _, [] => 0
  | S n', x :: rest => if String.eqb s x then pos else find_from s rest n' (pos + 1)
  end.

Definition FindItemInList (s : string) (ListOfItems : list string) (NumItems : Z) : Z :=
  find_from s ListOfItems (Z.to_nat NumItems) 1.

(** ** Growing a registry *)

(** [Save.allocate( n + 1 ); Save( {1,n} ) = a( {1,n} ); a = Save]: the
    first [n] elements of [a] followed by default elements up to extent
    [n + 1]. *)
Definition grow {A : Type} (d : A) (a : list A) (n : Z) : list A :=
  let kept := firstn (Z.to_nat n) a in
  kept ++ repeat d (Z.to_nat (n + 1) - List.length kept).

(** ** AssignReverseConstructionNumber *)

(** The construction registry with the two arrays that grow with it. *)
Record Constructions : Type := mkConstructions {
  Construct : list ConstructionData;
  TotConstructs : Z;
  NominalRforNominalUCalculation : list R;
  NominalU : list R
}.

Section ReverseConstruction.
Variable Material : list MaterialProperties.
Variable Blind : list WindowBlindProperties.
Variable NominalR : list R.   (* nominal resistance of each material *)

(** Body of the loop of lines 1066-1069; the state is [nLayer] and the
    local array [LayerPoint]. *)
Definition reverse_step (c : ConstructionData) (Loop : Z) (s : Z * list Z) : Z * list Z :=
  let nLayer := fst s + 1 in
  (nLayer, fset (snd s) nLayer (LayerPoint c Loop)).

(** Lines 1064-1069: the local [LayerPoint] array. *)
Definition reversed_layers (c : ConstructionData) : list Z :=
  snd (for_each (downto (Con_TotLayers c) 1) (reverse_step c)
                (0, repeat 0 (Z.to_nat MaxLayersInConstruct))).

(** Lines 1074-1080: [Found] for the construction [c]. *)
Definition match_step (c : ConstructionData) (LayerPoint' : list Z) (nLayer : Z)
    (Found : bool) : bool * bool :=
  if negb (LayerPoint c nLayer =? fget 0 LayerPoint' nLayer) then (false, true)
  else (Found, false).

Definition layers_match (c : ConstructionData) (LayerPoint' : list Z) : bool :=
  for_each_break (upto 1 MaxLayersInConstruct) (match_step c LayerPoint') true.

(** Body of the loop of lines 1073-1085; the state is [NewConstrNum]. *)
Definition scan_step (Construct : list ConstructionData) (LayerPoint' : list Z) (Loop : Z)
    (NewConstrNum : Z) : Z * bool :=
  if layers_match (fget default_ConstructionData Construct Loop) LayerPoint'
  then (Loop, true) else (NewConstrNum, false).

Definition find_reverse (Construct : list ConstructionData) (TotConstructs : Z)
    (LayerPoint' : list Z) : Z :=
  for_each_break (upto 1 TotConstructs) (scan_step Construct LayerPoint') 0.

(** Body of the loop of lines 1117-1122; the state is the new construction
    and [NominalRforNominalUCalculation( TotConstructs )]. *)
Definition copy_layer_step (LayerPoint' : list Z) (nLayer : Z)
    (s : ConstructionData * R) : ConstructionData * R :=
  let MaterNum := fget 0 LayerPoint' nLayer in
  let c := set_Con_LayerPoint (fset (Con_LayerPoint (fst s)) nLayer MaterNum) (fst s) in
  if negb (MaterNum =? 0)
  then (c, (snd s + fget 0%R NominalR MaterNum)%R)
  else (c, snd s).

Definition AssignReverseConstructionNumber (st : Constructions) (ConstrNum : Z) (r : Report)
  : Z * Constructions * Report :=
  if ConstrNum =? 0 then (0, st, r)   (* error caught elsewhere *)
  else
    let old := fget default_ConstructionData (Construct st) ConstrNum in
    let Construct1 := fset (Construct st) ConstrNum (set_Con_IsUsed true old) in
    let LayerPoint' := reversed_layers old in
    (* now, go through and see if there is a match already *)
    let NewConstrNum := find_reverse Construct1 (TotConstructs st) LayerPoint' in
    if NewConstrNum =? 0 then
      let Construct2 := grow default_ConstructionData Construct1 (TotConstructs st) in
      let NominalRSave := grow 0%R (NominalRforNominalUCalculation st) (TotConstructs st) in
      let NominalUSave := grow 0%R (NominalU st) (TotConstructs st) in
      let TotConstructs' := TotConstructs st + 1 in
      let NewConstrNum := TotConstructs' in
      let Construct2 :=
        fset Construct2 NewConstrNum
             (set_Con_IsUsed true (fget default_ConstructionData Construct2 NewConstrNum)) in
      (* preserve some of the attributes, replace others *)
      let base := fget default_ConstructionData Construct2 ConstrNum in
      let new := set_Con_TotLayers (Con_TotLayers base)
                   (set_Con_Name ("iz-" ++ trim (Con_Name base))%string base) in
      let '(new, NomR) :=
        for_each (upto 1 MaxLayersInConstruct) (copy_layer_step LayerPoint')
                 (new, fget 0%R NominalRSave TotConstructs') in
      let NominalRSave := fset NominalRSave TotConstructs' NomR in
      let NominalUSave :=
        if Rneb NomR 0 then fset NominalUSave TotConstructs' (1 / NomR)%R
        else NominalUSave in
      let Construct3 := fset Construct2 TotConstructs' new in
      let '(Construct4, r) :=
        CheckAndSetConstructionProperties Material Blind Construct3 TotConstructs' r in
      (NewConstrNum,
       mkConstructions Construct4 TotConstructs' NominalRSave NominalUSave, r)
    else
      (NewConstrNum,
       mkConstructions Construct1 (TotConstructs st) (NominalRforNominalUCalculation st)
                       (NominalU st), r).
End ReverseConstruction.

(** ** AddVariableSlatBlind *)

(** Line 1206-1210: the smallest slat angle the slat geometry allows, in degrees. *)
Definition MinSlatAngGeom (b : WindowBlindProperties) : R :=
  if Rgtb (Bl_SlatWidth b) (Bl_SlatSeparation b)
  then (asin (Bl_SlatThickness b / (Bl_SlatThickness b + Bl_SlatSeparation b))
        / DegToRadians)%R
  else 0%R.

(** Line 1211. *)
Definition MaxSlatAngGeom (b : WindowBlindProperties) : R := (180 - MinSlatAngGeom b)%R.

(** Lines 1213-1245 on the new blind [Blind( TotBlinds )]. *)
Definition check_slat_angles (b : WindowBlindProperties) (r : Report)
  : WindowBlindProperties * Report :=
  let MinGeom := MinSlatAngGeom b in
  let MaxGeom := MaxSlatAngGeom b in
  let r := if Rltb (Bl_MaxSlatAngle b) (Bl_MinSlatAngle b)
           then severe MsgBlindMaxLessThanMin r else r in
  let r := if Rgtb (Bl_MaxSlatAngle b) (Bl_MinSlatAngle b)
              && (Rltb (Bl_SlatAngle b) (Bl_MinSlatAngle b)
                  || Rgtb (Bl_SlatAngle b) (Bl_MaxSlatAngle b))
           then severe MsgBlindAngleOutOfRange r else r in
  let '(b, r) := if Rltb (Bl_MinSlatAngle b) MinGeom
                 then (set_Bl_MinSlatAngle MinGeom b, warning MsgBlindMinBelowGeometry r)
                 else (b, r) in
  let '(b, r) := if Rgtb (Bl_MaxSlatAngle b) MaxGeom
                 then (set_Bl_MaxSlatAngle MaxGeom b, warning MsgBlindMaxAboveGeometry r)
                 else (b, r) in
  (b, r).

(** The blind registry. *)
Record Blinds : Type := mkBlinds {
  Blind : list WindowBlindProperties;
  TotBlinds : Z
}.

(** The result is the registry, [outBlindNumber] and the report; the flag of
    the report is [errFlag], which the routine first resets. *)
Definition AddVariableSlatBlind (st : Blinds) (inBlindNumber : Z) (shown : list Diagnostic)
  : Blinds * Z * Report :=
  let r := mkReport false shown in
  let source := fget default_WindowBlindProperties (Blind st) inBlindNumber in
  let Found := FindItemInList ("~" ++ trim (Bl_Name source))%string (map Bl_Name (Blind st))
                              (TotBlinds st) in
  if Found =? 0 then
    (* add a new blind *)
    let TotBlinds' := TotBlinds st + 1 in
    let Blind1 := grow default_WindowBlindProperties (Blind st) (TotBlinds st) in
    let new := fget default_WindowBlindProperties Blind1 inBlindNumber in
    let new := set_Bl_Name ("~" ++ Bl_Name new)%string new in
    let outBlindNumber := TotBlinds' in
    let new := set_Bl_SlatAngleType VariableSlats new in
    let '(new, r) := check_slat_angles new r in
    (mkBlinds (fset Blind1 TotBlinds' new) TotBlinds', outBlindNumber, r)
  else (st, Found, r).

(** ** CalcScreenTransmittance *)

(** The setting of [ScreenBeamReflectanceAccounting].  [DoNotModel],
    [ModelAsDirectBeam] and [ModelAsDiffuse] are integer parameters of
    [DataSurfaces]; the routine compares the field with each of them in turn. *)
Inductive BeamReflectanceAccounting : Type :=
| DoNotModel
| ModelAsDirectBeam
| ModelAsDiffuse.

(** The fields of a [SurfaceScreens] element that the routine reads or writes. *)

Record SurfaceScreenProperties : Type := mkSurfaceScreenProperties {
  Sc_ScreenDiameterToSpacingRatio : R;
  Sc_ReflectCylinder : R;
  Sc_ReflectCylinderVis : R;
  Sc_ScreenBeamReflectanceAccounting : BeamReflectanceAccounting;
  Sc_BmBmTrans : R;
  Sc_BmBmTransVis : R;
  Sc_BmBmTransBack : R;
  Sc_BmDifTrans : R;
  Sc_BmDifTransVis : R;
  Sc_BmDifTransBack : R;
  Sc_ReflectSolBeamFront : R;
  Sc_ReflectVisBeamFront : R;
  Sc_AbsorpSolarBeamFront : R;
  Sc_ReflectSolBeamBack : R;
  Sc_ReflectVisBeamBack : R;
  Sc_AbsorpSolarBeamBack : R
}.

Definition default_SurfaceScreenProperties : SurfaceScreenProperties :=
  {| Sc_ScreenDiameterToSpacingRatio := 0%R; Sc_ReflectCylinder := 0%R;
     Sc_ReflectCylinderVis := 0%R; Sc_ScreenBeamReflectanceAccounting := DoNotModel;
     Sc_BmBmTrans := 0%R; Sc_BmBmTransVis := 0%R; Sc_BmBmTransBack := 0%R; Sc_BmDifTrans :=
     0%R; Sc_BmDifTransVis := 0%R; Sc_BmDifTransBack := 0%R; Sc_ReflectSolBeamFront := 0%R;
     Sc_ReflectVisBeamFront := 0%R; Sc_AbsorpSolarBeamFront := 0%R; Sc_ReflectSolBeamBack :=
     0%R; Sc_ReflectVisBeamBack := 0%R; Sc_AbsorpSolarBeamBack := 0%R |}.

Definition set_Sc_BmBmTrans (v : R) (x : SurfaceScreenProperties) : SurfaceScreenProperties :=
  {| Sc_ScreenDiameterToSpacingRatio := Sc_ScreenDiameterToSpacingRatio x;
     Sc_ReflectCylinder := Sc_ReflectCylinder x; Sc_ReflectCylinderVis :=
     Sc_ReflectCylinderVis x; Sc_ScreenBeamReflectanceAccounting :=
     Sc_ScreenBeamReflectanceAccounting x; Sc_BmBmTrans := v; Sc_BmBmTransVis :=
     Sc_BmBmTransVis x; Sc_BmBmTransBack := Sc_BmBmTransBack x; Sc_BmDifTrans :=
     Sc_BmDifTrans x; Sc_BmDifTransVis := Sc_BmDifTransVis x; Sc_BmDifTransBack :=
     Sc_BmDifTransBack x; Sc_ReflectSolBeamFront := Sc_ReflectSolBeamFront x;
     Sc_ReflectVisBeamFront := Sc_ReflectVisBeamFront x; Sc_AbsorpSolarBeamFront :=
     Sc_AbsorpSolarBeamFront x; Sc_ReflectSolBeamBack := Sc_ReflectSolBeamBack x;
     Sc_ReflectVisBeamBack := Sc_ReflectVisBeamBack x; Sc_AbsorpSolarBeamBack :=
     Sc_AbsorpSolarBeamBack x |}.

Definition set_Sc_BmBmTransVis (v : R) (x : SurfaceScreenProperties) : SurfaceScreenProperties :=
  {| Sc_ScreenDiameterToSpacingRatio := Sc_ScreenDiameterToSpacingRatio x;
     Sc_ReflectCylinder := Sc_ReflectCylinder x; Sc_ReflectCylinderVis :=
     Sc_ReflectCylinderVis x; Sc_ScreenBeamReflectanceAccounting :=
     Sc_ScreenBeamReflectanceAccounting x; Sc_BmBmTrans := Sc_BmBmTrans x; Sc_BmBmTransVis
     := v; Sc_BmBmTransBack := Sc_BmBmTransBack x; Sc_BmDifTrans := Sc_BmDifTrans x;
     Sc_BmDifTransVis := Sc_BmDifTransVis x; Sc_BmDifTransBack := Sc_BmDifTransBack x;
     Sc_ReflectSolBeamFront := Sc_ReflectSolBeamFront x; Sc_ReflectVisBeamFront :=
     Sc_ReflectVisBeamFront x; Sc_AbsorpSolarBeamFront := Sc_AbsorpSolarBeamFront x;
     Sc_ReflectSolBeamBack := Sc_ReflectSolBeamBack x; Sc_ReflectVisBeamBack :=
     Sc_ReflectVisBeamBack x; Sc_AbsorpSolarBeamBack := Sc_AbsorpSolarBeamBack x |}.

Definition set_Sc_BmBmTransBack (v : R) (x : SurfaceScreenProperties) : SurfaceScreenProperties :=
  {| Sc_ScreenDiameterToSpacingRatio := Sc_ScreenDiameterToSpacingRatio x;
     Sc_ReflectCylinder := Sc_ReflectCylinder x; Sc_ReflectCylinderVis :=
     Sc_ReflectCylinderVis x; Sc_ScreenBeamReflectanceAccounting :=
     Sc_ScreenBeamReflectanceAccounting x; Sc_BmBmTrans := Sc_BmBmTrans x; Sc_BmBmTransVis
     := Sc_BmBmTransVis x; Sc_BmBmTransBack := v; Sc_BmDifTrans := Sc_BmDifTrans x;
     Sc_BmDifTransVis := Sc_BmDifTransVis x; Sc_BmDifTransBack := Sc_BmDifTransBack x;
     Sc_ReflectSolBeamFront := Sc_ReflectSolBeamFront x; Sc_ReflectVisBeamFront :=
     Sc_ReflectVisBeamFront x; Sc_AbsorpSolarBeamFront := Sc_AbsorpSolarBeamFront x;
     Sc_ReflectSolBeamBack := Sc_ReflectSolBeamBack x; Sc_ReflectVisBeamBack :=
     Sc_ReflectVisBeamBack x; Sc_AbsorpSolarBeamBack := Sc_AbsorpSolarBeamBack x |}.

Definition set_Sc_BmDifTrans (v : R) (x : SurfaceScreenProperties) : SurfaceScreenProperties :=
  {| Sc_ScreenDiameterToSpacingRatio := Sc_ScreenDiameterToSpacingRatio x;
     Sc_ReflectCylinder := Sc_ReflectCylinder x; Sc_ReflectCylinderVis :=
     Sc_ReflectCylinderVis x; Sc_ScreenBeamReflectanceAccounting :=
     Sc_ScreenBeamReflectanceAccounting x; Sc_BmBmTrans := Sc_BmBmTrans x; Sc_BmBmTransVis
     := Sc_BmBmTransVis x; Sc_BmBmTransBack := Sc_BmBmTransBack x; Sc_BmDifTrans := v;
     Sc_BmDifTransVis := Sc_BmDifTransVis x; Sc_BmDifTransBack := Sc_BmDifTransBack x;
     Sc_ReflectSolBeamFront := Sc_ReflectSolBeamFront x; Sc_ReflectVisBeamFront :=
     Sc_ReflectVisBeamFront x; Sc_AbsorpSolarBeamFront := Sc_AbsorpSolarBeamFront x;
     Sc_ReflectSolBeamBack := Sc_ReflectSolBeamBack x; Sc_ReflectVisBeamBack :=
     Sc_ReflectVisBeamBack x; Sc_AbsorpSolarBeamBack := Sc_AbsorpSolarBeamBack x |}.

Definition set_Sc_BmDifTransVis (v : R) (x : SurfaceScreenProperties) : SurfaceScreenProperties :=
  {| Sc_ScreenDiameterToSpacingRatio := Sc_ScreenDiameterToSpacingRatio x;
     Sc_ReflectCylinder := Sc_ReflectCylinder x; Sc_ReflectCylinderVis :=
     Sc_ReflectCylinderVis x; Sc_ScreenBeamReflectanceAccounting :=
     Sc_ScreenBeamReflectanceAccounting x; Sc_BmBmTrans := Sc_BmBmTrans x; Sc_BmBmTransVis
     := Sc_BmBmTransVis x; Sc_BmBmTransBack := Sc_BmBmTransBack x; Sc_BmDifTrans :=
     Sc_BmDifTrans x; Sc_BmDifTransVis := v; Sc_BmDifTransBack := Sc_BmDifTransBack x;
     Sc_ReflectSolBeamFront := Sc_ReflectSolBeamFront x; Sc_ReflectVisBeamFront :=
     Sc_ReflectVisBeamFront x; Sc_AbsorpSolarBeamFront := Sc_AbsorpSolarBeamFront x;
     Sc_ReflectSolBeamBack := Sc_ReflectSolBeamBack x; Sc_ReflectVisBeamBack :=
     Sc_ReflectVisBeamBack x; Sc_AbsorpSolarBeamBack := Sc_AbsorpSolarBeamBack x |}.

Definition set_Sc_BmDifTransBack (v : R) (x : SurfaceScreenProperties) : SurfaceScreenProperties :=
  {| Sc_ScreenDiameterToSpacingRatio := Sc_ScreenDiameterToSpacingRatio x;
     Sc_ReflectCylinder := Sc_ReflectCylinder x; Sc_ReflectCylinderVis :=
     Sc_ReflectCylinderVis x; Sc_ScreenBeamReflectanceAccounting :=
     Sc_ScreenBeamReflectanceAccounting x; Sc_BmBmTrans := Sc_BmBmTrans x; Sc_BmBmTransVis
     := Sc_BmBmTransVis x; Sc_BmBmTransBack := Sc_BmBmTransBack x; Sc_BmDifTrans :=
     Sc_BmDifTrans x; Sc_BmDifTransVis := Sc_BmDifTransVis x; Sc_BmDifTransBack := v;
     Sc_ReflectSolBeamFront := Sc_ReflectSolBeamFront x; Sc_ReflectVisBeamFront :=
     Sc_ReflectVisBeamFront x; Sc_AbsorpSolarBeamFront := Sc_AbsorpSolarBeamFront x;
     Sc_ReflectSolBeamBack := Sc_ReflectSolBeamBack x; Sc_ReflectVisBeamBack :=
     Sc_ReflectVisBeamBack x; Sc_AbsorpSolarBeamBack := Sc_AbsorpSolarBeamBack x |}.

Definition set_Sc_ReflectSolBeamFront (v : R) (x : SurfaceScreenProperties) : SurfaceScreenProperties :=
  {| Sc_ScreenDiameterToSpacingRatio := Sc_ScreenDiameterToSpacingRatio x;
     Sc_ReflectCylinder := Sc_ReflectCylinder x; Sc_ReflectCylinderVis :=
     Sc_ReflectCylinderVis x; Sc_ScreenBeamReflectanceAccounting :=
     Sc_ScreenBeamReflectanceAccounting x; Sc_BmBmTrans := Sc_BmBmTrans x; Sc_BmBmTransVis
     := Sc_BmBmTransVis x; Sc_BmBmTransBack := Sc_BmBmTransBack x; Sc_BmDifTrans :=
     Sc_BmDifTrans x; Sc_BmDifTransVis := Sc_BmDifTransVis x; Sc_BmDifTransBack :=
     Sc_BmDifTransBack x; Sc_ReflectSolBeamFront := v; Sc_ReflectVisBeamFront :=
     Sc_ReflectVisBeamFront x; Sc_AbsorpSolarBeamFront := Sc_AbsorpSolarBeamFront x;
     Sc_ReflectSolBeamBack := Sc_ReflectSolBeamBack x; Sc_ReflectVisBeamBack :=
     Sc_ReflectVisBeamBack x; Sc_AbsorpSolarBeamBack := Sc_AbsorpSolarBeamBack x |}.

Definition set_Sc_ReflectVisBeamFront (v : R) (x : SurfaceScreenProperties) : SurfaceScreenProperties :=
  {| Sc_ScreenDiameterToSpacingRatio := Sc_ScreenDiameterToSpacingRatio x;
     Sc_ReflectCylinder := Sc_ReflectCylinder x; Sc_ReflectCylinderVis :=
     Sc_ReflectCylinderVis x; Sc_ScreenBeamReflectanceAccounting :=
     Sc_ScreenBeamReflectanceAccounting x; Sc_BmBmTrans := Sc_BmBmTrans x; Sc_BmBmTransVis
     := Sc_BmBmTransVis x; Sc_BmBmTransBack := Sc_BmBmTransBack x; Sc_BmDifTrans :=
     Sc_BmDifTrans x; Sc_BmDifTransVis := Sc_BmDifTransVis x; Sc_BmDifTransBack :=
     Sc_BmDifTransBack x; Sc_ReflectSolBeamFront := Sc_ReflectSolBeamFront x;
     Sc_ReflectVisBeamFront := v; Sc_AbsorpSolarBeamFront := Sc_AbsorpSolarBeamFront x;
     Sc_ReflectSolBeamBack := Sc_ReflectSolBeamBack x; Sc_ReflectVisBeamBack :=
     Sc_ReflectVisBeamBack x; Sc_AbsorpSolarBeamBack := Sc_AbsorpSolarBeamBack x |}.

Definition set_Sc_AbsorpSolarBeamFront (v : R) (x : SurfaceScreenProperties) : SurfaceScreenProperties :=
  {| Sc_ScreenDiameterToSpacingRatio := Sc_ScreenDiameterToSpacingRatio x;
     Sc_ReflectCylinder := Sc_ReflectCylinder x; Sc_ReflectCylinderVis :=
     Sc_ReflectCylinderVis x; Sc_ScreenBeamReflectanceAccounting :=
     Sc_ScreenBeamReflectanceAccounting x; Sc_BmBmTrans := Sc_BmBmTrans x; Sc_BmBmTransVis
     := Sc_BmBmTransVis x; Sc_BmBmTransBack := Sc_BmBmTransBack x; Sc_BmDifTrans :=
     Sc_BmDifTrans x; Sc_BmDifTransVis := Sc_BmDifTransVis x; Sc_BmDifTransBack :=
     Sc_BmDifTransBack x; Sc_ReflectSolBeamFront := Sc_ReflectSolBeamFront x;
     Sc_ReflectVisBeamFront := Sc_ReflectVisBeamFront x; Sc_AbsorpSolarBeamFront := v;
     Sc_ReflectSolBeamBack := Sc_ReflectSolBeamBack x; Sc_ReflectVisBeamBack :=
     Sc_ReflectVisBeamBack x; Sc_AbsorpSolarBeamBack := Sc_AbsorpSolarBeamBack x |}.

Definition set_Sc_ReflectSolBeamBack (v : R) (x : SurfaceScreenProperties) : SurfaceScreenProperties :=
  {| Sc_ScreenDiameterToSpacingRatio := Sc_ScreenDiameterToSpacingRatio x;
     Sc_ReflectCylinder := Sc_ReflectCylinder x; Sc_ReflectCylinderVis :=
     Sc_ReflectCylinderVis x; Sc_ScreenBeamReflectanceAccounting :=
     Sc_ScreenBeamReflectanceAccounting x; Sc_BmBmTrans := Sc_BmBmTrans x; Sc_BmBmTransVis
     := Sc_BmBmTransVis x; Sc_BmBmTransBack := Sc_BmBmTransBack x; Sc_BmDifTrans :=
     Sc_BmDifTrans x; Sc_BmDifTransVis := Sc_BmDifTransVis x; Sc_BmDifTransBack :=
     Sc_BmDifTransBack x; Sc_ReflectSolBeamFront := Sc_ReflectSolBeamFront x;
     Sc_ReflectVisBeamFront := Sc_ReflectVisBeamFront x; Sc_AbsorpSolarBeamFront :=
     Sc_AbsorpSolarBeamFront x; Sc_ReflectSolBeamBack := v; Sc_ReflectVisBeamBack :=
     Sc_ReflectVisBeamBack x; Sc_AbsorpSolarBeamBack := Sc_AbsorpSolarBeamBack x |}.

Definition set_Sc_ReflectVisBeamBack (v : R) (x : SurfaceScreenProperties) : SurfaceScreenProperties :=
  {| Sc_ScreenDiameterToSpacingRatio := Sc_ScreenDiameterToSpacingRatio x;
     Sc_ReflectCylinder := Sc_ReflectCylinder x; Sc_ReflectCylinderVis :=
     Sc_ReflectCylinderVis x; Sc_ScreenBeamReflectanceAccounting :=
     Sc_ScreenBeamReflectanceAccounting x; Sc_BmBmTrans := Sc_BmBmTrans x; Sc_BmBmTransVis
     := Sc_BmBmTransVis x; Sc_BmBmTransBack := Sc_BmBmTransBack x; Sc_BmDifTrans :=
     Sc_BmDifTrans x; Sc_BmDifTransVis := Sc_BmDifTransVis x; Sc_BmDifTransBack :=
     Sc_BmDifTransBack x; Sc_ReflectSolBeamFront := Sc_ReflectSolBeamFront x;
     Sc_ReflectVisBeamFront := Sc_ReflectVisBeamFront x; Sc_AbsorpSolarBeamFront :=
     Sc_AbsorpSolarBeamFront x; Sc_ReflectSolBeamBack := Sc_ReflectSolBeamBack x;
     Sc_ReflectVisBeamBack := v; Sc_AbsorpSolarBeamBack := Sc_AbsorpSolarBeamBack x |}.

Definition set_Sc_AbsorpSolarBeamBack (v : R) (x : SurfaceScreenProperties) : SurfaceScreenProperties :=
  {| Sc_ScreenDiameterToSpacingRatio := Sc_ScreenDiameterToSpacingRatio x;
     Sc_ReflectCylinder := Sc_ReflectCylinder x; Sc_ReflectCylinderVis :=
     Sc_ReflectCylinderVis x; Sc_ScreenBeamReflectanceAccounting :=
     Sc_ScreenBeamReflectanceAccounting x; Sc_BmBmTrans := Sc_BmBmTrans x; Sc_BmBmTransVis
     := Sc_BmBmTransVis x; Sc_BmBmTransBack := Sc_BmBmTransBack x; Sc_BmDifTrans :=
     Sc_BmDifTrans x; Sc_BmDifTransVis := Sc_BmDifTransVis x; Sc_BmDifTransBack :=
     Sc_BmDifTransBack x; Sc_ReflectSolBeamFront := Sc_ReflectSolBeamFront x;
     Sc_ReflectVisBeamFront := Sc_ReflectVisBeamFront x; Sc_AbsorpSolarBeamFront :=
     Sc_AbsorpSolarBeamFront x; Sc_ReflectSolBeamBack := Sc_ReflectSolBeamBack x;
     Sc_ReflectVisBeamBack := Sc_ReflectVisBeamBack x; Sc_AbsorpSolarBeamBack := v |}.


(** What the routine reads besides [SurfaceScreens]. *)
Record ScreenEnvironment : Type := mkScreenEnvironment {
  SOLCOS : list R;                      (* direction cosines of the sun *)
  Surface_Azimuth : list R;             (* [Surface( SurfaceNum ).Azimuth], degrees *)
  Surface_Tilt : list R;                (* [Surface( SurfaceNum ).Tilt], degrees *)
  SurfaceWindow_ScreenNumber : list Z   (* [SurfaceWindow( SurfaceNum ).ScreenNumber] *)
}.

(** Modelled from the spec: [ShowFatalError] of [UtilityRoutines] is not
    among the sources.  It is "fatal -- halts the entire program", so a
    routine that calls it ends there with no result. *)
Inductive Outcome (A : Type) : Type :=
| FatalError
| Completed (a : A).
Arguments FatalError {A}.
Arguments Completed {A} a.

Section ScreenModel.
Local Open Scope R_scope.

(** [std::atan2( y, x )]. *)
Definition atan2 (y x : R) : R :=
  if Rltb 0 x then atan (y / x)
  else if Rltb x 0 then (if Rleb 0 y then atan (y / x) + PI else atan (y / x) - PI)
  else if Rltb 0 y then PI / 2
  else if Rltb y 0 then - (PI / 2)
  else 0.

(** [std::pow( x, y )] with a real exponent, for [0 <= x] and [0 < y]. *)
Definition powr (x y : R) : R := if Reqb x 0 then 0 else Rpower x y.

Definition Small : R := 1 / 10 ^ 9.   (* 1.E-9 *)

(** The angles the routine derives from its arguments (lines 1370-1412). *)
Record ScreenAngles : Type := mkScreenAngles {
  SunAzimuthToScreenNormal : R;
  SunAltitudeToScreenNormal : R;
  NormalAzimuth : R;
  NormalAltitude : R
}.

Variable env : ScreenEnvironment.

(** [SurfaceTilt0] is the value the local [SurfaceTilt] happens to hold
    when it is read without having been assigned (line 1411 after the
    [present( Phi )] branch). *)
Definition screen_angles (SurfaceNum : Z) (Phi Theta : option R) (ScreenNumber : option Z)
    (SurfaceTilt0 : R) : ScreenAngles :=
  let '(SunAzimuthToScreenNormal, NormalAzimuth) :=
    match Theta with
    | Some Theta =>
        let a := Rabs Theta in
        let a := if Rgtb a Pi then 0
                 else if Rgtb a PiOvr2 then Pi - a else a in
        (a, a)
    | None =>
        let SunAzimuth := atan2 (fget 0 (SOLCOS env) 1) (fget 0 (SOLCOS env) 2) in
        let SunAzimuth := if Rltb SunAzimuth 0 then SunAzimuth + 2 * Pi else SunAzimuth in
        let SurfaceAzimuth := fget 0 (Surface_Azimuth env) SurfaceNum * DegToRadians in
        let a := if Rgtb (Rabs (SunAzimuth - SurfaceAzimuth)) PiOvr2
                 then Rabs (SunAzimuth - SurfaceAzimuth) - PiOvr2
                 else Rabs (SunAzimuth - SurfaceAzimuth) in
        (a, SunAzimuth - SurfaceAzimuth)
    end in
  let '(SunAltitudeToScreenNormal, SunAltitude, SurfaceTilt) :=
    match Phi with
    | Some Phi =>
        let a := Rabs Phi in
        let a := if Rgtb a PiOvr2 then Pi - a else a in
        (a, a, SurfaceTilt0)
    | None =>
        let SunAltitude := PiOvr2 - acos (fget 0 (SOLCOS env) 3) in
        let SurfaceTilt := fget 0 (Surface_Tilt env) SurfaceNum * DegToRadians in
        let a := Rabs (SunAltitude + (SurfaceTilt - PiOvr2)) in
        let a := if Rgtb a PiOvr2 then a - PiOvr2 else a in
        (a, SunAltitude, SurfaceTilt)
    end in
  let NormalAltitude :=
    if (SurfaceNum =? 0)%Z || match ScreenNumber with Some _ => false | None => true end
    then SunAltitude
    else SunAltitude + (SurfaceTilt - PiOvr2) in
  mkScreenAngles SunAzimuthToScreenNormal SunAltitudeToScreenNormal
                 NormalAzimuth NormalAltitude.

(** Lines 1414-1422. *)
Definition IncidentAngle (a : ScreenAngles) : R :=
  if Rneb (NormalAltitude a) 0 && Rneb (NormalAzimuth a) 0 then
    acos (sin (NormalAltitude a)
          / (tan (NormalAzimuth a) * tan (NormalAltitude a) / sin (NormalAzimuth a)))
  else if Rneb (NormalAltitude a) 0 && Reqb (NormalAzimuth a) 0 then NormalAltitude a
  else if Reqb (NormalAltitude a) 0 && Rneb (NormalAzimuth a) 0 then NormalAzimuth a
  else 0.

(** Lines 1432-1445: vertical component of the direct beam transmittance. *)
Definition TransYDir (Gamma az alt : R) : R :=
  let Beta := PiOvr2 - az in
  if Rgtb Beta Small then
    if Rgtb (Rabs (alt - PiOvr2)) Small then
      let AlphaDblPrime := atan (tan alt / cos az) in
      Rmax 0 (1 - Gamma * (cos AlphaDblPrime
                           + sin AlphaDblPrime * tan alt
                             * sqrt (1 + (1 / tan Beta) ^ 2)))
    else 0
  else 0.

(** Lines 1447-1464: horizontal component of the direct beam transmittance. *)
Definition TransXDir (Gamma az alt : R) : R :=
  let COSMu := sqrt (cos alt ^ 2 * cos az ^ 2 + sin alt ^ 2) in
  if Rgtb COSMu Small then
    let Epsilon := acos (cos alt * cos az / COSMu) in
    let Eta := PiOvr2 - Epsilon in
    if Rneb (cos Epsilon) 0 then
      let MuPrime := atan (tan (acos COSMu) / cos Epsilon) in
      if Rneb Eta 0 then
        Rmax 0 (1 - Gamma * (cos MuPrime
                             + sin MuPrime * tan (acos COSMu)
                               * sqrt (1 + (1 / tan Eta) ^ 2)))
      else 0
    else 0
  else 1 - Gamma.

(** Line 1465. *)
Definition Tdirect (Gamma az alt : R) : R :=
  Rmax 0 (TransXDir Gamma az alt * TransYDir Gamma az alt).

(** Lines 1479-1505 for one band: the scattered transmittance of the
    empirical model before it is clamped, for the cylinder reflectance
    [Reflect] of the band. *)
Definition scatter_model (Gamma Reflect az alt : R) : R :=
  let DeltaMax := 89.7 - (10.0 * Gamma / 0.16) in
  let Delta := sqrt ((az / DegToRadians) ^ 2 + (alt / DegToRadians) ^ 2) in
  let Tscattermax := 0.0229 * Gamma + 0.2971 * Reflect - 0.03624 * Gamma ^ 2
                     + 0.04763 * Reflect ^ 2 - 0.44416 * Gamma * Reflect in
  let ExponentInterior := (- powr (Rabs (Delta - DeltaMax)) 2.0) / 600.0 in
  let ExponentExterior := (- powr (Rabs (Delta - DeltaMax)) 2.5) / 600.0 in
  let PeakToPlateauRatio := 1.0 / (0.2 * (1 - Gamma) * Reflect) in
  if Rgtb Delta DeltaMax then
    0.2 * (1.0 - Gamma) * Reflect * Tscattermax
      * (1.0 + (PeakToPlateauRatio - 1.0) * exp ExponentExterior)
    - (0.2 * (1.0 - Gamma) * Reflect * Tscattermax)
      * Rmax 0 ((Delta - DeltaMax) / (90.0 - DeltaMax))
  else
    0.2 * (1.0 - Gamma) * Reflect * Tscattermax
      * (1.0 + (PeakToPlateauRatio - 1.0) * exp ExponentInterior).

(** The test of line 1474. *)
Definition grazing (az alt : R) : bool :=
  Rltb (Rabs (az - PiOvr2)) Small || Rltb (Rabs (alt - PiOvr2)) Small.

(** Lines 1474-1508 for one band. *)
Definition Tscattered (Gamma Reflect az alt : R) : R :=
  Rmax 0 (if grazing az alt then 0 else scatter_model Gamma Reflect az alt).

(** Lines 1510-1566: the results are stored in the screen record. *)
Definition store_results (s : SurfaceScreenProperties)
    (Tdirect Tscattered TscatteredVis IncidentAngle : R) : SurfaceScreenProperties :=
  let front := Rleb (Rabs IncidentAngle) PiOvr2 in
  let ReflectCyl := Sc_ReflectCylinder s in
  let ReflectCylVis := Sc_ReflectCylinderVis s in
  let '(s, Tscattered, TscatteredVis) :=
    match Sc_ScreenBeamReflectanceAccounting s with
    | DoNotModel =>
        (if front
         then set_Sc_BmBmTransBack 0 (set_Sc_BmBmTransVis Tdirect (set_Sc_BmBmTrans Tdirect s))
         else set_Sc_BmBmTransBack Tdirect (set_Sc_BmBmTransVis 0 (set_Sc_BmBmTrans 0 s)),
         0, 0)
    | ModelAsDirectBeam =>
        (if front
         then set_Sc_BmBmTransBack 0
                (set_Sc_BmBmTransVis (Tdirect + TscatteredVis)
                   (set_Sc_BmBmTrans (Tdirect + Tscattered) s))
         else set_Sc_BmBmTransBack (Tdirect + Tscattered)
                (set_Sc_BmBmTransVis 0 (set_Sc_BmBmTrans 0 s)),
         0, 0)
    | ModelAsDiffuse =>
        (if front
         then set_Sc_BmBmTransBack 0 (set_Sc_BmBmTransVis Tdirect (set_Sc_BmBmTrans Tdirect s))
         else set_Sc_BmBmTransBack Tdirect (set_Sc_BmBmTransVis 0 (set_Sc_BmBmTrans 0 s)),
         Tscattered, TscatteredVis)
    end in
  if front then
    set_Sc_AbsorpSolarBeamBack 0
      (set_Sc_ReflectVisBeamBack 0
         (set_Sc_ReflectSolBeamBack 0
            (set_Sc_AbsorpSolarBeamFront (Rmax 0 ((1.0 - Tdirect) * (1.0 - ReflectCyl)))
               (set_Sc_ReflectVisBeamFront
                  (Rmax 0 (ReflectCylVis * (1.0 - Tdirect) - TscatteredVis))
                  (set_Sc_ReflectSolBeamFront
                     (Rmax 0 (ReflectCyl * (1.0 - Tdirect) - Tscattered))
                     (set_Sc_BmDifTransBack 0
                        (set_Sc_BmDifTransVis TscatteredVis
                           (set_Sc_BmDifTrans Tscattered s))))))))
  else
    set_Sc_AbsorpSolarBeamFront 0
      (set_Sc_ReflectVisBeamFront 0
         (set_Sc_ReflectSolBeamFront 0
            (set_Sc_AbsorpSolarBeamBack (Rmax 0 ((1.0 - Tdirect) * (1.0 - ReflectCyl)))
               (set_Sc_ReflectVisBeamBack
                  (Rmax 0 (ReflectCylVis * (1.0 - Tdirect) - TscatteredVis))
                  (set_Sc_ReflectSolBeamBack
                     (Rmax 0 (ReflectCyl * (1.0 - Tdirect) - Tscattered))
                     (set_Sc_BmDifTransBack Tscattered
                        (set_Sc_BmDifTransVis 0
                           (set_Sc_BmDifTrans 0 s)))))))).

(** Lines 1361-1368: the screen the call is about, unless the call is the
    forbidden one. *)
Definition screen_index (SurfaceNum : Z) (Phi Theta : option R) (ScreenNumber : option Z)
  : Outcome Z :=
  match ScreenNumber with
  | Some ScNum =>
      match Theta, Phi with
      | Some _, Some _ => Completed ScNum
      | _, _ => FatalError
      end
  | None => Completed (fget 0%Z (SurfaceWindow_ScreenNumber env) SurfaceNum)
  end.

(** The screen record after the call. *)
Definition screen_after (s : SurfaceScreenProperties) (SurfaceNum : Z) (Phi Theta : option R)
    (ScreenNumber : option Z) (SurfaceTilt0 : R) : SurfaceScreenProperties :=
  let a := screen_angles SurfaceNum Phi Theta ScreenNumber SurfaceTilt0 in
  let Gamma := Sc_ScreenDiameterToSpacingRatio s in
  let az := SunAzimuthToScreenNormal a in
  let alt := SunAltitudeToScreenNormal a in
  store_results s (Tdirect Gamma az alt)
                (Tscattered Gamma (Sc_ReflectCylinder s) az alt)
                (Tscattered Gamma (Sc_ReflectCylinderVis s) az alt)
                (IncidentAngle a).

Definition CalcScreenTransmittance (SurfaceScreens : list SurfaceScreenProperties)
    (SurfaceNum : Z) (Phi Theta : option R) (ScreenNumber : option Z) (SurfaceTilt0 : R)
  : Outcome (list SurfaceScreenProperties) :=
  match screen_index SurfaceNum Phi Theta ScreenNumber with
  | FatalError => FatalError
  | Completed ScNum =>
      let s := fget default_SurfaceScreenProperties SurfaceScreens ScNum in
      Completed (fset SurfaceScreens ScNum
                      (screen_after s SurfaceNum Phi Theta ScreenNumber SurfaceTilt0))
  end.
End ScreenModel.

(** ** Nominal U-value with film coefficients *)

(** The fields of a [Surface] element that [ComputeNominalUwithConvCoeffs]
    reads. *)
Record SurfaceData : Type := mkSurfaceData {
  Sur_ExtBoundCond : Z;
  Sur_Class : Z;
  Sur_Construction : Z
}.

Definition default_SurfaceData : SurfaceData :=
  {| Sur_ExtBoundCond := 0; Sur_Class := 0; Sur_Construction := 0 |}.

Section NominalUwithConvCoeffs.
Local Open Scope R_scope.

(** The named constants of [DataSurfaces] that the routine compares with;
    their values are not among the sources. *)
Variables SurfaceClass_Wall SurfaceClass_Floor SurfaceClass_Roof SurfaceClass_Door : Z.
Variables ExternalEnvironment Ground GroundFCfactorMethod : Z.

Variable Surface : list SurfaceData.
Variable NominalU : list R.

Definition Sur (numSurf : Z) : SurfaceData := fget default_SurfaceData Surface numSurf.

(** Lines 1692-1714: the exterior conditions. *)
Definition exterior_film (numSurf : Z) : R :=
  let ExtBoundCond := Sur_ExtBoundCond (Sur numSurf) in
  if (ExtBoundCond =? ExternalEnvironment)%Z then 0.0299387
  else if (ExtBoundCond =? Ground)%Z || (ExtBoundCond =? GroundFCfactorMethod)%Z then 0.0
  else if (ExtBoundCond >? 0)%Z then
    let Class := Sur_Class (Sur ExtBoundCond) in
    if (Class =? SurfaceClass_Wall)%Z || (Class =? SurfaceClass_Door)%Z then 0.1197548
    else if (Class =? SurfaceClass_Floor)%Z then 0.1620212
    else if (Class =? SurfaceClass_Roof)%Z then 0.1074271
    else 0.0810106
  else 0.0810106.

(** Lines 1716-1733: the interior conditions; the pair is
    [( insideFilm, outsideFilm )] after the selection. *)
Definition interior_film (numSurf : Z) (outsideFilm : R) : R * R :=
  let Class := Sur_Class (Sur numSurf) in
  if (Class =? SurfaceClass_Wall)%Z || (Class =? SurfaceClass_Door)%Z
  then (0.1197548, outsideFilm)
  else if (Class =? SurfaceClass_Floor)%Z then (0.1620212, outsideFilm)
  else if (Class =? SurfaceClass_Roof)%Z then (0.1074271, outsideFilm)
  else (0.0, 0.0).

(** The result is the returned value and [isValid].  The quotients of line
    1729 are exact here and rounded in the program, so that [1.0 / (1.0 / U)]
    is [U] here and may be one unit in the last place off in the program:
    what is proved of this routine is stated on the expression the routine
    evaluates and uses no identity that rounding breaks. *)
Definition ComputeNominalUwithConvCoeffs (numSurf : Z) : R * bool :=
  let isValid := true in
  let outsideFilm := exterior_film numSurf in
  let U := fget 0 NominalU (Sur_Construction (Sur numSurf)) in
  if Rgtb U 0.0 then
    let '(insideFilm, outsideFilm) := interior_film numSurf outsideFilm in
    (1.0 / (insideFilm + (1.0 / U) + outsideFilm), isValid)
  else (U, false).
End NominalUwithConvCoeffs.

(** * Properties *)

(** ** Arrays and loops *)

Lemma nset_length {A} (a : list A) n v : List.length (nset a n v) = List.length a.
Proof.
  revert n; induction a as [|h t IH]; intros [|n]; simpl; auto.
Qed.

Lemma fset_length {A} (a : list A) i v : List.length (fset a i v) = List.length a.
Proof.
  unfold fset. destruct (i <? 1); auto using nset_length.
Qed.

Lemma nth_nset_same {A} (d : A) a n v :
  (n < List.length a)%nat -> nth n (nset a n v) d = v.
Proof.
  revert n; induction a as [|h t IH]; intros [|n] H; simpl in *; try lia; auto.
  apply IH; lia.
Qed.

Lemma nth_nset_other {A} (d : A) a n m v :
  n <> m -> nth m (nset a n v) d = nth m a d.
Proof.
  revert n m; induction a as [|h t IH]; intros [|n] [|m] H; simpl; auto; try congruence.
Qed.

Lemma fget_fset_same {A} (d : A) a i v :
  1 <= i <= Z.of_nat (List.length a) -> fget d (fset a i v) i = v.
Proof.
  intros H. unfold fget, fset.
  destruct (i <? 1) eqn:E; [apply Z.ltb_lt in E; lia|].
  apply nth_nset_same. lia.
Qed.

Lemma fget_fset_other {A} (d : A) a i j v :
  i <> j -> fget d (fset a i v) j = fget d a j.
Proof.
  intros H. unfold fget, fset.
  destruct (j <? 1) eqn:Ej; auto.
  destruct (i <? 1) eqn:Ei; auto.
  apply Z.ltb_ge in Ej, Ei.
  apply nth_nset_other. lia.
Qed.

Lemma fget_out_of_range {A} (d : A) a i :
  Z.of_nat (List.length a) < i -> fget d a i = d.
Proof.
  intros H. unfold fget. destruct (i <? 1); auto.
  apply nth_overflow. lia.
Qed.

Lemma fget_app_l {A} (d : A) a b i :
  i <= Z.of_nat (List.length a) -> fget d (a ++ b) i = fget d a i.
Proof.
  intros H. unfold fget. destruct (i <? 1) eqn:E; auto.
  apply Z.ltb_ge in E. apply app_nth1. lia.
Qed.

Lemma fget_app_last {A} (d : A) a v :
  fget d (a ++ [v]) (Z.of_nat (List.length a) + 1) = v.
Proof.
  unfold fget. destruct (_ <? 1) eqn:E; [apply Z.ltb_lt in E; lia|].
  replace (Z.to_nat (Z.of_nat (List.length a) + 1 - 1)) with (List.length a) by lia.
  rewrite app_nth2, Nat.sub_diag; auto.
Qed.

Lemma in_upto lo hi i : In i (upto lo hi) <-> lo <= i <= hi.
Proof.
  unfold upto. rewrite in_map_iff. split.
  - intros (k & <- & Hk). apply in_seq in Hk. lia.
  - intros H. exists (Z.to_nat (i - lo)). split; [lia|]. apply in_seq. lia.
Qed.

Lemma upto_empty lo hi : hi < lo -> upto lo hi = [].
Proof.
  intros H. unfold upto. replace (Z.to_nat (hi - lo + 1)) with O by lia. reflexivity.
Qed.

Lemma upto_snoc lo hi : lo <= hi + 1 -> upto lo (hi + 1) = upto lo hi ++ [hi + 1].
Proof.
  intros H. unfold upto.
  replace (Z.to_nat (hi + 1 - lo + 1)) with (S (Z.to_nat (hi - lo + 1))) by lia.
  rewrite seq_S, map_app. simpl. f_equal. f_equal. lia.
Qed.

Lemma upto_length lo hi : List.length (upto lo hi) = Z.to_nat (hi - lo + 1).
Proof. unfold upto. now rewrite length_map, length_seq. Qed.

(** A loop that only ever raises a flag computes an [existsb]. *)
Lemma for_each_flag (hit : Z -> bool) (body : Z -> bool -> bool) idx acc :
  (forall i b, body i b = if hit i then true else b) ->
  for_each idx body acc = acc || existsb hit idx.
Proof.
  intros Hb. unfold for_each. revert acc.
  induction idx as [|i t IH]; intros acc; simpl.
  - now rewrite orb_false_r.
  - rewrite IH, Hb. destruct (hit i), acc; reflexivity.
Qed.

(** A loop that only ever shows messages never lowers the error flag. *)
Lemma for_each_invariant {S} (P : S -> Prop) (body : Z -> S -> S) idx s :
  (forall i x, P x -> P (body i x)) -> P s -> P (for_each idx body s).
Proof.
  intros Hb. unfold for_each. revert s.
  induction idx as [|i t IH]; intros s Hs; simpl; auto.
Qed.

Lemma for_each_break_invariant {S} (P : S -> Prop) (body : Z -> S -> S * bool) idx s :
  (forall i x, P x -> P (fst (body i x))) -> P s -> P (for_each_break idx body s).
Proof.
  intros Hb. revert s.
  induction idx as [|i t IH]; intros s Hs; simpl; auto.
  specialize (Hb i s Hs). destruct (body i s) as [s' brk]. simpl in Hb.
  destruct brk; auto.
Qed.

(** ** The validator leaves the layers of a construction alone *)

Section ValidatorFrame.
Variable Material : list MaterialProperties.
Variable Blind : list WindowBlindProperties.

(** The fields of a construction that the checks read: no stage of the
    routine changes them. *)
Definition same_input (c c' : ConstructionData) : Prop :=
  Con_TotLayers c' = Con_TotLayers c /\ Con_LayerPoint c' = Con_LayerPoint c
  /\ Con_WindowTypeBSDF c' = Con_WindowTypeBSDF c
  /\ Con_WindowTypeEQL c' = Con_WindowTypeEQL c.

(** Once the classification is done [TypeIsWindow] stays as well. *)
Definition same_layers (c c' : ConstructionData) : Prop :=
  same_input c c' /\ Con_TypeIsWindow c' = Con_TypeIsWindow c.

Lemma same_input_trans c1 c2 c3 :
  same_input c1 c2 -> same_input c2 c3 -> same_input c1 c3.
Proof. unfold same_input. intros (?&?&?&?) (?&?&?&?). repeat split; congruence. Qed.

Lemma same_layers_trans c1 c2 c3 :
  same_layers c1 c2 -> same_layers c2 c3 -> same_layers c1 c3.
Proof.
  unfold same_layers. intros (?&?) (?&?). split; [eapply same_input_trans; eauto|congruence].
Qed.

Lemma inside_absorptances_same_layers c m :
  same_layers c (inside_absorptances Material c m).
Proof.
  unfold inside_absorptances, same_layers, same_input.
  destruct (negb (m =? 0)); simpl; auto 6.
Qed.

Lemma outside_absorptances_same_layers c m :
  same_layers c (outside_absorptances Material c m).
Proof.
  unfold outside_absorptances, same_layers, same_input.
  destruct (negb (m =? 0)); simpl; auto 6.
Qed.

Lemma classify_same_input c : same_input c (classify Material c).
Proof. unfold classify, same_input; simpl; auto. Qed.

Lemma opaque_branch_same_layers c i : same_layers c (opaque_branch Material c i).
Proof. unfold opaque_branch, same_layers, same_input; simpl; auto 6. Qed.

Lemma boundary_checks_same_layers c r i :
  same_layers c (fst (boundary_checks Material c r i)).
Proof.
  unfold boundary_checks, same_layers, same_input.
  destruct (LayerGroup Material _ 1 =? EcoRoof);
    destruct (LayerGroup Material _ 1 =? IRTMaterial); simpl; auto 6.
Qed.

Lemma window_totals_same_layers c n i m :
  same_layers c (fst (window_totals Material c n i m)).
Proof.
  unfold window_totals, same_layers, same_input. cbv zeta.
  match goal with |- context [if ?b then set_Con_InsideAbsorpThermal _ _ else _] =>
    destruct b end;
  match goal with |- context [if ?b then set_Con_InsideAbsorpSolar _ _ else _] =>
    destruct b end;
  match goal with |- context [if ?b then set_Con_OutsideAbsorpThermal _ _ else _] =>
    destruct b end; simpl; auto 6.
Qed.

Lemma window_branch_same_layers c r i m :
  match window_branch Material Blind c r i m with
  | Return c' _ => same_layers c c'
  | Continue (c', _, _) => same_layers c c'
  end.
Proof.
  unfold window_branch. cbv zeta.
  destruct (Con_WindowTypeBSDF _); [unfold same_layers, same_input; simpl; auto 6|].
  destruct (Con_WindowTypeEQL _); [unfold same_layers, same_input; simpl; auto 6|].
  match goal with |- context [window_totals _ ?x ?n ?i ?m] =>
    pose proof (window_totals_same_layers x n i m) as H;
    destruct (window_totals Material x n i m) as [c' i'] end.
  simpl in H. exact H.
Qed.

(** The stages before the classification keep what the checks read. *)
Lemma before_classify_same_input c m1 m2 :
  same_input c (outside_absorptances Material (inside_absorptances Material c m1) m2).
Proof.
  eapply same_input_trans.
  - apply inside_absorptances_same_layers.
  - apply outside_absorptances_same_layers.
Qed.

(** After the classification nothing touches [TypeIsWindow], the layer
    count or the layer references. *)
Lemma after_classify_same_layers c r i m :
  same_layers c
    (fst (match (if Con_TypeIsWindow c
                 then window_branch Material Blind c r i m
                 else Continue (opaque_branch Material c i, r, i)) with
          | Return c' r' => (c', r')
          | Continue (c', r', i') => boundary_checks Material c' r' i'
          end)).
Proof.
  destruct (Con_TypeIsWindow c).
  - pose proof (window_branch_same_layers c r i m) as Hw.
    destruct (window_branch Material Blind c r i m) as [c' r'|[[c' r'] i']]; simpl; auto.
    eapply same_layers_trans; [exact Hw|apply boundary_checks_same_layers].
  - eapply same_layers_trans; [apply opaque_branch_same_layers|].
    apply boundary_checks_same_layers.
Qed.

(** The routine never changes the layer count, the layer references or
    the kind of window model of a construction. *)
Lemma check_construction_same_input c r :
  same_input c (fst (check_construction Material Blind c r)).
Proof.
  unfold check_construction.
  destruct (LayerPoint c (Con_TotLayers c) <=? 0); [unfold same_input; simpl; auto|].
  destruct (Con_TotLayers c =? 0); [unfold same_input; simpl; auto|].
  cbv zeta.
  match goal with |- context [classify _ ?x] =>
    assert (Hc : same_input c (classify Material x))
      by (eapply same_input_trans;
          [apply before_classify_same_input|apply classify_same_input]);
    set (c2 := classify Material x) in * end.
  clearbody c2.
  destruct (LayerPoint c (Con_TotLayers c) =? 0); [exact Hc|].
  destruct (LayerPoint _ 1 =? 0); [exact Hc|].
  eapply same_input_trans; [exact Hc|].
  apply after_classify_same_layers.
Qed.
End ValidatorFrame.

(** ** Window classification *)

(** The material groups that make a construction a window. *)
Definition window_groups : list Z :=
  [WindowGlass; WindowGas; WindowGasMixture; Shade; WindowBlind; Screen;
   WindowSimpleGlazing; ComplexWindowShade; ComplexWindowGap; GlassEquivalentLayer;
   ShadeEquivalentLayer; DrapeEquivalentLayer; ScreenEquivalentLayer;
   BlindEquivalentLayer; GapEquivalentLayer].

Lemma is_window_group_In g : is_window_group g = true <-> In g window_groups.
Proof.
  unfold is_window_group, window_groups. simpl.
  repeat rewrite orb_true_iff. repeat rewrite Z.eqb_eq.
  intuition (subst; auto).
Qed.

Lemma not_window_group_negb g : not_window_group g = negb (is_window_group g).
Proof.
  unfold not_window_group, is_window_group.
  repeat rewrite negb_orb.
  destruct (g =? WindowGlass), (g =? WindowGas), (g =? WindowGasMixture), (g =? Shade),
    (g =? WindowBlind), (g =? Screen), (g =? WindowSimpleGlazing),
    (g =? ComplexWindowShade), (g =? ComplexWindowGap), (g =? GlassEquivalentLayer);
    simpl; auto;
  destruct (g =? GapEquivalentLayer), (g =? ShadeEquivalentLayer),
    (g =? DrapeEquivalentLayer), (g =? ScreenEquivalentLayer),
    (g =? BlindEquivalentLayer); reflexivity.
Qed.

Section Classification.
Variable Material : list MaterialProperties.
Variable Blind : list WindowBlindProperties.

(** Layer [Layer] refers to a material of a window group. *)
Definition window_layer (c : ConstructionData) (Layer : Z) : bool :=
  negb (LayerPoint c Layer =? 0) && is_window_group (LayerGroup Material c Layer).

Lemma classify_loop c c' idx :
  Con_LayerPoint c' = Con_LayerPoint c ->
  for_each idx (classify_step Material c') false = existsb (window_layer c) idx.
Proof.
  intros H. rewrite for_each_flag with (hit := window_layer c); auto.
  intros i b. unfold classify_step, window_layer, LayerGroup, LayerPoint. rewrite H.
  destruct (fget 0 (Con_LayerPoint c) i =? 0); simpl; auto.
Qed.

Lemma check_construction_classifies c r :
  1 <= Con_TotLayers c -> 0 < LayerPoint c (Con_TotLayers c) ->
  Con_TypeIsWindow (fst (check_construction Material Blind c r))
  = existsb (window_layer c) (upto 1 (Con_TotLayers c)).
Proof.
  intros Hn Hin. unfold check_construction.
  destruct (LayerPoint c (Con_TotLayers c) <=? 0) eqn:E1; [apply Z.leb_le in E1; lia|].
  destruct (Con_TotLayers c =? 0) eqn:E2; [apply Z.eqb_eq in E2; lia|].
  cbv zeta.
  match goal with |- context [classify _ ?x] =>
    pose proof (before_classify_same_input Material c (LayerPoint c (Con_TotLayers c))
                  (LayerPoint (inside_absorptances Material c
                                 (LayerPoint c (Con_TotLayers c))) 1))
      as (Hb1 & Hb2 & _);
    set (c1 := x) in * end.
  clearbody c1.
  assert (Htw : Con_TypeIsWindow (classify Material c1)
                = existsb (window_layer c) (upto 1 (Con_TotLayers c))).
  { unfold classify. simpl. rewrite Hb1. apply classify_loop. exact Hb2. }
  destruct (LayerPoint c (Con_TotLayers c) =? 0); [exact Htw|].
  destruct (LayerPoint _ 1 =? 0); [exact Htw|].
  match goal with |- context [window_branch _ _ _ ?r ?i ?m] =>
    pose proof (after_classify_same_layers Material Blind (classify Material c1) r i m)
      as (_ & H3) end.
  rewrite H3. exact Htw.
Qed.

(** C2.  For a construction with at least one layer whose innermost layer
    reference is valid, [CheckAndSetConstructionProperties] sets
    [TypeIsWindow] exactly when some layer of the construction refers to a
    material whose group is one of the window groups; for a single-layer
    construction that is: exactly when the group of its layer is one. *)
Theorem C2_window_classification (Construct : list ConstructionData) (ConstrNum : Z)
    (r : Report) :
  let c := fget default_ConstructionData Construct ConstrNum in
  let c' := fget default_ConstructionData
              (fst (CheckAndSetConstructionProperties Material Blind Construct ConstrNum r))
              ConstrNum in
  1 <= ConstrNum <= Z.of_nat (List.length Construct) ->
  1 <= Con_TotLayers c ->
  0 < LayerPoint c (Con_TotLayers c) ->
  (Con_TypeIsWindow c' = true <->
   exists Layer, 1 <= Layer <= Con_TotLayers c /\ LayerPoint c Layer <> 0
                 /\ In (LayerGroup Material c Layer) window_groups)
  /\ (Con_TotLayers c = 1 ->
      (Con_TypeIsWindow c' = true <-> In (LayerGroup Material c 1) window_groups)).
Proof.
  intros c c' Hidx Hn Hin.
  assert (Hc' : c' = fst (check_construction Material Blind c r)).
  { subst c'. unfold CheckAndSetConstructionProperties. fold c.
    destruct (check_construction Material Blind c r) as [c2 r2]. simpl.
    apply fget_fset_same. exact Hidx. }
  assert (Hiff : Con_TypeIsWindow c' = true <->
            exists Layer, 1 <= Layer <= Con_TotLayers c /\ LayerPoint c Layer <> 0
                          /\ In (LayerGroup Material c Layer) window_groups).
  { rewrite Hc', check_construction_classifies by assumption.
    rewrite existsb_exists. split.
    - intros (Layer & HL & Hw). exists Layer. apply in_upto in HL.
      unfold window_layer in Hw. apply andb_true_iff in Hw as [H1 H2].
      apply negb_true_iff, Z.eqb_neq in H1. apply is_window_group_In in H2. auto.
    - intros (Layer & HL & H1 & H2). exists Layer. split; [apply in_upto; exact HL|].
      unfold window_layer. apply andb_true_iff. split.
      + apply negb_true_iff, Z.eqb_neq. exact H1.
      + apply is_window_group_In. exact H2. }
  split; [exact Hiff|].
  intros H1. rewrite Hiff. rewrite H1 in *. split.
  - intros (Layer & HL & _ & Hg). replace Layer with 1 in Hg by lia. exact Hg.
  - intros Hg. exists 1. repeat split; try lia. exact Hg.
Qed.
End Classification.

(** ** The messages of the validator as a function of its input *)

Section ReportShape.
Variable Material : list MaterialProperties.
Variable Blind : list WindowBlindProperties.

(** The messages of lines 973-1005. *)
Definition boundary_report (c : ConstructionData) (r : Report) (InsideLayer : Z) : Report :=
  let r := if LayerGroup Material c 1 =? Air then severe MsgOutsideLayerAir r else r in
  let r :=
    if InsideLayer >? 0 then
      if LayerGroup Material c InsideLayer =? Air then severe MsgInsideLayerAir r else r
    else r in
  let r :=
    if LayerGroup Material c 1 =? EcoRoof
    then for_each (upto 2 (Con_TotLayers c)) (ecoroof_step Material c) r
    else r in
  if LayerGroup Material c 1 =? IRTMaterial
  then if negb (Con_TotLayers c =? 1) then severe MsgIRTTooManyLayers r else r
  else r.

Lemma boundary_checks_report c r i :
  snd (boundary_checks Material c r i) = boundary_report c r i.
Proof.
  unfold boundary_checks, boundary_report, LayerGroup, LayerPoint, ecoroof_step.
  cbn [Con_LayerPoint Con_TotLayers set_Con_OutsideRoughness].
  destruct (Mat_Group (Mat Material (fget 0 (Con_LayerPoint c) 1)) =? EcoRoof);
    cbn [Con_LayerPoint Con_TotLayers set_Con_OutsideRoughness set_Con_TypeIsEcoRoof];
    destruct (Mat_Group (Mat Material (fget 0 (Con_LayerPoint c) 1)) =? IRTMaterial);
    reflexivity.
Qed.

(** The checks read a construction through the fields of [same_input] only. *)
Lemma same_input_reports c c' :
  same_input c c' ->
  (forall r, materials_check Material c' r = materials_check Material c r)
  /\ count_layers Material c' = count_layers Material c
  /\ (forall n r, layering_checks Material Blind c' n r
                  = layering_checks Material Blind c n r)
  /\ (forall n i m, snd (window_totals Material c' n i m)
                    = snd (window_totals Material c n i m))
  /\ (forall r i, boundary_report c' r i = boundary_report c r i).
Proof.
  intros (H1 & H2 & H3 & H4).
  destruct c, c'. simpl in H1, H2, H3, H4. subst.
  repeat split; intros; reflexivity.
Qed.

(** [InsideLayer] as lines 948-950 leave it. *)
Definition inside_glass_layer (c : ConstructionData) : Z :=
  if (LayerGroup Material c (Con_TotLayers c) =? Shade)
     || (LayerGroup Material c (Con_TotLayers c) =? WindowBlind)
  then Con_TotLayers c - 1 else Con_TotLayers c.

(** The messages of the routine for a construction that passes the tests
    of lines 679, 680, 714 and 715. *)
Definition construction_report (c : ConstructionData) (r : Report) : Report :=
  if existsb (window_layer Material c) (upto 1 (Con_TotLayers c)) then
    let r := materials_check Material c r in
    if Con_WindowTypeBSDF c then r
    else if Con_WindowTypeEQL c then r
    else boundary_report c (layering_checks Material Blind c (count_layers Material c) r)
                         (inside_glass_layer c)
  else boundary_report c r (Con_TotLayers c).

Lemma check_construction_report c r :
  0 < LayerPoint c (Con_TotLayers c) -> Con_TotLayers c <> 0 -> LayerPoint c 1 <> 0 ->
  snd (check_construction Material Blind c r) = construction_report c r.
Proof.
  intros Hin Hn Hout. unfold check_construction.
  destruct (LayerPoint c (Con_TotLayers c) <=? 0) eqn:E1; [apply Z.leb_le in E1; lia|].
  destruct (Con_TotLayers c =? 0) eqn:E2; [apply Z.eqb_eq in E2; lia|].
  cbv zeta.
  set (c0 := inside_absorptances Material c (LayerPoint c (Con_TotLayers c))).
  assert (Ho : LayerPoint c0 1 = LayerPoint c 1).
  { pose proof (inside_absorptances_same_layers Material c
                  (LayerPoint c (Con_TotLayers c))) as ((_ & Hi & _) & _).
    fold c0 in Hi. unfold LayerPoint at 1 2. now rewrite Hi. }
  rewrite Ho.
  pose proof (before_classify_same_input Material c (LayerPoint c (Con_TotLayers c))
                (LayerPoint c 1)) as Hb.
  fold c0 in Hb.
  set (c1 := outside_absorptances Material c0 (LayerPoint c 1)) in *.
  clearbody c1. clear Ho. clearbody c0.
  assert (Htw : Con_TypeIsWindow (classify Material c1)
                = existsb (window_layer Material c) (upto 1 (Con_TotLayers c))).
  { destruct Hb as (Hb1 & Hb2 & _).
    unfold classify. simpl. rewrite Hb1. apply classify_loop. exact Hb2. }
  assert (Hin2 : same_input c (classify Material c1)).
  { eapply same_input_trans; [exact Hb|apply classify_same_input]. }
  set (c2 := classify Material c1) in *. clearbody c2.
  destruct (LayerPoint c (Con_TotLayers c) =? 0) eqn:E3; [apply Z.eqb_eq in E3; lia|].
  destruct (LayerPoint c 1 =? 0) eqn:E4; [apply Z.eqb_eq in E4; lia|].
  unfold construction_report. rewrite Htw.
  destruct (existsb _ _).
  - unfold window_branch. cbv zeta.
    set (c3 := set_Con_NumHistories 0 (set_Con_NumCTFTerms 0 c2)).
    assert (Hin3 : same_input c c3).
    { subst c3. unfold same_input in *. simpl. tauto. }
    clearbody c3.
    destruct (same_input_reports c c3 Hin3) as (R1 & R2 & R3 & R4 & R5).
    destruct Hin3 as (T3 & L3 & B3 & Q3).
    rewrite B3, Q3, R1, R2.
    destruct (Con_WindowTypeBSDF c) eqn:EB; [reflexivity|].
    destruct (Con_WindowTypeEQL c) eqn:EQ; [reflexivity|].
    rewrite R3.
    pose proof (window_totals_same_layers Material c3 (count_layers Material c)
                  (Con_TotLayers c) (LayerPoint c (Con_TotLayers c))) as (Hw & _).
    pose proof (R4 (count_layers Material c) (Con_TotLayers c)
                  (LayerPoint c (Con_TotLayers c))) as Hs.
    destruct (window_totals Material c3 _ _ _) as [c4 i4]. simpl in Hw, Hs.
    rewrite boundary_checks_report.
    assert (Hin4 : same_input c c4).
    { eapply same_input_trans; [|exact Hw]. repeat split; congruence. }
    destruct (same_input_reports c c4 Hin4) as (_ & _ & _ & _ & R6).
    rewrite R6. subst i4. reflexivity.
  - rewrite boundary_checks_report.
    pose proof (opaque_branch_same_layers Material c2 (Con_TotLayers c)) as (Hop & _).
    destruct (same_input_reports c _ (same_input_trans _ _ _ Hin2 Hop))
      as (_ & _ & _ & _ & R6).
    apply R6.
Qed.
End ReportShape.

(** ** Constructions with a between-glass shade or blind *)

Lemma is_gas_group_cases g : is_gas_group g = true -> g = WindowGas \/ g = WindowGasMixture.
Proof.
  unfold is_gas_group. rewrite orb_true_iff, !Z.eqb_eq. auto.
Qed.

Lemma is_shade_or_blind_cases g :
  is_shade_or_blind_not_screen g = true -> g = Shade \/ g = WindowBlind.
Proof.
  unfold is_shade_or_blind_not_screen. rewrite andb_true_iff, orb_true_iff, !Z.eqb_eq.
  tauto.
Qed.

Section BetweenGlass.
Variable Material : list MaterialProperties.
Variable Blind : list WindowBlindProperties.

#[local] Arguments LayerPoint : simpl never.
#[local] Arguments LayerGroup : simpl never.
#[local] Arguments Mat : simpl never.
#[local] Arguments count_step : simpl never.
#[local] Arguments diffusing_glass_checks : simpl never.
#[local] Arguments adjacent_gas_check : simpl never.

(** A layer whose material has a group of the list refers to a material. *)
Lemma group_known_ref_nonzero c Layer g :
  LayerGroup Material c Layer = g -> (g =? -1) = false ->
  (LayerPoint c Layer =? 0) = false.
Proof.
  intros H Hg. apply Z.eqb_neq in Hg. apply Z.eqb_neq. intros H0. apply Hg. rewrite <- H.
  unfold LayerGroup. rewrite H0. reflexivity.
Qed.

Lemma group_known_ref_positive c Layer g :
  LayerGroup Material c Layer = g -> (g =? -1) = false -> 0 < LayerPoint c Layer.
Proof.
  intros H Hg. apply Z.eqb_neq in Hg.
  destruct (Z_lt_le_dec 0 (LayerPoint c Layer)) as [|Hle]; auto.
  exfalso. apply Hg. rewrite <- H. unfold LayerGroup, Mat, fget.
  destruct (LayerPoint c Layer <? 1) eqn:E; [reflexivity|]. apply Z.ltb_ge in E. lia.
Qed.

Lemma count_step_layer c T L a b d w g :
  (LayerPoint c L =? 0) = false ->
  Mat_Group (Mat Material (LayerPoint c L)) = g ->
  count_step Material c T L (mkLayerCounts a b d w) =
  mkLayerCounts
    (let glass := if g =? WindowGlass then a + 1 else a in
     if g =? WindowSimpleGlazing then glass + 1 else glass)
    (if (g =? Shade) || (g =? WindowBlind) || (g =? Screen) || (g =? ComplexWindowShade)
     then b + 1 else b)
    (if (g =? WindowGas) || (g =? WindowGasMixture) || (g =? ComplexWindowGap)
     then d + 1 else d)
    (if L <? T then
       if LayerPoint c (L + 1) =? 0 then w
       else if g =? Mat_Group (Mat Material (LayerPoint c (L + 1))) then true else w
     else w).
Proof.
  intros Hz Hg. unfold count_step. rewrite Hz, Hg. reflexivity.
Qed.

Lemma double_pane_groups c :
  double_pane_pattern Material c = true ->
  LayerGroup Material c 1 = WindowGlass
  /\ (LayerGroup Material c 2 = WindowGas \/ LayerGroup Material c 2 = WindowGasMixture)
  /\ (LayerGroup Material c 3 = Shade \/ LayerGroup Material c 3 = WindowBlind)
  /\ (LayerGroup Material c 4 = WindowGas \/ LayerGroup Material c 4 = WindowGasMixture)
  /\ LayerGroup Material c 5 = WindowGlass.
Proof.
  unfold double_pane_pattern. rewrite !andb_true_iff, !Z.eqb_eq.
  intros ((((H1 & H2) & H3) & H4) & H5).
  repeat split; auto using is_gas_group_cases, is_shade_or_blind_cases.
Qed.

Lemma triple_pane_groups c :
  triple_pane_pattern Material c = true ->
  LayerGroup Material c 1 = WindowGlass
  /\ (LayerGroup Material c 2 = WindowGas \/ LayerGroup Material c 2 = WindowGasMixture)
  /\ LayerGroup Material c 3 = WindowGlass
  /\ (LayerGroup Material c 4 = WindowGas \/ LayerGroup Material c 4 = WindowGasMixture)
  /\ (LayerGroup Material c 5 = Shade \/ LayerGroup Material c 5 = WindowBlind)
  /\ (LayerGroup Material c 6 = WindowGas \/ LayerGroup Material c 6 = WindowGasMixture)
  /\ LayerGroup Material c 7 = WindowGlass.
Proof.
  unfold triple_pane_pattern. rewrite !andb_true_iff, !Z.eqb_eq.
  intros ((((((H1 & H2) & H3) & H4) & H5) & H6) & H7).
  repeat split; auto using is_gas_group_cases, is_shade_or_blind_cases.
Qed.

(** One pass of the counting loop over a layer of known group, followed by
    the facts on the next layer. *)
Ltac count_layer k Hz Hg :=
  rewrite (count_step_layer _ _ k _ _ _ _ _ Hz Hg); simpl.
Ltac next_layer Hz Hg := rewrite Hz, Hg; simpl.

Lemma count_layers_double c :
  Con_TotLayers c = 5 -> double_pane_pattern Material c = true ->
  count_layers Material c = mkLayerCounts 2 1 2 false.
Proof.
  intros Hn Hp. apply double_pane_groups in Hp.
  destruct Hp as (H1 & [H2|H2] & [H3|H3] & [H4|H4] & H5);
  unfold count_layers; rewrite Hn;
  change (upto 1 5) with [1; 2; 3; 4; 5];
  unfold for_each; cbn [fold_left];
    (assert (Z1 := group_known_ref_nonzero c 1 _ H1 eq_refl);
     assert (Z2 := group_known_ref_nonzero c 2 _ H2 eq_refl);
     assert (Z3 := group_known_ref_nonzero c 3 _ H3 eq_refl);
     assert (Z4 := group_known_ref_nonzero c 4 _ H4 eq_refl);
     assert (Z5 := group_known_ref_nonzero c 5 _ H5 eq_refl);
     unfold LayerGroup in *;
     count_layer 1 Z1 H1; next_layer Z2 H2;
     count_layer 2 Z2 H2; next_layer Z3 H3;
     count_layer 3 Z3 H3; next_layer Z4 H4;
     count_layer 4 Z4 H4; next_layer Z5 H5;
     count_layer 5 Z5 H5; reflexivity).
Qed.

Lemma count_layers_triple c :
  Con_TotLayers c = 7 -> triple_pane_pattern Material c = true ->
  count_layers Material c = mkLayerCounts 3 1 3 false.
Proof.
  intros Hn Hp. apply triple_pane_groups in Hp.
  destruct Hp as (H1 & [H2|H2] & H3 & [H4|H4] & [H5|H5] & [H6|H6] & H7);
  unfold count_layers; rewrite Hn;
  change (upto 1 7) with [1; 2; 3; 4; 5; 6; 7];
  unfold for_each; cbn [fold_left];
    (assert (Z1 := group_known_ref_nonzero c 1 _ H1 eq_refl);
     assert (Z2 := group_known_ref_nonzero c 2 _ H2 eq_refl);
     assert (Z3 := group_known_ref_nonzero c 3 _ H3 eq_refl);
     assert (Z4 := group_known_ref_nonzero c 4 _ H4 eq_refl);
     assert (Z5 := group_known_ref_nonzero c 5 _ H5 eq_refl);
     assert (Z6 := group_known_ref_nonzero c 6 _ H6 eq_refl);
     assert (Z7 := group_known_ref_nonzero c 7 _ H7 eq_refl);
     unfold LayerGroup in *;
     count_layer 1 Z1 H1; next_layer Z2 H2;
     count_layer 2 Z2 H2; next_layer Z3 H3;
     count_layer 3 Z3 H3; next_layer Z4 H4;
     count_layer 4 Z4 H4; next_layer Z5 H5;
     count_layer 5 Z5 H5; next_layer Z6 H6;
     count_layer 6 Z6 H6; next_layer Z7 H7;
     count_layer 7 Z7 H7; reflexivity).
Qed.

(** A layer sequence glass / gas / shade or blind / gas / glass, or
    glass / gas / glass / gas / shade or blind / gas / glass. *)
Definition between_glass_construction (c : ConstructionData) : Prop :=
  (Con_TotLayers c = 5 /\ double_pane_pattern Material c = true)
  \/ (Con_TotLayers c = 7 /\ triple_pane_pattern Material c = true).

(** The messages the routine shows for such a construction: the ones of
    the diffusing-glass rules and of the slat width, and the rulebook when
    the adjacent gas layers differ. *)
Definition between_glass_report (c : ConstructionData) (r : Report) : Report :=
  let rd := diffusing_glass_checks Material c (count_layers Material c) r in
  let '(wrong, r') :=
    adjacent_gas_check Material Blind c (Con_TotLayers c - 2)
                       (LayerPoint c (Con_TotLayers c - 2)) rd in
  if wrong then severe MsgWindowLayeringRules r' else r'.

Lemma mix_loop c idx :
  for_each idx (mix_step Material c) false
  = existsb (fun Layer => negb (LayerPoint c Layer =? 0)
                          && not_window_group (LayerGroup Material c Layer)) idx.
Proof.
  rewrite for_each_flag with
    (hit := fun Layer => negb (LayerPoint c Layer =? 0)
                         && not_window_group (LayerGroup Material c Layer)); auto.
  intros i b. unfold mix_step, LayerGroup.
  destruct (LayerPoint c i =? 0); simpl; auto.
Qed.

Opaque adjacent_gas_check diffusing_glass_checks.

Lemma construction_report_double c r :
  Con_TotLayers c = 5 -> double_pane_pattern Material c = true ->
  Con_WindowTypeBSDF c = false -> Con_WindowTypeEQL c = false ->
  construction_report Material Blind c r = between_glass_report c r.
Proof.
  intros Hn Hp HB HQ.
  pose proof (count_layers_double c Hn Hp) as Hc.
  pose proof (double_pane_groups c Hp) as (H1 & H2 & H3 & H4 & H5).
  unfold construction_report, between_glass_report, materials_check.
  rewrite mix_loop, HB, HQ, Hc, Hn.
  change (upto 1 5) with [1; 2; 3; 4; 5].
  assert (Z1 := group_known_ref_nonzero c 1 _ H1 eq_refl).
  unfold window_layer. cbn [existsb]. rewrite Z1, H1. simpl.
  destruct H2 as [H2|H2], H3 as [H3|H3], H4 as [H4|H4];
    (assert (Z2 := group_known_ref_nonzero c 2 _ H2 eq_refl);
     assert (Z3 := group_known_ref_nonzero c 3 _ H3 eq_refl);
     assert (Z4 := group_known_ref_nonzero c 4 _ H4 eq_refl);
     assert (Z5 := group_known_ref_nonzero c 5 _ H5 eq_refl);
     rewrite Z2, Z3, Z4, Z5, H2, H3, H4, H5; simpl;
     unfold layering_checks, shading_between_glass, inside_glass_layer, boundary_report,
       between_glass_check;
     rewrite Hn, H1, H5, Hp; simpl;
     rewrite ?H5; simpl;
     unfold LayerGroup in H3; rewrite H3; simpl;
     destruct (adjacent_gas_check _ _ _ _ _ _) as [wrong r']; simpl;
     destruct wrong; reflexivity).
Qed.

Lemma construction_report_triple c r :
  Con_TotLayers c = 7 -> triple_pane_pattern Material c = true ->
  Con_WindowTypeBSDF c = false -> Con_WindowTypeEQL c = false ->
  construction_report Material Blind c r = between_glass_report c r.
Proof.
  intros Hn Hp HB HQ.
  pose proof (count_layers_triple c Hn Hp) as Hc.
  pose proof (triple_pane_groups c Hp) as (H1 & H2 & H3 & H4 & H5 & H6 & H7).
  unfold construction_report, between_glass_report, materials_check.
  rewrite mix_loop, HB, HQ, Hc, Hn.
  change (upto 1 7) with [1; 2; 3; 4; 5; 6; 7].
  assert (Z1 := group_known_ref_nonzero c 1 _ H1 eq_refl).
  unfold window_layer. cbn [existsb]. rewrite Z1, H1. simpl.
  destruct H2 as [H2|H2], H4 as [H4|H4], H5 as [H5|H5], H6 as [H6|H6];
    (assert (Z2 := group_known_ref_nonzero c 2 _ H2 eq_refl);
     assert (Z3 := group_known_ref_nonzero c 3 _ H3 eq_refl);
     assert (Z4 := group_known_ref_nonzero c 4 _ H4 eq_refl);
     assert (Z5 := group_known_ref_nonzero c 5 _ H5 eq_refl);
     assert (Z6 := group_known_ref_nonzero c 6 _ H6 eq_refl);
     assert (Z7 := group_known_ref_nonzero c 7 _ H7 eq_refl);
     rewrite Z2, Z3, Z4, Z5, Z6, Z7, H2, H3, H4, H5, H6, H7; simpl;
     unfold layering_checks, shading_between_glass, inside_glass_layer, boundary_report,
       between_glass_check;
     rewrite Hn, H1, H7, Hp; simpl;
     rewrite ?H7; simpl;
     unfold LayerGroup in H5; rewrite H5; simpl;
     destruct (adjacent_gas_check _ _ _ _ _ _) as [wrong r']; simpl;
     destruct wrong; reflexivity).
Qed.
Transparent adjacent_gas_check diffusing_glass_checks.
End BetweenGlass.

(** ** The gas layers next to a between-glass shade or blind *)

Lemma Reqb_true x y : Reqb x y = true <-> x = y.
Proof. unfold Reqb. destruct (Req_dec_T x y); split; congruence. Qed.

Lemma Rneb_true x y : Rneb x y = true <-> x <> y.
Proof.
  unfold Rneb, Reqb. destruct (Req_dec_T x y); simpl; split; congruence.
Qed.

Lemma Rltb_true x y : Rltb x y = true <-> (x < y)%R.
Proof. unfold Rltb. destruct (Rlt_dec x y); split; congruence. Qed.

Lemma Rltb_false x y : Rltb x y = false <-> (y <= x)%R.
Proof. unfold Rltb. destruct (Rlt_dec x y); split; try congruence; lra. Qed.

Lemma Rleb_true x y : Rleb x y = true <-> (x <= y)%R.
Proof. unfold Rleb. destruct (Rle_dec x y); split; congruence. Qed.

Lemma Rleb_false x y : Rleb x y = false <-> (y < x)%R.
Proof. unfold Rleb. destruct (Rle_dec x y); split; try congruence; lra. Qed.

Section GasLayers.
Variable Material : list MaterialProperties.
Variable Blind : list WindowBlindProperties.

(** The two gas layers have the same gas type and fraction in each of the
    five slots, and thicknesses within 0.0005 of each other. *)
Definition gas_layers_agree (GapL GapR : MaterialProperties) : Prop :=
  (forall IGas, 1 <= IGas <= 5 ->
     GasType GapL IGas = GasType GapR IGas /\ GasFract GapL IGas = GasFract GapR IGas)
  /\ (Rabs (Mat_Thickness GapL - Mat_Thickness GapR) <= 0.0005)%R.

Lemma adjacent_gas_check_wrong c LayNumSh MatSh r :
  fst (adjacent_gas_check Material Blind c LayNumSh MatSh r) = false <->
  gas_layers_agree (Mat Material (LayerPoint c (LayNumSh - 1)))
                   (Mat Material (LayerPoint c (LayNumSh + 1))).
Proof.
  unfold adjacent_gas_check, gas_layers_agree. cbn [fst].
  set (L := LayerPoint c (LayNumSh - 1)). set (R := LayerPoint c (LayNumSh + 1)).
  rewrite for_each_flag with
    (hit := fun IGas =>
              negb (GasType (Mat Material L) IGas =? GasType (Mat Material R) IGas)
              || Rneb (GasFract (Mat Material L) IGas) (GasFract (Mat Material R) IGas))
    by reflexivity.
  cbn [orb].
  destruct (Rgtb _ _) eqn:Et.
  - split; [discriminate|]. intros (_ & Ht).
    apply Rltb_true in Et. lra.
  - apply Rltb_false in Et. split.
    + intros He. split; [|exact Et]. intros IGas HI.
      destruct (existsb _ _) eqn:Ex; [discriminate|].
      assert (Hi : In IGas (upto 1 5)) by (apply in_upto; exact HI).
      pose proof (proj1 (Bool.not_true_iff_false _)
                    (fun H => proj2 (Bool.not_true_iff_false _) Ex
                       (proj2 (existsb_exists _ _) (ex_intro _ IGas (conj Hi H))))) as Hh.
      apply orb_false_iff in Hh as [Ha Hb].
      apply negb_false_iff, Z.eqb_eq in Ha.
      split; [exact Ha|].
      destruct (Req_dec_T (GasFract (Mat Material L) IGas) (GasFract (Mat Material R) IGas))
        as [|Hne]; auto.
      apply Rneb_true in Hne. congruence.
    + intros (Hg & _).
      destruct (existsb _ _) eqn:Ex; [|reflexivity].
      apply existsb_exists in Ex as (IGas & Hi & Hh). apply in_upto in Hi.
      destruct (Hg IGas Hi) as [Ha Hb].
      apply orb_true_iff in Hh as [Hh|Hh].
      * apply negb_true_iff, Z.eqb_neq in Hh. contradiction.
      * apply Rneb_true in Hh. contradiction.
Qed.

(** The message of lines 883-893. *)
Lemma adjacent_gas_check_report c LayNumSh MatSh r :
  snd (adjacent_gas_check Material Blind c LayNumSh MatSh r)
  = if (Mat_Group (Mat Material MatSh) =? WindowBlind)
       && (Mat_BlindDataPtr (Mat Material MatSh) >? 0)
       && Rltb (Mat_Thickness (Mat Material (LayerPoint c (LayNumSh - 1)))
                + Mat_Thickness (Mat Material (LayerPoint c (LayNumSh + 1))))
               (Bl_SlatWidth (Bl Blind (Mat_BlindDataPtr (Mat Material MatSh))))
    then severe MsgSlatWiderThanGaps r else r.
Proof.
  unfold adjacent_gas_check. cbn [snd].
  destruct (_ =? WindowBlind); [|reflexivity].
  destruct (_ >? 0); reflexivity.
Qed.

(** A report that only got messages other than [m] appended. *)
Definition no_new (m : Diagnostic) (r r' : Report) : Prop :=
  ~ In m (Shown r) -> ~ In m (Shown r').

Lemma no_new_severe m m' r r' :
  SevereError m' <> m -> no_new m r r' -> no_new m r (severe m' r').
Proof.
  unfold no_new, severe. cbn [Shown]. intros Hne H Hr Hin.
  apply in_app_or in Hin as [Hin|[Hin|[]]]; [exact (H Hr Hin)|congruence].
Qed.

Lemma diffusing_glass_checks_no_new c n r :
  no_new (SevereError MsgWindowLayeringRules) r (diffusing_glass_checks Material c n r).
Proof.
  unfold diffusing_glass_checks. cbv zeta.
  assert (H1 : no_new (SevereError MsgWindowLayeringRules) r
                 (for_each_break (upto 1 (Con_TotLayers c))
                    (diffusing_shade_step Material c (TotShadeLayers n)) r)).
  { apply for_each_break_invariant; [|unfold no_new; auto].
    intros i x Hx. unfold diffusing_shade_step.
    destruct (LayerPoint c i =? 0); [exact Hx|].
    destruct (_ && _); [|exact Hx].
    apply no_new_severe; [discriminate|exact Hx]. }
  destruct (TotGlassLayers n >? 1); [|exact H1].
  apply for_each_invariant with (P := fun s => no_new _ r (snd s)); [|exact H1].
  intros i x Hx. unfold diffusing_innermost_step.
  destruct (LayerPoint c i =? 0); [exact Hx|].
  destruct (_ =? WindowGlass); [|exact Hx].
  destruct (_ && _); [|exact Hx].
  apply no_new_severe; [discriminate|exact Hx].
Qed.

Lemma diffusing_glass_checks_none c n r :
  (forall Layer, 1 <= Layer <= Con_TotLayers c ->
     Mat_SolarDiffusing (Mat Material (LayerPoint c Layer)) = false) ->
  diffusing_glass_checks Material c n r = r.
Proof.
  intros Hd. unfold diffusing_glass_checks. cbv zeta.
  assert (H1 : for_each_break (upto 1 (Con_TotLayers c))
                 (diffusing_shade_step Material c (TotShadeLayers n)) r = r).
  { generalize (fun i (H : In i (upto 1 (Con_TotLayers c))) => Hd i (proj1 (in_upto _ _ _) H)).
    generalize (upto 1 (Con_TotLayers c)). intros idx.
    induction idx as [|i t IH]; intros Hall; [reflexivity|].
    cbn [for_each_break]. unfold diffusing_shade_step at 1.
    destruct (LayerPoint c i =? 0); [apply IH; intros; apply Hall; right; auto|].
    rewrite (Hall i (or_introl eq_refl)). cbn [andb].
    apply IH; intros; apply Hall; right; auto. }
  rewrite H1. destruct (TotGlassLayers n >? 1); [|reflexivity].
  generalize (fun i (H : In i (upto 1 (Con_TotLayers c))) => Hd i (proj1 (in_upto _ _ _) H)).
  generalize (upto 1 (Con_TotLayers c)) 0. intros idx. unfold for_each.
  induction idx as [|i t IH]; intros k Hall; [reflexivity|].
  cbn [fold_left]. unfold diffusing_innermost_step at 2. cbn [fst snd].
  destruct (LayerPoint c i =? 0); [apply IH; intros; apply Hall; right; auto|].
  rewrite (Hall i (or_introl eq_refl)), andb_false_r.
  destruct (_ =? WindowGlass); apply IH; intros; apply Hall; right; auto.
Qed.
End GasLayers.

Lemma CheckAndSetConstructionProperties_report Material Blind Construct ConstrNum r :
  snd (CheckAndSetConstructionProperties Material Blind Construct ConstrNum r)
  = snd (check_construction Material Blind
           (fget default_ConstructionData Construct ConstrNum) r).
Proof.
  unfold CheckAndSetConstructionProperties.
  destruct (check_construction _ _ _ _); reflexivity.
Qed.

Section BetweenGlassGas.
Variable Material : list MaterialProperties.
Variable Blind : list WindowBlindProperties.

(** C1, as the code has it.  Take a construction that is neither a BSDF
    nor an equivalent-layer window and whose layers are glass / gas /
    shade or blind / gas / glass, or glass / gas / glass / gas / shade or
    blind / gas / glass.  When the two gas layers next to the shading layer
    differ in gas type or gas fraction in one of the five slots, or their
    thicknesses differ by more than 0.0005,
    [CheckAndSetConstructionProperties] raises the error flag and shows
    the layering rulebook.  When they agree, it does not show the rulebook,
    and unless a diffusing glass or a blind wider than the two gaps is
    reported it leaves the error flag and the messages as they were. *)
Theorem C1_between_glass_gas_layers (Construct : list ConstructionData) (ConstrNum : Z)
    (r : Report) :
  let c := fget default_ConstructionData Construct ConstrNum in
  let r' := snd (CheckAndSetConstructionProperties Material Blind Construct ConstrNum r) in
  let MatSh := Mat Material (LayerPoint c (Con_TotLayers c - 2)) in
  let GapL := Mat Material (LayerPoint c (Con_TotLayers c - 3)) in
  let GapR := Mat Material (LayerPoint c (Con_TotLayers c - 1)) in
  between_glass_construction Material c ->
  Con_WindowTypeBSDF c = false -> Con_WindowTypeEQL c = false ->
  (~ gas_layers_agree GapL GapR ->
     ErrorsFound r' = true /\ In (SevereError MsgWindowLayeringRules) (Shown r'))
  /\ (gas_layers_agree GapL GapR ->
        (~ In (SevereError MsgWindowLayeringRules) (Shown r) ->
         ~ In (SevereError MsgWindowLayeringRules) (Shown r'))
        /\ ((forall Layer, 1 <= Layer <= Con_TotLayers c ->
               Mat_SolarDiffusing (Mat Material (LayerPoint c Layer)) = false) ->
            ~ (Mat_Group MatSh = WindowBlind /\ 0 < Mat_BlindDataPtr MatSh
               /\ (Mat_Thickness GapL + Mat_Thickness GapR
                   < Bl_SlatWidth (Bl Blind (Mat_BlindDataPtr MatSh)))%R) ->
            r' = r)).
Proof.
  intros c r' MatSh GapL GapR Hpat HB HQ.
  assert (Hr : r' = between_glass_report Material Blind c r).
  { subst r'. rewrite CheckAndSetConstructionProperties_report. fold c.
    destruct Hpat as [(Hn & Hp)|(Hn & Hp)].
    - pose proof (double_pane_groups Material c Hp) as (H1 & _ & _ & _ & H5).
      rewrite check_construction_report.
      + apply construction_report_double; assumption.
      + rewrite Hn. eapply group_known_ref_positive; [exact H5|reflexivity].
      + lia.
      + apply Z.eqb_neq. eapply group_known_ref_nonzero; [exact H1|reflexivity].
    - pose proof (triple_pane_groups Material c Hp) as (H1 & _ & _ & _ & _ & _ & H7).
      rewrite check_construction_report.
      + apply construction_report_triple; assumption.
      + rewrite Hn. eapply group_known_ref_positive; [exact H7|reflexivity].
      + lia.
      + apply Z.eqb_neq. eapply group_known_ref_nonzero; [exact H1|reflexivity]. }
  pose proof (adjacent_gas_check_wrong Material Blind c (Con_TotLayers c - 2)
                (LayerPoint c (Con_TotLayers c - 2))
                (diffusing_glass_checks Material c (count_layers Material c) r)) as Hw.
  pose proof (adjacent_gas_check_report Material Blind c (Con_TotLayers c - 2)
                (LayerPoint c (Con_TotLayers c - 2))
                (diffusing_glass_checks Material c (count_layers Material c) r)) as Hs.
  replace (Con_TotLayers c - 2 - 1) with (Con_TotLayers c - 3) in Hw, Hs by lia.
  replace (Con_TotLayers c - 2 + 1) with (Con_TotLayers c - 1) in Hw, Hs by lia.
  fold GapL GapR MatSh in Hw, Hs.
  unfold between_glass_report in Hr. cbv zeta in Hr.
  destruct (adjacent_gas_check _ _ _ _ _ _) as [wrong r2]. cbn [fst snd] in Hw, Hs.
  split.
  - intros Hdiff. destruct wrong; [|exfalso; apply Hdiff, Hw; reflexivity].
    rewrite Hr. unfold severe. cbn [ErrorsFound Shown]. split; [reflexivity|].
    apply in_or_app. right. left. reflexivity.
  - intros Hagree. apply Hw in Hagree. subst wrong. split.
    + rewrite Hr, Hs.
      pose proof (diffusing_glass_checks_no_new Material c (count_layers Material c) r) as Hd.
      destruct (_ && _); [|exact Hd].
      apply no_new_severe; [discriminate|exact Hd].
    + intros Hnd Hslat. rewrite Hr, Hs.
      rewrite (diffusing_glass_checks_none Material c _ r Hnd).
      destruct (_ =? WindowBlind) eqn:E1; [|reflexivity].
      destruct (_ >? 0) eqn:E2; [|reflexivity].
      destruct (Rltb _ _) eqn:E3; [|reflexivity].
      exfalso. apply Hslat. apply Z.eqb_eq in E1. apply Rltb_true in E3.
      repeat split; [exact E1|lia|exact E3].
Qed.
End BetweenGlassGas.

(** *** Concrete constructions *)

Definition gas_of_type (t : Z) : MaterialProperties :=
  {| Mat_Name := EmptyString; Mat_Group := WindowGas; Mat_Roughness := 0;
     Mat_AbsorpVisible := 0%R; Mat_AbsorpSolar := 0%R; Mat_AbsorpThermal := 0%R;
     Mat_AbsorpThermalFront := 0%R; Mat_AbsorpThermalBack := 0%R; Mat_Thickness := 0%R;
     Mat_GasType := [t; 0; 0; 0; 0]; Mat_GasFract := [1%R; 0%R; 0%R; 0%R; 0%R];
     Mat_SolarDiffusing := false; Mat_BlindDataPtr := 0 |}.

(** Glass, air-filled gap, shade, argon-filled gap. *)
Definition between_glass_materials : list MaterialProperties :=
  [mat_of_group WindowGlass; gas_of_type 1; mat_of_group Shade; gas_of_type 2].

Lemma C1_between_glass_gas_layers_witness :
  let c := construct_of [1; 2; 3; 4; 1] in
  ErrorsFound (snd (CheckAndSetConstructionProperties between_glass_materials [] [c] 1
                      no_report)) = true.
Proof.
  refine (proj1 (proj1 (C1_between_glass_gas_layers between_glass_materials []
                          [construct_of [1; 2; 3; 4; 1]] 1 no_report _ _ _) _)).
  - left. split; reflexivity.
  - reflexivity.
  - reflexivity.
  - intros (Hg & _). destruct (Hg 1 ltac:(lia)) as [Ht _]. discriminate Ht.
Defined.

(** C1 as stated fails for a BSDF window: the routine returns before the
    layering rules, so gas layers of different gas types on the two sides of
    a between-glass shade raise no error. *)
Lemma C1_counterexample :
  let c := set_Con_WindowTypeBSDF true (construct_of [1; 2; 3; 4; 1]) in
  Con_TotLayers c = 5
  /\ double_pane_pattern between_glass_materials c = true
  /\ GasType (Mat between_glass_materials (LayerPoint c 2)) 1
     <> GasType (Mat between_glass_materials (LayerPoint c 4)) 1
  /\ ErrorsFound (snd (CheckAndSetConstructionProperties between_glass_materials [] [c] 1
                         no_report)) = false.
Proof.
  cbv zeta. repeat split; try reflexivity. discriminate.
Qed.

Lemma C2_window_classification_witness :
  Con_TypeIsWindow
    (fget default_ConstructionData
       (fst (CheckAndSetConstructionProperties [mat_of_group WindowGlass] []
               [construct_of [1]] 1 no_report)) 1) = true.
Proof.
  refine (proj2 (proj2 (C2_window_classification [mat_of_group WindowGlass] []
                          [construct_of [1]] 1 no_report _ _ _) eq_refl) _).
  - simpl. lia.
  - simpl. lia.
  - reflexivity.
  - simpl. auto.
Defined.

(** C4 fails on the code: an EcoRoof layer below an outermost layer of
    another group is not looked for.  The construction regular material /
    EcoRoof comes back with the error flag down and no message. *)
Theorem C4_interior_ecoroof_unreported :
  let Material := [mat_of_group RegularMaterial; mat_of_group EcoRoof] in
  let c := construct_of [1; 2] in
  LayerGroup Material c 2 = EcoRoof
  /\ snd (CheckAndSetConstructionProperties Material [] [c] 1 no_report) = no_report.
Proof.
  split; reflexivity.
Qed.

(** ** Reverse constructions *)

Lemma fset_fset_same {A} (a : list A) i v w : fset (fset a i v) i w = fset a i w.
Proof.
  unfold fset. destruct (i <? 1); auto.
  generalize (Z.to_nat (i - 1)). intros n. revert n.
  induction a as [|h t IH]; intros [|n]; simpl; auto. now rewrite IH.
Qed.

Lemma fset_fget_same {A} (d : A) (a : list A) i : fset a i (fget d a i) = a.
Proof.
  unfold fset, fget. destruct (i <? 1); auto.
  generalize (Z.to_nat (i - 1)). intros n. revert n.
  induction a as [|h t IH]; intros [|n]; simpl; auto. now rewrite IH.
Qed.

Lemma grow_full {A} (d : A) (a : list A) n :
  n = Z.of_nat (List.length a) -> grow d a n = a ++ [d].
Proof.
  intros ->. unfold grow. rewrite Nat2Z.id, firstn_all.
  replace (Z.to_nat (Z.of_nat (List.length a) + 1) - List.length a)%nat with 1%nat by lia.
  reflexivity.
Qed.

(** A scanning loop that leaves at the first hit returns the first hit. *)
Lemma for_each_break_first (hit : Z -> bool) (body : Z -> Z -> Z * bool) idx acc :
  (forall i a, body i a = if hit i then (i, true) else (a, false)) ->
  for_each_break idx body acc = match find hit idx with Some k => k | None => acc end.
Proof.
  intros Hb. revert acc. induction idx as [|i t IH]; intros acc; simpl; auto.
  rewrite Hb. destruct (hit i); auto.
Qed.

(** A loop that lowers a flag and leaves at the first failure computes a
    [forallb]. *)
Lemma for_each_break_all (ok : Z -> bool) (body : Z -> bool -> bool * bool) idx :
  (forall i b, body i b = if negb (ok i) then (false, true) else (b, false)) ->
  for_each_break idx body true = forallb ok idx.
Proof.
  intros Hb. induction idx as [|i t IH]; simpl; auto.
  rewrite Hb. destruct (ok i); simpl; auto.
Qed.

Lemma find_upto_none hit lo hi :
  find hit (upto lo hi) = None <-> forall k, lo <= k <= hi -> hit k = false.
Proof.
  split.
  - intros H k Hk. apply (find_none _ _ H). apply in_upto. exact Hk.
  - intros H. destruct (find hit (upto lo hi)) eqn:E; auto.
    apply find_some in E as [Hin Hh]. apply in_upto in Hin. rewrite H in Hh by exact Hin.
    discriminate.
Qed.

Lemma find_ext {A} (f g : A -> bool) l :
  (forall x, In x l -> f x = g x) -> find f l = find g l.
Proof.
  induction l as [|h t IH]; intros H; simpl; auto.
  rewrite (H h) by (left; auto). destruct (g h); auto. apply IH. intros; apply H; right; auto.
Qed.

Lemma find_app_none {A} (f : A -> bool) l1 l2 :
  find f l1 = None -> find f (l1 ++ l2) = find f l2.
Proof.
  induction l1 as [|h t IH]; simpl; auto. destruct (f h); [discriminate|auto].
Qed.

Lemma rev_count_up n :
  rev (map (fun k => 1 + Z.of_nat k) (seq 0 n))
  = map (fun j => Z.of_nat n - Z.of_nat j) (seq 0 n).
Proof.
  induction n as [|n IH]; [reflexivity|].
  rewrite seq_S at 1. rewrite map_app, rev_app_distr. cbn [map rev app].
  rewrite IH. cbn [seq map]. rewrite <- seq_shift, map_map.
  f_equal; [lia|]. apply map_ext. intros; lia.
Qed.

Lemma downto_seq hi :
  downto hi 1 = map (fun j => hi - Z.of_nat j) (seq 0 (Z.to_nat hi)).
Proof.
  unfold downto, upto. replace (hi - 1 + 1) with hi by lia.
  destruct (Z_le_gt_dec hi 0) as [H|H].
  { replace (Z.to_nat hi) with O by lia. reflexivity. }
  rewrite rev_count_up. apply map_ext. intros; lia.
Qed.

Section ReverseLayers.
Variable Material : list MaterialProperties.
Variable Blind : list WindowBlindProperties.
Variable NominalR : list R.

Definition array_extent_ok (c : ConstructionData) : Prop :=
  List.length (Con_LayerPoint c) = Z.to_nat MaxLayersInConstruct.

Lemma reversed_layers_same_input c c' :
  same_input c c' -> reversed_layers c' = reversed_layers c.
Proof.
  intros (H1 & H2 & _). unfold reversed_layers, reverse_step, LayerPoint.
  rewrite H1, H2. reflexivity.
Qed.

Lemma layers_match_all c LP :
  layers_match c LP
  = forallb (fun nLayer => LayerPoint c nLayer =? fget 0 LP nLayer)
            (upto 1 MaxLayersInConstruct).
Proof.
  unfold layers_match. apply for_each_break_all. intros i b. reflexivity.
Qed.

Lemma layers_match_true c LP :
  layers_match c LP = true <->
  forall nLayer, 1 <= nLayer <= MaxLayersInConstruct ->
                 LayerPoint c nLayer = fget 0 LP nLayer.
Proof.
  rewrite layers_match_all, forallb_forall. split.
  - intros H n Hn. apply Z.eqb_eq, H, in_upto, Hn.
  - intros H n Hn. apply Z.eqb_eq, H, in_upto, Hn.
Qed.

Lemma layers_match_same_input c c' LP :
  same_input c c' -> layers_match c' LP = layers_match c LP.
Proof.
  intros (_ & H2 & _). rewrite !layers_match_all. unfold LayerPoint. now rewrite H2.
Qed.

Lemma find_reverse_first Construct T LP :
  find_reverse Construct T LP
  = match find (fun Loop => layers_match (fget default_ConstructionData Construct Loop) LP)
               (upto 1 T) with
    | Some k => k
    | None => 0
    end.
Proof.
  unfold find_reverse. apply for_each_break_first. intros i a. reflexivity.
Qed.

(** The local array after the loop of lines 1066-1069. *)
Lemma reversed_layers_spec c :
  array_extent_ok c -> 0 <= Con_TotLayers c <= MaxLayersInConstruct ->
  List.length (reversed_layers c) = Z.to_nat MaxLayersInConstruct
  /\ (forall i, 1 <= i <= Con_TotLayers c ->
        fget 0 (reversed_layers c) i = LayerPoint c (Con_TotLayers c + 1 - i))
  /\ (forall i, Con_TotLayers c < i -> fget 0 (reversed_layers c) i = 0).
Proof.
  intros Hext HT. unfold reversed_layers. rewrite downto_seq.
  set (T := Con_TotLayers c) in *.
  assert (Hgen : forall k, (k <= Z.to_nat T)%nat ->
    let s := for_each (map (fun j => T - Z.of_nat j) (seq 0 k)) (reverse_step c)
                      (0, repeat 0 (Z.to_nat MaxLayersInConstruct)) in
    fst s = Z.of_nat k
    /\ List.length (snd s) = Z.to_nat MaxLayersInConstruct
    /\ (forall i, 1 <= i <= Z.of_nat k -> fget 0 (snd s) i = LayerPoint c (T + 1 - i))
    /\ (forall i, Z.of_nat k < i -> fget 0 (snd s) i = 0)).
  { induction k as [|k IH]; intros Hk.
    - cbn. repeat split; try lia.
      intros i Hi. unfold fget. destruct (i <? 1); auto.
      apply nth_repeat.
    - rewrite seq_S, map_app. unfold for_each in *. rewrite fold_left_app.
      cbn [map fold_left Nat.add].
      destruct (IH ltac:(lia)) as (I1 & I2 & I3 & I4).
      set (s := fold_left _ _ _) in *. unfold reverse_step. cbn [fst snd].
      rewrite I1. repeat split.
      + lia.
      + rewrite fset_length. exact I2.
      + intros i Hi. destruct (Z.eq_dec i (Z.of_nat k + 1)) as [->|Hne].
        * rewrite fget_fset_same by (unfold MaxLayersInConstruct in *; lia).
          f_equal. lia.
        * rewrite fget_fset_other by lia. apply I3. lia.
      + intros i Hi. rewrite fget_fset_other by lia. apply I4. lia. }
  destruct (Hgen (Z.to_nat T) (le_n _)) as (_ & G2 & G3 & G4).
  rewrite Z2Nat.id in G3, G4 by lia. auto.
Qed.
End ReverseLayers.

Lemma upto_cons lo hi : lo <= hi -> upto lo hi = lo :: upto (lo + 1) hi.
Proof.
  intros H. unfold upto.
  replace (Z.to_nat (hi - lo + 1)) with (S (Z.to_nat (hi - (lo + 1) + 1))) by lia.
  cbn [seq map]. f_equal; [lia|].
  rewrite <- seq_shift, map_map. apply map_ext. intros; lia.
Qed.

Lemma find_upto_some hit lo hi n :
  find hit (upto lo hi) = Some n ->
  lo <= n <= hi /\ hit n = true /\ forall k, lo <= k < n -> hit k = false.
Proof.
  remember (Z.to_nat (hi - lo + 1)) as m eqn:Hm. revert lo Hm.
  induction m as [|m IH]; intros lo Hm H.
  - rewrite upto_empty in H by lia. discriminate.
  - rewrite upto_cons in H by lia. cbn [find] in H.
    destruct (hit lo) eqn:E.
    + inversion H; subst n. repeat split; try lia; auto.
    + apply IH in H; [|lia]. destruct H as (H1 & H2 & H3).
      repeat split; try lia; auto.
      intros k Hk. destruct (Z.eq_dec k lo) as [->|]; auto. apply H3; lia.
Qed.

Lemma find_upto_first hit lo hi n :
  lo <= n <= hi -> hit n = true -> (forall k, lo <= k < n -> hit k = false) ->
  find hit (upto lo hi) = Some n.
Proof.
  intros Hn Hh Hk.
  destruct (find hit (upto lo hi)) as [m|] eqn:E.
  - apply find_upto_some in E as (E1 & E2 & E3). f_equal.
    destruct (Z_lt_ge_dec m n) as [Hlt|Hge].
    + rewrite Hk in E2 by lia. discriminate.
    + destruct (Z.eq_dec m n); auto. rewrite E3 in Hh by lia. discriminate.
  - rewrite (proj1 (find_upto_none hit lo hi) E n Hn) in Hh. discriminate.
Qed.

Section ReverseConstructions.
Variable Material : list MaterialProperties.
Variable Blind : list WindowBlindProperties.
Variable NominalR : list R.

(** The counter and the extent of the registry agree. *)
Definition registry_extent_ok (st : Constructions) : Prop :=
  TotConstructs st = Z.of_nat (List.length (Construct st)).

Definition entry (st : Constructions) (k : Z) : ConstructionData :=
  fget default_ConstructionData (Construct st) k.

(** The layer slots of the new construction after the loop of lines
    1117-1122. *)
Lemma copy_layers_spec LP c0 x0 :
  List.length (Con_LayerPoint c0) = Z.to_nat MaxLayersInConstruct ->
  let s := for_each (upto 1 MaxLayersInConstruct) (copy_layer_step NominalR LP) (c0, x0) in
  Con_TotLayers (fst s) = Con_TotLayers c0
  /\ Con_WindowTypeBSDF (fst s) = Con_WindowTypeBSDF c0
  /\ Con_WindowTypeEQL (fst s) = Con_WindowTypeEQL c0
  /\ Con_IsUsed (fst s) = Con_IsUsed c0
  /\ List.length (Con_LayerPoint (fst s)) = Z.to_nat MaxLayersInConstruct
  /\ forall n, 1 <= n <= MaxLayersInConstruct -> LayerPoint (fst s) n = fget 0 LP n.
Proof.
  intros Hlen.
  assert (Hgen : forall k, 0 <= k <= MaxLayersInConstruct ->
    let s := for_each (upto 1 k) (copy_layer_step NominalR LP) (c0, x0) in
    Con_TotLayers (fst s) = Con_TotLayers c0
    /\ Con_WindowTypeBSDF (fst s) = Con_WindowTypeBSDF c0
    /\ Con_WindowTypeEQL (fst s) = Con_WindowTypeEQL c0
    /\ Con_IsUsed (fst s) = Con_IsUsed c0
    /\ List.length (Con_LayerPoint (fst s)) = Z.to_nat MaxLayersInConstruct
    /\ forall n, 1 <= n <= k -> LayerPoint (fst s) n = fget 0 LP n).
  { intros k Hk. rewrite <- (Z2Nat.id k) by lia.
    assert (Hk' : (Z.to_nat k <= Z.to_nat MaxLayersInConstruct)%nat) by lia.
    revert Hk'. generalize (Z.to_nat k). clear k Hk. intros k.
    induction k as [|k IH]; intros Hk.
    - cbn. repeat split; auto. intros; lia.
    - replace (Z.of_nat (S k)) with (Z.of_nat k + 1) by lia.
      rewrite upto_snoc by lia. unfold for_each in *. rewrite fold_left_app.
      cbn [fold_left].
      destruct (IH ltac:(lia)) as (I1 & I2 & I3 & I4 & I5 & I6).
      set (s := fold_left _ _ _) in *.
      assert (Hs : fst (copy_layer_step NominalR LP (Z.of_nat k + 1) s)
                   = set_Con_LayerPoint
                       (fset (Con_LayerPoint (fst s)) (Z.of_nat k + 1)
                             (fget 0 LP (Z.of_nat k + 1))) (fst s)).
      { unfold copy_layer_step. destruct (negb _); reflexivity. }
      rewrite Hs. cbn [Con_TotLayers Con_WindowTypeBSDF Con_WindowTypeEQL
                             Con_IsUsed Con_LayerPoint set_Con_LayerPoint].
      repeat split; auto.
      + rewrite fset_length. exact I5.
      + intros n Hn. unfold LayerPoint. cbn [Con_LayerPoint set_Con_LayerPoint].
        destruct (Z.eq_dec n (Z.of_nat k + 1)) as [->|Hne].
        * apply fget_fset_same. lia.
        * rewrite fget_fset_other by lia. apply I6. lia. }
  apply Hgen. unfold MaxLayersInConstruct. lia.
Qed.

Lemma CheckAndSet_registry Construct n r :
  1 <= n <= Z.of_nat (List.length Construct) ->
  let C' := fst (CheckAndSetConstructionProperties Material Blind Construct n r) in
  List.length C' = List.length Construct
  /\ same_input (fget default_ConstructionData Construct n)
                (fget default_ConstructionData C' n)
  /\ (forall k, k <> n -> fget default_ConstructionData C' k
                          = fget default_ConstructionData Construct k).
Proof.
  intros Hn. unfold CheckAndSetConstructionProperties.
  pose proof (check_construction_same_input Material Blind
                (fget default_ConstructionData Construct n) r) as Hs.
  destruct (check_construction _ _ _ _) as [c' r']. cbn [fst] in *.
  repeat split; try apply Hs.
  - apply fset_length.
  - rewrite fget_fset_same by exact Hn. apply Hs.
  - rewrite fget_fset_same by exact Hn. apply Hs.
  - rewrite fget_fset_same by exact Hn. apply Hs.
  - rewrite fget_fset_same by exact Hn. apply Hs.
  - intros k Hk. apply fget_fset_other. auto.
Qed.

Lemma same_input_refl c : same_input c c.
Proof. unfold same_input; auto. Qed.

Lemma same_input_IsUsed c : same_input c (set_Con_IsUsed true c).
Proof. unfold same_input; auto. Qed.

(** What a call of the routine establishes. *)
Lemma assign_spec st c r :
  registry_extent_ok st -> 1 <= c <= TotConstructs st ->
  array_extent_ok (entry st c) ->
  let LP := reversed_layers (entry st c) in
  let n := fst (fst (AssignReverseConstructionNumber Material Blind NominalR st c r)) in
  let st' := snd (fst (AssignReverseConstructionNumber Material Blind NominalR st c r)) in
  registry_extent_ok st'
  /\ 1 <= n <= TotConstructs st'
  /\ layers_match (entry st' n) LP = true
  /\ (forall k, 1 <= k < n -> layers_match (entry st' k) LP = false)
  /\ (forall k, 1 <= k <= TotConstructs st -> same_input (entry st k) (entry st' k))
  /\ Con_IsUsed (entry st' c) = true
  /\ ((TotConstructs st' = TotConstructs st /\ n <= TotConstructs st)
      \/ (TotConstructs st' = TotConstructs st + 1 /\ n = TotConstructs st + 1
          /\ Con_TotLayers (entry st' n) = Con_TotLayers (entry st c)
          /\ array_extent_ok (entry st' n))).
Proof.
  intros Hext Hc Harr LP n st'. subst n st'.
  unfold AssignReverseConstructionNumber.
  destruct (c =? 0) eqn:E0; [apply Z.eqb_eq in E0; lia|].
  fold (entry st c). fold LP.
  set (old1 := set_Con_IsUsed true (entry st c)).
  set (C1 := fset (Construct st) c old1).
  unfold registry_extent_ok in Hext.
  assert (HC1len : List.length C1 = List.length (Construct st)) by apply fset_length.
  assert (HC1c : fget default_ConstructionData C1 c = old1).
  { subst C1. apply fget_fset_same. lia. }
  assert (HC1k : forall k, same_input (entry st k) (fget default_ConstructionData C1 k)).
  { intros k. destruct (Z.eq_dec k c) as [->|Hne].
    - rewrite HC1c. apply same_input_IsUsed.
    - subst C1. rewrite fget_fset_other by auto. apply same_input_refl. }
  rewrite find_reverse_first.
  set (hit := fun Loop => layers_match (fget default_ConstructionData C1 Loop) LP).
  destruct (find hit (upto 1 (TotConstructs st))) as [k|] eqn:Ef.
  - (* a construction with the reversed layers is there already *)
    apply find_upto_some in Ef as (F1 & F2 & F3).
    destruct (k =? 0) eqn:Ek; [apply Z.eqb_eq in Ek; lia|].
    cbn [fst snd]. unfold entry. cbn [Construct TotConstructs].
    unfold registry_extent_ok. cbn [Construct TotConstructs].
    split; [lia|]. split; [lia|]. split; [exact F2|]. split; [exact F3|].
    split; [intros; apply HC1k|]. split; [rewrite HC1c; reflexivity|].
    left. lia.
  - (* a new construction is appended *)
    pose proof (proj1 (find_upto_none _ _ _) Ef) as Hnone.
    cbn [Z.eqb].
    rewrite (grow_full default_ConstructionData C1 (TotConstructs st)) by lia.
    set (T' := TotConstructs st + 1).
    set (C2 := fset (C1 ++ [default_ConstructionData]) T' _).
    assert (HC2len : List.length C2 = S (List.length (Construct st))).
    { subst C2. rewrite fset_length, length_app. simpl. lia. }
    assert (HC2k : forall k, k <> T' ->
              fget default_ConstructionData C2 k = fget default_ConstructionData C1 k).
    { intros k Hk. subst C2. rewrite fget_fset_other by auto.
      destruct (Z_le_gt_dec k (Z.of_nat (List.length C1))).
      - apply fget_app_l. lia.
      - rewrite !fget_out_of_range; auto; [lia|]. rewrite length_app. simpl. lia. }
    rewrite (HC2k c) by (subst T'; lia). rewrite HC1c.
    set (new0 := set_Con_TotLayers _ _).
    pose proof (copy_layers_spec LP new0
                  (fget 0%R (grow 0%R (NominalRforNominalUCalculation st)
                                  (TotConstructs st)) T')) as Hcopy.
    cbv zeta in Hcopy.
    destruct (for_each (upto 1 MaxLayersInConstruct) (copy_layer_step NominalR LP) _)
      as [new NomR] eqn:Eloop.
    cbn [fst] in Hcopy.
    destruct (Hcopy Harr) as (K1 & K2 & K3 & K4 & K5 & K6).
    set (C3 := fset C2 T' new).
    pose proof (CheckAndSet_registry C3 T' r) as Hchk. cbv zeta in Hchk.
    assert (HC3len : List.length C3 = S (List.length (Construct st))).
    { subst C3. rewrite fset_length. exact HC2len. }
    destruct (CheckAndSetConstructionProperties Material Blind C3 T' r) as [C4 r'].
    cbn [fst snd] in *.
    destruct Hchk as (L4 & S4 & O4); [subst T'; lia|].
    assert (HC3T : fget default_ConstructionData C3 T' = new).
    { subst C3. apply fget_fset_same. subst T'. lia. }
    rewrite HC3T in S4.
    unfold entry. cbn [Construct TotConstructs].
    unfold registry_extent_ok. cbn [Construct TotConstructs].
    assert (Hk4 : forall k, 1 <= k <= TotConstructs st ->
              fget default_ConstructionData C4 k = fget default_ConstructionData C1 k).
    { intros k Hk. rewrite O4 by (subst T'; lia). subst C3.
      rewrite fget_fset_other by (subst T'; lia). apply HC2k. subst T'; lia. }
    split; [subst T'; lia|]. split; [subst T'; lia|].
    split.
    { rewrite (layers_match_same_input _ _ LP S4).
      apply layers_match_true. exact K6. }
    split.
    { intros k Hk. rewrite Hk4 by (subst T'; lia). apply Hnone. subst T'; lia. }
    split.
    { intros k Hk. rewrite Hk4 by assumption. apply HC1k. }
    split.
    { rewrite Hk4 by lia. rewrite HC1c. reflexivity. }
    right. split; [reflexivity|]. split; [reflexivity|]. split.
    * destruct S4 as (S41 & _). rewrite S41, K1. reflexivity.
    * unfold array_extent_ok. destruct S4 as (_ & S42 & _). rewrite S42. exact K5.
Qed.

Lemma set_Con_IsUsed_id c : Con_IsUsed c = true -> set_Con_IsUsed true c = c.
Proof. destruct c; simpl; intros ->; reflexivity. Qed.

(** A call for a construction that is marked as used and whose reverse is
    in the registry changes nothing. *)
Lemma assign_again st c r n :
  c <> 0 -> Con_IsUsed (entry st c) = true ->
  find (fun Loop => layers_match (entry st Loop) (reversed_layers (entry st c)))
       (upto 1 (TotConstructs st)) = Some n ->
  n <> 0 ->
  AssignReverseConstructionNumber Material Blind NominalR st c r = (n, st, r).
Proof.
  intros Hc Hu Hf Hn. unfold AssignReverseConstructionNumber.
  destruct (c =? 0) eqn:E0; [apply Z.eqb_eq in E0; contradiction|].
  unfold entry in *. rewrite (set_Con_IsUsed_id _ Hu), fset_fget_same.
  rewrite find_reverse_first, Hf.
  destruct (n =? 0) eqn:En; [apply Z.eqb_eq in En; contradiction|].
  destruct st; reflexivity.
Qed.

(** C5.  For a construction index in range, the second of two calls of
    [AssignReverseConstructionNumber] returns the index the first one
    returned and leaves the registry, the error flag and the messages as
    the first call left them; the first call appends at most one
    construction, and the construction it returns has the reversed layers
    in all its layer slots. *)
Theorem C5_reverse_twice (st : Constructions) (c : Z) (r : Report) :
  registry_extent_ok st -> 1 <= c <= TotConstructs st ->
  array_extent_ok (entry st c) ->
  let '(n1, st1, r1) := AssignReverseConstructionNumber Material Blind NominalR st c r in
  AssignReverseConstructionNumber Material Blind NominalR st1 c r1 = (n1, st1, r1)
  /\ (TotConstructs st1 = TotConstructs st \/ TotConstructs st1 = TotConstructs st + 1)
  /\ (forall nLayer, 1 <= nLayer <= MaxLayersInConstruct ->
        LayerPoint (entry st1 n1) nLayer = fget 0 (reversed_layers (entry st c)) nLayer).
Proof.
  intros Hext Hc Harr.
  pose proof (assign_spec st c r Hext Hc Harr) as Hs. cbv zeta in Hs.
  destruct (AssignReverseConstructionNumber Material Blind NominalR st c r)
    as [[n1 st1] r1].
  cbn [fst snd] in Hs. destruct Hs as (S1 & S2 & S3 & S4 & S5 & S6 & S7).
  assert (HLP : reversed_layers (entry st1 c) = reversed_layers (entry st c)).
  { apply reversed_layers_same_input. apply S5. exact Hc. }
  split; [|split].
  - apply assign_again; try lia; auto.
    rewrite HLP. apply find_upto_first; auto.
  - destruct S7 as [(H & _)|(H & _)]; auto.
  - apply layers_match_true. exact S3.
Qed.

(** The layer references of a construction are nonzero in its first
    [TotLayers] slots and zero in the others. *)
Definition layers_ok (c : ConstructionData) : Prop :=
  array_extent_ok c
  /\ 0 <= Con_TotLayers c <= MaxLayersInConstruct
  /\ (forall n, 1 <= n <= Con_TotLayers c -> LayerPoint c n <> 0)
  /\ (forall n, Con_TotLayers c < n <= MaxLayersInConstruct -> LayerPoint c n = 0).

Definition registry_ok (st : Constructions) : Prop :=
  registry_extent_ok st
  /\ forall k, 1 <= k <= TotConstructs st -> layers_ok (entry st k).

(** C6, as the code has it.  In a registry whose constructions all have
    nonzero layer references in their first [TotLayers] slots and zero in
    the others, a call of [AssignReverseConstructionNumber] on an index in
    range followed by a call on the index it returned yields the index of
    a construction with the layer references of the first construction in
    all layer slots. *)
Theorem C6_reverse_round_trip (st : Constructions) (c : Z) (r : Report) :
  registry_ok st -> 1 <= c <= TotConstructs st ->
  let '(n1, st1, r1) := AssignReverseConstructionNumber Material Blind NominalR st c r in
  let '(n2, st2, r2) := AssignReverseConstructionNumber Material Blind NominalR st1 n1 r1 in
  1 <= n2 <= TotConstructs st2
  /\ forall nLayer, 1 <= nLayer <= MaxLayersInConstruct ->
       LayerPoint (entry st2 n2) nLayer = LayerPoint (entry st c) nLayer.
Proof.
  intros (Hext & Hok) Hc.
  destruct (Hok c Hc) as (Harr & HT & Hnz & Hz).
  pose proof (assign_spec st c r Hext Hc Harr) as Hs. cbv zeta in Hs.
  destruct (AssignReverseConstructionNumber Material Blind NominalR st c r)
    as [[n1 st1] r1].
  cbn [fst snd] in Hs. destruct Hs as (S1 & S2 & S3 & S4 & S5 & S6 & S7).
  destruct (reversed_layers_spec (entry st c) Harr HT) as (_ & R2 & R3).
  pose proof (proj1 (layers_match_true _ _) S3) as Hm.
  (* the construction returned has as many layers as the one given *)
  assert (He1 : array_extent_ok (entry st1 n1)
                /\ Con_TotLayers (entry st1 n1) = Con_TotLayers (entry st c)).
  { destruct S7 as [(_ & Hle)|(_ & _ & HTl & Ha)]; [|auto].
    destruct (S5 n1 ltac:(lia)) as (Q1 & Q2 & _).
    destruct (Hok n1 ltac:(lia)) as (A1 & A2 & A3 & A4).
    split; [unfold array_extent_ok; rewrite Q2; exact A1|].
    rewrite Q1.
    assert (Hl : forall n, LayerPoint (entry st1 n1) n = LayerPoint (entry st n1) n)
      by (intros; unfold LayerPoint; now rewrite Q2).
    destruct (Z.lt_trichotomy (Con_TotLayers (entry st n1)) (Con_TotLayers (entry st c)))
      as [Hlt|[Heq|Hgt]]; auto; exfalso.
    - apply (Hnz 1); [lia|].
      pose proof (R2 (Con_TotLayers (entry st c)) ltac:(lia)) as X.
      replace (Con_TotLayers (entry st c) + 1 - Con_TotLayers (entry st c)) with 1
        in X by lia.
      rewrite <- X, <- Hm by lia. rewrite Hl. apply A4. lia.
    - apply (A3 (Con_TotLayers (entry st n1))); [lia|].
      rewrite <- Hl, Hm by lia. apply R3. lia. }
  destruct He1 as (Ha1 & HT1).
  pose proof (assign_spec st1 n1 r1 S1 S2 Ha1) as Hs2. cbv zeta in Hs2.
  destruct (AssignReverseConstructionNumber Material Blind NominalR st1 n1 r1)
    as [[n2 st2] r2].
  cbn [fst snd] in Hs2. destruct Hs2 as (_ & U2 & U3 & _).
  split; [exact U2|].
  intros i Hi. rewrite (proj1 (layers_match_true _ _) U3) by exact Hi.
  destruct (reversed_layers_spec (entry st1 n1) Ha1 ltac:(rewrite HT1; exact HT))
    as (_ & V2 & V3).
  rewrite HT1 in V2, V3.
  destruct (Z_le_gt_dec i (Con_TotLayers (entry st c))) as [Hle|Hgt].
  - rewrite V2 by lia. rewrite Hm by lia. rewrite R2 by lia. f_equal. lia.
  - rewrite V3 by lia. symmetry. apply Hz. lia.
Qed.
End ReverseConstructions.

(** *** Concrete registries *)

(** One two-layer construction. *)
Definition one_construction : Constructions :=
  mkConstructions [construct_of [1; 2]] 1 [0%R] [0%R].

Lemma C5_reverse_twice_witness :
  let '(n1, st1, r1) :=
    AssignReverseConstructionNumber [mat_of_group RegularMaterial] [] [] one_construction 1
                                    no_report in
  AssignReverseConstructionNumber [mat_of_group RegularMaterial] [] [] st1 1 r1
  = (n1, st1, r1)
  /\ (TotConstructs st1 = TotConstructs one_construction
      \/ TotConstructs st1 = TotConstructs one_construction + 1)
  /\ (forall nLayer, 1 <= nLayer <= MaxLayersInConstruct ->
        LayerPoint (entry st1 n1) nLayer
        = fget 0 (reversed_layers (entry one_construction 1)) nLayer).
Proof.
  apply (C5_reverse_twice [mat_of_group RegularMaterial] [] [] one_construction 1 no_report).
  - reflexivity.
  - simpl. lia.
  - reflexivity.
Defined.

Lemma one_construction_ok : registry_ok one_construction.
Proof.
  split; [reflexivity|]. intros k Hk. simpl in Hk. assert (k = 1) by lia. subst k.
  split; [reflexivity|]. split; [simpl; unfold MaxLayersInConstruct; lia|]. split.
  - intros n Hn. simpl in Hn. assert (Hc : n = 1 \/ n = 2) by lia.
    destruct Hc; subst n; discriminate.
  - intros n Hn. simpl in Hn. unfold MaxLayersInConstruct in Hn.
    assert (Hc : n = 3 \/ n = 4 \/ n = 5 \/ n = 6 \/ n = 7 \/ n = 8 \/ n = 9 \/ n = 10
                 \/ n = 11) by lia.
    repeat (destruct Hc as [Hc|Hc]; [subst n; reflexivity|]). subst n; reflexivity.
Defined.

Lemma C6_reverse_round_trip_witness :
  let '(n1, st1, r1) :=
    AssignReverseConstructionNumber [mat_of_group RegularMaterial] [] [] one_construction 1
                                    no_report in
  let '(n2, st2, r2) :=
    AssignReverseConstructionNumber [mat_of_group RegularMaterial] [] [] st1 n1 r1 in
  1 <= n2 <= TotConstructs st2
  /\ forall nLayer, 1 <= nLayer <= MaxLayersInConstruct ->
       LayerPoint (entry st2 n2) nLayer = LayerPoint (entry one_construction 1) nLayer.
Proof.
  apply (C6_reverse_round_trip [mat_of_group RegularMaterial] [] [] one_construction 1
                               no_report).
  - exact one_construction_ok.
  - simpl. lia.
Defined.

(** A registry in which the first construction has a layer that refers to
    no material (the input error that the routines leave to the caller). *)
Definition registry_with_missing_layer : Constructions :=
  mkConstructions [construct_of [0; 1]; construct_of [1]] 2 [0%R; 0%R] [0%R; 0%R].

(** C6 as stated fails there: the reverse of construction 1 is found in
    construction 2, whose own reverse is construction 2 again. *)
Lemma C6_counterexample :
  let st := registry_with_missing_layer in
  let '(n1, st1, r1) :=
    AssignReverseConstructionNumber [mat_of_group RegularMaterial] [] [] st 1 no_report in
  let '(n2, st2, r2) :=
    AssignReverseConstructionNumber [mat_of_group RegularMaterial] [] [] st1 n1 r1 in
  n1 = 2 /\ n2 = 2 /\ LayerPoint (entry st2 n2) 1 <> LayerPoint (entry st 1) 1.
Proof.
  vm_compute. repeat split; discriminate.
Qed.

(** ** Variable-slat blinds *)

Section VariableSlatBlind.
Local Open Scope R_scope.

Lemma check_slat_angles_spec b r :
  let b' := fst (check_slat_angles b r) in
  let r' := snd (check_slat_angles b r) in
  Bl_MinSlatAngle b'
    = (if Rltb (Bl_MinSlatAngle b) (MinSlatAngGeom b) then MinSlatAngGeom b
       else Bl_MinSlatAngle b)
  /\ Bl_MaxSlatAngle b'
    = (if Rgtb (Bl_MaxSlatAngle b) (MaxSlatAngGeom b) then MaxSlatAngGeom b
       else Bl_MaxSlatAngle b)
  /\ ErrorsFound r'
    = (ErrorsFound r
       || Rltb (Bl_MaxSlatAngle b) (Bl_MinSlatAngle b)
       || Rgtb (Bl_MaxSlatAngle b) (Bl_MinSlatAngle b)
          && (Rltb (Bl_SlatAngle b) (Bl_MinSlatAngle b)
              || Rgtb (Bl_SlatAngle b) (Bl_MaxSlatAngle b)))%bool
  /\ Shown r'
    = (Shown r
       ++ (if Rltb (Bl_MaxSlatAngle b) (Bl_MinSlatAngle b)
           then [SevereError MsgBlindMaxLessThanMin] else [])
       ++ (if Rgtb (Bl_MaxSlatAngle b) (Bl_MinSlatAngle b)
              && (Rltb (Bl_SlatAngle b) (Bl_MinSlatAngle b)
                  || Rgtb (Bl_SlatAngle b) (Bl_MaxSlatAngle b))
           then [SevereError MsgBlindAngleOutOfRange] else [])
       ++ (if Rltb (Bl_MinSlatAngle b) (MinSlatAngGeom b)
           then [WarningError MsgBlindMinBelowGeometry] else [])
       ++ (if Rgtb (Bl_MaxSlatAngle b) (MaxSlatAngGeom b)
           then [WarningError MsgBlindMaxAboveGeometry] else []))%list
  /\ Bl_SlatWidth b' = Bl_SlatWidth b /\ Bl_SlatSeparation b' = Bl_SlatSeparation b
  /\ Bl_SlatThickness b' = Bl_SlatThickness b /\ Bl_SlatAngle b' = Bl_SlatAngle b
  /\ Bl_Name b' = Bl_Name b /\ Bl_SlatAngleType b' = Bl_SlatAngleType b.
Proof.
  unfold check_slat_angles. cbv zeta.
  destruct (Rltb (Bl_MaxSlatAngle b) (Bl_MinSlatAngle b));
  destruct (Rgtb (Bl_MaxSlatAngle b) (Bl_MinSlatAngle b)
            && (Rltb (Bl_SlatAngle b) (Bl_MinSlatAngle b)
                || Rgtb (Bl_SlatAngle b) (Bl_MaxSlatAngle b)));
  destruct (Rltb (Bl_MinSlatAngle b) (MinSlatAngGeom b));
  cbn [Bl_MaxSlatAngle set_Bl_MinSlatAngle];
  destruct (Rgtb (Bl_MaxSlatAngle b) (MaxSlatAngGeom b));
  cbn; rewrite ?orb_true_r, ?orb_false_r, <- ?app_assoc, ?app_nil_r; repeat split; reflexivity.
Qed.

(** C8.  When [AddVariableSlatBlind] finds no clone and appends one: the
    geometric minimum slat angle is asin(thickness / (thickness +
    separation)) in degrees for a slat wider than the separation and 0
    otherwise, and the geometric maximum is 180 less that minimum; a
    declared minimum below the geometric minimum is replaced by it with a
    warning, a declared maximum above the geometric maximum likewise; and
    the error flag is raised exactly by the two tests on the declared
    angles (maximum below minimum, slat angle outside a proper range), so
    the clamps do not raise it. *)
Theorem C8_variable_slat_clone (st : Blinds) (inBlindNumber : Z)
    (shown : list Diagnostic) :
  let source := fget default_WindowBlindProperties (Blind st) inBlindNumber in
  let result := AddVariableSlatBlind st inBlindNumber shown in
  let outBlindNumber := snd (fst result) in
  let r := snd result in
  let clone := fget default_WindowBlindProperties (Blind (fst (fst result)))
                    outBlindNumber in
  let MinGeom := MinSlatAngGeom source in
  let MaxGeom := MaxSlatAngGeom source in
  TotBlinds st = Z.of_nat (List.length (Blind st)) ->
  (1 <= inBlindNumber <= TotBlinds st)%Z ->
  FindItemInList ("~" ++ trim (Bl_Name source))%string (map Bl_Name (Blind st))
                 (TotBlinds st) = 0%Z ->
  outBlindNumber = (TotBlinds st + 1)%Z
  /\ Bl_SlatAngleType clone = VariableSlats
  /\ (Bl_SlatWidth source > Bl_SlatSeparation source ->
      MinGeom = asin (Bl_SlatThickness source
                      / (Bl_SlatThickness source + Bl_SlatSeparation source))
                / (PI / 180))
  /\ (Bl_SlatWidth source <= Bl_SlatSeparation source -> MinGeom = 0)
  /\ MaxGeom = 180 - MinGeom
  /\ (Bl_MinSlatAngle source < MinGeom ->
      Bl_MinSlatAngle clone = MinGeom
      /\ In (WarningError MsgBlindMinBelowGeometry) (Shown r))
  /\ (MinGeom <= Bl_MinSlatAngle source ->
      Bl_MinSlatAngle clone = Bl_MinSlatAngle source)
  /\ (Bl_MaxSlatAngle source > MaxGeom ->
      Bl_MaxSlatAngle clone = MaxGeom
      /\ In (WarningError MsgBlindMaxAboveGeometry) (Shown r))
  /\ (Bl_MaxSlatAngle source <= MaxGeom ->
      Bl_MaxSlatAngle clone = Bl_MaxSlatAngle source)
  /\ (ErrorsFound r = true <->
      Bl_MaxSlatAngle source < Bl_MinSlatAngle source
      \/ (Bl_MaxSlatAngle source > Bl_MinSlatAngle source
          /\ (Bl_SlatAngle source < Bl_MinSlatAngle source
              \/ Bl_SlatAngle source > Bl_MaxSlatAngle source))).
Proof.
  intros source result outBlindNumber r clone MinGeom MaxGeom HT Hin Hfind.
  subst clone r outBlindNumber result.
  unfold AddVariableSlatBlind. fold source. rewrite Hfind. cbn [Z.eqb].
  set (new := set_Bl_SlatAngleType VariableSlats _).
  pose proof (check_slat_angles_spec new (mkReport false shown)) as Hs.
  destruct (check_slat_angles new (mkReport false shown)) as [b' r'].
  cbv zeta in Hs. cbn [fst snd] in Hs. cbn [fst snd Blind TotBlinds].
  assert (Hnew : new = set_Bl_SlatAngleType VariableSlats
                         (set_Bl_Name ("~" ++ Bl_Name source)%string source)).
  { subst new. rewrite grow_full by exact HT.
    unfold source. rewrite fget_app_l by lia. reflexivity. }
  assert (Hclone : fget default_WindowBlindProperties
                     (fset (grow default_WindowBlindProperties (Blind st) (TotBlinds st))
                           (TotBlinds st + 1) b') (TotBlinds st + 1) = b').
  { apply fget_fset_same. rewrite grow_full by exact HT. rewrite length_app. simpl. lia. }
  rewrite Hclone.
  destruct Hs as (S1 & S2 & S3 & S4 & _ & _ & _ & _ & _ & S10).
  rewrite Hnew in S1, S2, S3, S4, S10.
  change (MinSlatAngGeom (set_Bl_SlatAngleType VariableSlats
            (set_Bl_Name ("~" ++ Bl_Name source)%string source)))
    with MinGeom in *.
  change (MaxSlatAngGeom (set_Bl_SlatAngleType VariableSlats
            (set_Bl_Name ("~" ++ Bl_Name source)%string source)))
    with MaxGeom in *.
  cbn [Bl_MinSlatAngle Bl_MaxSlatAngle Bl_SlatAngle Bl_SlatAngleType
       set_Bl_SlatAngleType set_Bl_Name ErrorsFound Shown orb] in S1, S2, S3, S4, S10.
  split; [reflexivity|]. split; [exact S10|].
  split.
  { intros Hw. unfold MinGeom, MinSlatAngGeom, DegToRadians, Rgtb.
    rewrite (proj2 (Rltb_true _ _)); [reflexivity|lra]. }
  split.
  { intros Hw. unfold MinGeom, MinSlatAngGeom, Rgtb.
    rewrite (proj2 (Rltb_false _ _)); [reflexivity|lra]. }
  split; [reflexivity|].
  split.
  { intros Hlt. rewrite S1, S4. rewrite (proj2 (Rltb_true _ _) Hlt).
    split; [reflexivity|]. rewrite !in_app_iff. right. right. right. left. left. reflexivity. }
  split.
  { intros Hge. rewrite S1. rewrite (proj2 (Rltb_false _ _) Hge). reflexivity. }
  split.
  { intros Hgt. rewrite S2, S4. unfold Rgtb. rewrite (proj2 (Rltb_true _ _) Hgt).
    split; [reflexivity|]. rewrite !in_app_iff. right. right. right. right. left.
    reflexivity. }
  split.
  { intros Hle. rewrite S2. unfold Rgtb. rewrite (proj2 (Rltb_false _ _) Hle). reflexivity. }
  rewrite S3. unfold Rgtb.
  rewrite orb_true_iff, andb_true_iff, orb_true_iff, !Rltb_true.
  unfold Rgt. tauto.
Qed.
End VariableSlatBlind.

(** *** A concrete blind *)

(** A blind with slats of width 25 mm, separation 20 mm and thickness 1 mm,
    declared to turn between -10 and 190 degrees. *)
Definition wide_range_blind : WindowBlindProperties :=
  {| Bl_Name := "BLIND"; Bl_SlatAngleType := FixedSlats; Bl_SlatWidth := 0.025;
     Bl_SlatSeparation := 0.020; Bl_SlatThickness := 0.001; Bl_SlatAngle := 45;
     Bl_MinSlatAngle := -10; Bl_MaxSlatAngle := 190 |}.

Lemma C8_variable_slat_clone_witness :
  snd (fst (AddVariableSlatBlind (mkBlinds [wide_range_blind] 1) 1 [])) = 2.
Proof.
  refine (proj1 (C8_variable_slat_clone (mkBlinds [wide_range_blind] 1) 1 [] _ _ _)).
  - reflexivity.
  - simpl. lia.
  - reflexivity.
Defined.

(** ** The screen model *)

Lemma Small_pos : (0 < Small < 1)%R.
Proof.
  unfold Small. split.
  - apply Rdiv_lt_0_compat; [lra|]. apply pow_lt. lra.
  - apply Rmult_lt_reg_r with (10 ^ 9)%R; [apply pow_lt; lra|].
    unfold Rdiv. rewrite Rmult_assoc, Rinv_l by (apply pow_nonzero; lra).
    simpl. lra.
Qed.

Lemma PiOvr2_gt_1 : (1 < PiOvr2)%R.
Proof. exact PI2_1. Qed.

Section NormalIncidence.
Local Open Scope R_scope.

Lemma TransYDir_normal Gamma : TransYDir Gamma 0 0 = Rmax 0 (1 - Gamma).
Proof.
  pose proof Small_pos. pose proof PiOvr2_gt_1.
  unfold TransYDir, Rgtb. cbv zeta.
  rewrite (proj2 (Rltb_true Small (PiOvr2 - 0))) by lra.
  assert (Ha : Rabs (0 - PiOvr2) = PiOvr2).
  { rewrite Rabs_left by lra. lra. }
  rewrite Ha, (proj2 (Rltb_true Small PiOvr2)) by lra.
  rewrite tan_0, cos_0. replace (0 / 1) with 0 by field.
  rewrite atan_0, cos_0, sin_0. f_equal. ring.
Qed.

Lemma TransXDir_normal Gamma : TransXDir Gamma 0 0 = Rmax 0 (1 - Gamma).
Proof.
  pose proof Small_pos. pose proof PiOvr2_gt_1.
  unfold TransXDir, Rgtb. cbv zeta.
  rewrite cos_0, sin_0.
  replace (1 ^ 2 * 1 ^ 2 + 0 ^ 2) with 1 by ring.
  rewrite sqrt_1, (proj2 (Rltb_true Small 1)) by lra.
  replace (1 * 1 / 1) with 1 by field.
  rewrite acos_1, cos_0, tan_0.
  rewrite (proj2 (Rneb_true 1 0)) by lra.
  rewrite (proj2 (Rneb_true (PiOvr2 - 0) 0)) by lra.
  replace (0 / 1) with 0 by field.
  rewrite atan_0, cos_0, sin_0. f_equal. ring.
Qed.

(** At normal incidence the direct transmittance is the product of the two
    components, each the open fraction [1 - Gamma] clamped at 0. *)
Lemma Tdirect_normal Gamma :
  Tdirect Gamma 0 0 = Rmax 0 (1 - Gamma) * Rmax 0 (1 - Gamma).
Proof.
  unfold Tdirect. rewrite TransXDir_normal, TransYDir_normal.
  apply Rmax_right. pose proof (Rmax_l 0 (1 - Gamma)). nra.
Qed.

Lemma grazing_normal : grazing 0 0 = false.
Proof.
  pose proof Small_pos. pose proof PiOvr2_gt_1.
  unfold grazing.
  assert (Ha : Rabs (0 - PiOvr2) = PiOvr2) by (rewrite Rabs_left by lra; lra).
  rewrite Ha, (proj2 (Rltb_false PiOvr2 Small)) by lra. reflexivity.
Qed.

Lemma screen_angles_normal env SurfaceNum ScreenNumber tilt :
  let a := screen_angles env SurfaceNum (Some 0) (Some 0) ScreenNumber tilt in
  SunAzimuthToScreenNormal a = 0 /\ SunAltitudeToScreenNormal a = 0
  /\ NormalAzimuth a = 0
  /\ (SurfaceNum = 0%Z \/ ScreenNumber = None -> NormalAltitude a = 0).
Proof.
  pose proof PiOvr2_gt_1. pose proof PI_RGT_0.
  unfold screen_angles, Rgtb. rewrite Rabs_R0.
  rewrite (proj2 (Rltb_false Pi 0)) by (unfold Pi; lra).
  rewrite (proj2 (Rltb_false PiOvr2 0)) by lra.
  cbn [SunAzimuthToScreenNormal SunAltitudeToScreenNormal NormalAzimuth NormalAltitude].
  repeat split; auto.
  intros [->| ->]; [reflexivity|]. rewrite orb_true_r. reflexivity.
Qed.

Lemma IncidentAngle_normal a :
  NormalAltitude a = 0 -> NormalAzimuth a = 0 -> IncidentAngle a = 0.
Proof.
  intros H1 H2. unfold IncidentAngle. rewrite H1, H2.
  unfold Rneb. rewrite (proj2 (Reqb_true 0 0)) by reflexivity. reflexivity.
Qed.
End NormalIncidence.

Section ScreenResults.
Local Open Scope R_scope.
Variable env : ScreenEnvironment.

(** Every optical result of a screen record is non-negative. *)
Definition results_nonneg (s : SurfaceScreenProperties) : Prop :=
  0 <= Sc_BmBmTrans s /\ 0 <= Sc_BmBmTransVis s /\ 0 <= Sc_BmBmTransBack s
  /\ 0 <= Sc_BmDifTrans s /\ 0 <= Sc_BmDifTransVis s /\ 0 <= Sc_BmDifTransBack s
  /\ 0 <= Sc_ReflectSolBeamFront s /\ 0 <= Sc_ReflectVisBeamFront s
  /\ 0 <= Sc_AbsorpSolarBeamFront s
  /\ 0 <= Sc_ReflectSolBeamBack s /\ 0 <= Sc_ReflectVisBeamBack s
  /\ 0 <= Sc_AbsorpSolarBeamBack s.

Definition back_side_zero (s : SurfaceScreenProperties) : Prop :=
  Sc_BmBmTransBack s = 0 /\ Sc_BmDifTransBack s = 0 /\ Sc_ReflectSolBeamBack s = 0
  /\ Sc_ReflectVisBeamBack s = 0 /\ Sc_AbsorpSolarBeamBack s = 0.

Definition front_side_zero (s : SurfaceScreenProperties) : Prop :=
  Sc_BmBmTrans s = 0 /\ Sc_BmBmTransVis s = 0 /\ Sc_BmDifTrans s = 0
  /\ Sc_BmDifTransVis s = 0 /\ Sc_ReflectSolBeamFront s = 0
  /\ Sc_ReflectVisBeamFront s = 0 /\ Sc_AbsorpSolarBeamFront s = 0.

Lemma Tdirect_nonneg Gamma az alt : 0 <= Tdirect Gamma az alt.
Proof. apply Rmax_l. Qed.

Lemma Tscattered_nonneg Gamma Reflect az alt : 0 <= Tscattered Gamma Reflect az alt.
Proof. apply Rmax_l. Qed.

Lemma store_results_nonneg s Td Ts Tv inc :
  0 <= Td -> 0 <= Ts -> 0 <= Tv -> results_nonneg (store_results s Td Ts Tv inc).
Proof.
  intros H1 H2 H3. unfold store_results, results_nonneg.
  destruct (Sc_ScreenBeamReflectanceAccounting s), (Rleb (Rabs inc) PiOvr2); cbn;
    repeat split; try lra; apply Rmax_l.
Qed.

Lemma store_results_front s Td Ts Tv inc :
  Rabs inc <= PiOvr2 -> back_side_zero (store_results s Td Ts Tv inc).
Proof.
  intros H. unfold store_results, back_side_zero.
  rewrite (proj2 (Rleb_true _ _) H).
  destruct (Sc_ScreenBeamReflectanceAccounting s); cbn; repeat split; reflexivity.
Qed.

Lemma store_results_back s Td Ts Tv inc :
  Rabs inc > PiOvr2 -> front_side_zero (store_results s Td Ts Tv inc).
Proof.
  intros H. unfold store_results, front_side_zero.
  rewrite (proj2 (Rleb_false _ _)) by lra.
  destruct (Sc_ScreenBeamReflectanceAccounting s); cbn; repeat split; reflexivity.
Qed.

(** The record of the screen of the call, after a call that completes. *)
Lemma CalcScreenTransmittance_stored S SurfaceNum Phi Theta ScreenNumber tilt S' ScNum :
  CalcScreenTransmittance env S SurfaceNum Phi Theta ScreenNumber tilt = Completed S' ->
  screen_index env SurfaceNum Phi Theta ScreenNumber = Completed ScNum ->
  (1 <= ScNum <= Z.of_nat (List.length S))%Z ->
  fget default_SurfaceScreenProperties S' ScNum
  = screen_after env (fget default_SurfaceScreenProperties S ScNum)
                 SurfaceNum Phi Theta ScreenNumber tilt.
Proof.
  unfold CalcScreenTransmittance. intros H Hi Hr. rewrite Hi in H.
  inversion H; subst S'. apply fget_fset_same. exact Hr.
Qed.

(** C7.  A call with a screen number but without [Theta] or without [Phi]
    ends in the fatal error: it yields no screen records at all. *)
Theorem C7_screen_number_needs_angles (S : list SurfaceScreenProperties)
    (SurfaceNum : Z) (Phi Theta : option R) (ScNum : Z) (tilt : R) :
  Theta = None \/ Phi = None ->
  CalcScreenTransmittance env S SurfaceNum Phi Theta (Some ScNum) tilt = FatalError.
Proof.
  unfold CalcScreenTransmittance, screen_index.
  intros [-> | ->]; [reflexivity|]. destruct Theta; reflexivity.
Qed.

(** C9.  After a call that completes, every optical result in the record
    of the screen of the call is non-negative. *)
Theorem C9_results_nonnegative (S S' : list SurfaceScreenProperties) (SurfaceNum : Z)
    (Phi Theta : option R) (ScreenNumber : option Z) (tilt : R) (ScNum : Z) :
  CalcScreenTransmittance env S SurfaceNum Phi Theta ScreenNumber tilt = Completed S' ->
  screen_index env SurfaceNum Phi Theta ScreenNumber = Completed ScNum ->
  (1 <= ScNum <= Z.of_nat (List.length S))%Z ->
  results_nonneg (fget default_SurfaceScreenProperties S' ScNum).
Proof.
  intros H Hi Hr. rewrite (CalcScreenTransmittance_stored _ _ _ _ _ _ _ _ H Hi Hr).
  unfold screen_after.
  apply store_results_nonneg;
    [apply Tdirect_nonneg|apply Tscattered_nonneg|apply Tscattered_nonneg].
Qed.

(** The beam transmittance that lines 1510-1544 store for the side the sun
    is on, and the scattered transmittance that lines 1546-1566 work with
    after lines 1520-1521 and 1532-1533. *)
Definition beam_part (s : SurfaceScreenProperties) (Td Ts : R) : R :=
  match Sc_ScreenBeamReflectanceAccounting s with
  | ModelAsDirectBeam => Td + Ts
  | _ => Td
  end.

Definition diffuse_part (s : SurfaceScreenProperties) (Ts : R) : R :=
  match Sc_ScreenBeamReflectanceAccounting s with
  | ModelAsDiffuse => Ts
  | _ => 0
  end.

(** The front-side results of [s'] are the ones of a screen [s] with the
    direct transmittance [Td] and the scattered transmittances [Ts] (solar)
    and [Tv] (visible). *)
Definition front_side_populated (s s' : SurfaceScreenProperties) (Td Ts Tv : R) : Prop :=
  Sc_BmBmTrans s' = beam_part s Td Ts
  /\ Sc_BmBmTransVis s' = beam_part s Td Tv
  /\ Sc_BmDifTrans s' = diffuse_part s Ts
  /\ Sc_BmDifTransVis s' = diffuse_part s Tv
  /\ Sc_ReflectSolBeamFront s'
     = Rmax 0 (Sc_ReflectCylinder s * (1.0 - Td) - diffuse_part s Ts)
  /\ Sc_ReflectVisBeamFront s'
     = Rmax 0 (Sc_ReflectCylinderVis s * (1.0 - Td) - diffuse_part s Tv)
  /\ Sc_AbsorpSolarBeamFront s' = Rmax 0 ((1.0 - Td) * (1.0 - Sc_ReflectCylinder s)).

(** The same for the back side, which has no visible beam transmittance. *)
Definition back_side_populated (s s' : SurfaceScreenProperties) (Td Ts Tv : R) : Prop :=
  Sc_BmBmTransBack s' = beam_part s Td Ts
  /\ Sc_BmDifTransBack s' = diffuse_part s Ts
  /\ Sc_ReflectSolBeamBack s'
     = Rmax 0 (Sc_ReflectCylinder s * (1.0 - Td) - diffuse_part s Ts)
  /\ Sc_ReflectVisBeamBack s'
     = Rmax 0 (Sc_ReflectCylinderVis s * (1.0 - Td) - diffuse_part s Tv)
  /\ Sc_AbsorpSolarBeamBack s' = Rmax 0 ((1.0 - Td) * (1.0 - Sc_ReflectCylinder s)).

Lemma store_results_front_values s Td Ts Tv inc :
  Rabs inc <= PiOvr2 -> front_side_populated s (store_results s Td Ts Tv inc) Td Ts Tv.
Proof.
  intros H. unfold store_results, front_side_populated, beam_part, diffuse_part.
  rewrite (proj2 (Rleb_true _ _) H).
  destruct (Sc_ScreenBeamReflectanceAccounting s); cbn; repeat split; reflexivity.
Qed.

Lemma store_results_back_values s Td Ts Tv inc :
  Rabs inc > PiOvr2 -> back_side_populated s (store_results s Td Ts Tv inc) Td Ts Tv.
Proof.
  intros H. unfold store_results, back_side_populated, beam_part, diffuse_part.
  rewrite (proj2 (Rleb_false _ _)) by lra.
  destruct (Sc_ScreenBeamReflectanceAccounting s); cbn; repeat split; reflexivity.
Qed.

(** C10.  After a call that completes, the record of the screen of the
    call has one side populated and the other at zero.  When the incidence
    angle is at most pi/2 in absolute value, all its back-side results are
    zero and its front-side results are the ones computed by the call: the
    direct transmittance (plus the scattered one when the reflected beam is
    modelled as direct beam) as beam transmittance, the scattered
    transmittance (when the reflected beam is modelled as diffuse, zero
    otherwise) as diffuse transmittance, and the clamped reflectances and
    absorptance.  Otherwise all its front-side results are zero and its
    back-side results are the computed ones.  So one of the two groups is
    all zero. *)
Theorem C10_one_side_populated (S S' : list SurfaceScreenProperties) (SurfaceNum : Z)
    (Phi Theta : option R) (ScreenNumber : option Z) (tilt : R) (ScNum : Z) :
  let a := screen_angles env SurfaceNum Phi Theta ScreenNumber tilt in
  let inc := IncidentAngle a in
  let s := fget default_SurfaceScreenProperties S ScNum in
  let s' := fget default_SurfaceScreenProperties S' ScNum in
  let Gamma := Sc_ScreenDiameterToSpacingRatio s in
  let az := SunAzimuthToScreenNormal a in
  let alt := SunAltitudeToScreenNormal a in
  let Td := Tdirect Gamma az alt in
  let Ts := Tscattered Gamma (Sc_ReflectCylinder s) az alt in
  let Tv := Tscattered Gamma (Sc_ReflectCylinderVis s) az alt in
  CalcScreenTransmittance env S SurfaceNum Phi Theta ScreenNumber tilt = Completed S' ->
  screen_index env SurfaceNum Phi Theta ScreenNumber = Completed ScNum ->
  (1 <= ScNum <= Z.of_nat (List.length S))%Z ->
  (Rabs inc <= PiOvr2 -> back_side_zero s' /\ front_side_populated s s' Td Ts Tv)
  /\ (Rabs inc > PiOvr2 -> front_side_zero s' /\ back_side_populated s s' Td Ts Tv)
  /\ (back_side_zero s' \/ front_side_zero s').
Proof.
  intros a inc s s' Gamma az alt Td Ts Tv H Hi Hr. subst s'.
  rewrite (CalcScreenTransmittance_stored _ _ _ _ _ _ _ _ H Hi Hr).
  unfold screen_after. fold a s. fold Gamma az alt. fold Td Ts Tv inc.
  split; [intros Hle; split;
          [apply store_results_front|apply store_results_front_values]; exact Hle|].
  split; [intros Hgt; split;
          [apply store_results_back|apply store_results_back_values]; exact Hgt|].
  destruct (Rle_dec (Rabs inc) PiOvr2) as [Hle|Hgt].
  - left. apply store_results_front. exact Hle.
  - right. apply store_results_back. lra.
Qed.

(** The beam-beam transmittance stored for the sun in front of the screen. *)
Lemma store_results_BmBmTrans s Td Ts Tv inc :
  Rabs inc <= PiOvr2 ->
  Sc_BmBmTrans (store_results s Td Ts Tv inc)
  = match Sc_ScreenBeamReflectanceAccounting s with
    | ModelAsDirectBeam => Td + Ts
    | _ => Td
    end.
Proof.
  intros H. unfold store_results. rewrite (proj2 (Rleb_true _ _) H).
  destruct (Sc_ScreenBeamReflectanceAccounting s); reflexivity.
Qed.

Lemma screen_after_normal s SurfaceNum ScreenNumber tilt :
  SurfaceNum = 0%Z \/ ScreenNumber = None ->
  Sc_BmBmTrans (screen_after env s SurfaceNum (Some 0) (Some 0) ScreenNumber tilt)
  = match Sc_ScreenBeamReflectanceAccounting s with
    | ModelAsDirectBeam =>
        Tdirect (Sc_ScreenDiameterToSpacingRatio s) 0 0
        + Tscattered (Sc_ScreenDiameterToSpacingRatio s) (Sc_ReflectCylinder s) 0 0
    | _ => Tdirect (Sc_ScreenDiameterToSpacingRatio s) 0 0
    end.
Proof.
  intros Hshape.
  destruct (screen_angles_normal env SurfaceNum ScreenNumber tilt) as (A1 & A2 & A3 & A4).
  specialize (A4 Hshape).
  unfold screen_after. rewrite A1, A2.
  rewrite store_results_BmBmTrans; [reflexivity|].
  rewrite (IncidentAngle_normal _ A4 A3), Rabs_R0.
  pose proof PiOvr2_gt_1. lra.
Qed.

(** C3, as the code has it.  With [Phi = 0] and [Theta = 0] both angles to
    the screen normal are 0; each component of the direct transmittance is
    [1 - Gamma] clamped at 0 and the direct transmittance is their product
    (the open area of the mesh), not [1 - Gamma]; the grazing test fails,
    so the scattered transmittance is the clamped value of the empirical
    model; and in a call with surface number 0 or without a screen number,
    with the setting [DoNotModel] or [ModelAsDiffuse], the product is what
    [BmBmTrans] gets. *)
Theorem C3_normal_incidence (s : SurfaceScreenProperties) (SurfaceNum : Z)
    (ScreenNumber : option Z) (tilt : R) :
  let a := screen_angles env SurfaceNum (Some 0) (Some 0) ScreenNumber tilt in
  let Gamma := Sc_ScreenDiameterToSpacingRatio s in
  SunAzimuthToScreenNormal a = 0 /\ SunAltitudeToScreenNormal a = 0
  /\ TransXDir Gamma 0 0 = Rmax 0 (1 - Gamma)
  /\ TransYDir Gamma 0 0 = Rmax 0 (1 - Gamma)
  /\ Tdirect Gamma 0 0 = Rmax 0 (1 - Gamma) * Rmax 0 (1 - Gamma)
  /\ grazing 0 0 = false
  /\ (forall Reflect,
        Tscattered Gamma Reflect 0 0 = Rmax 0 (scatter_model Gamma Reflect 0 0))
  /\ (SurfaceNum = 0%Z \/ ScreenNumber = None ->
      Sc_ScreenBeamReflectanceAccounting s <> ModelAsDirectBeam ->
      Sc_BmBmTrans (screen_after env s SurfaceNum (Some 0) (Some 0) ScreenNumber tilt)
      = Rmax 0 (1 - Gamma) * Rmax 0 (1 - Gamma)).
Proof.
  intros a Gamma.
  destruct (screen_angles_normal env SurfaceNum ScreenNumber tilt) as (A1 & A2 & _).
  split; [exact A1|]. split; [exact A2|].
  split; [apply TransXDir_normal|]. split; [apply TransYDir_normal|].
  split; [apply Tdirect_normal|]. split; [apply grazing_normal|].
  split.
  - intros Reflect. unfold Tscattered. rewrite grazing_normal. reflexivity.
  - intros Hshape Hmode. rewrite screen_after_normal by exact Hshape.
    fold Gamma. rewrite Tdirect_normal.
    destruct (Sc_ScreenBeamReflectanceAccounting s); congruence.
Qed.
End ScreenResults.

(** *** A concrete screen *)

(** A screen whose wires are half as thick as they are apart. *)
Definition half_open_screen : SurfaceScreenProperties :=
  {| Sc_ScreenDiameterToSpacingRatio := (1 / 2)%R; Sc_ReflectCylinder := (1 / 2)%R;
     Sc_ReflectCylinderVis := (1 / 2)%R; Sc_ScreenBeamReflectanceAccounting := DoNotModel;
     Sc_BmBmTrans := 0%R; Sc_BmBmTransVis := 0%R; Sc_BmBmTransBack := 0%R;
     Sc_BmDifTrans := 0%R; Sc_BmDifTransVis := 0%R; Sc_BmDifTransBack := 0%R;
     Sc_ReflectSolBeamFront := 0%R; Sc_ReflectVisBeamFront := 0%R;
     Sc_AbsorpSolarBeamFront := 0%R; Sc_ReflectSolBeamBack := 0%R;
     Sc_ReflectVisBeamBack := 0%R; Sc_AbsorpSolarBeamBack := 0%R |}.

Definition no_surfaces : ScreenEnvironment := mkScreenEnvironment [] [] [] [].

(** C3 as stated fails for this screen: the call with both angles at 0
    stores the direct transmittance 1/4, not 1 - Gamma = 1/2. *)
Lemma C3_counterexample :
  exists S',
    CalcScreenTransmittance no_surfaces [half_open_screen] 0 (Some 0%R) (Some 0%R) (Some 1)
                            0%R = Completed S'
    /\ Sc_BmBmTrans (fget default_SurfaceScreenProperties S' 1) = (1 / 4)%R
    /\ Sc_BmBmTrans (fget default_SurfaceScreenProperties S' 1)
       <> (1 - Sc_ScreenDiameterToSpacingRatio half_open_screen)%R.
Proof.
  eexists. split; [reflexivity|].
  assert (H : Sc_BmBmTrans
                (screen_after no_surfaces half_open_screen 0 (Some 0%R) (Some 0%R) (Some 1)
                              0%R) = (1 / 4)%R).
  { rewrite screen_after_normal by (left; reflexivity).
    cbn [Sc_ScreenBeamReflectanceAccounting Sc_ScreenDiameterToSpacingRatio
         half_open_screen].
    rewrite Tdirect_normal. rewrite Rmax_right by lra. lra. }
  change (fget default_SurfaceScreenProperties
            (fset [half_open_screen] 1
               (screen_after no_surfaces
                  (fget default_SurfaceScreenProperties [half_open_screen] 1) 0
                  (Some 0%R) (Some 0%R) (Some 1) 0%R)) 1)
    with (screen_after no_surfaces half_open_screen 0 (Some 0%R) (Some 0%R) (Some 1) 0%R).
  rewrite H. split; [reflexivity|]. cbn [Sc_ScreenDiameterToSpacingRatio half_open_screen].
  lra.
Qed.

Lemma C7_screen_number_needs_angles_witness :
  CalcScreenTransmittance no_surfaces [half_open_screen] 0 None (Some 0%R) (Some 1) 0%R
  = FatalError.
Proof.
  apply (C7_screen_number_needs_angles no_surfaces [half_open_screen] 0 None (Some 0%R) 1
                                       0%R).
  right. reflexivity.
Defined.

Lemma C9_results_nonnegative_witness :
  results_nonneg
    (fget default_SurfaceScreenProperties
       (fset [half_open_screen] 1
          (screen_after no_surfaces half_open_screen 0 (Some 0%R) (Some 0%R) (Some 1) 0%R))
       1).
Proof.
  apply (C9_results_nonnegative no_surfaces [half_open_screen] _ 0 (Some 0%R) (Some 0%R)
                                (Some 1) 0%R 1).
  - reflexivity.
  - reflexivity.
  - simpl. lia.
Defined.

Lemma C10_one_side_populated_witness :
  let s' := fget default_SurfaceScreenProperties
              (fset [half_open_screen] 1
                 (screen_after no_surfaces half_open_screen 0 (Some 0%R) (Some 0%R)
                               (Some 1) 0%R)) 1 in
  back_side_zero s' \/ front_side_zero s'.
Proof.
  refine (proj2 (proj2 (C10_one_side_populated no_surfaces [half_open_screen] _ 0
                          (Some 0%R) (Some 0%R) (Some 1) 0%R 1 _ _ _))).
  - reflexivity.
  - reflexivity.
  - simpl. lia.
Defined.

(** ** The error flag and the messages of the validator *)

Definition is_severe (d : Diagnostic) : bool :=
  match d with SevereError _ => true | WarningError _ => false end.

(** [r'] is [r] with severe messages appended, and its flag is the one of
    [r] raised when a message was appended. *)
Definition reported (r r' : Report) : Prop :=
  exists l, Shown r' = Shown r ++ l
            /\ Forall (fun d => is_severe d = true) l
            /\ ErrorsFound r' = ErrorsFound r || negb (Nat.eqb (List.length l) 0).

Lemma reported_refl r : reported r r.
Proof.
  exists []. rewrite app_nil_r, orb_false_r. auto.
Qed.

Lemma reported_trans r1 r2 r3 : reported r1 r2 -> reported r2 r3 -> reported r1 r3.
Proof.
  intros (l1 & A1 & A2 & A3) (l2 & B1 & B2 & B3). exists (l1 ++ l2).
  rewrite B1, A1, app_assoc. split; [reflexivity|]. split; [apply Forall_app; auto|].
  rewrite B3, A3, length_app. destruct l1, l2; simpl; rewrite ?orb_false_r, ?orb_true_r; auto.
Qed.

Lemma reported_severe m r : reported r (severe m r).
Proof.
  exists [SevereError m]. simpl. rewrite orb_true_r. auto.
Qed.

Lemma reported_then_severe m r r' : reported r r' -> reported r (severe m r').
Proof. intros H. eapply reported_trans; [exact H|apply reported_severe]. Qed.

Create HintDb report.
#[local] Hint Resolve reported_refl reported_severe reported_then_severe : report.

Section ValidatorReports.
Variable Material : list MaterialProperties.
Variable Blind : list WindowBlindProperties.

Lemma materials_check_reported c r : reported r (materials_check Material c r).
Proof.
  unfold materials_check. cbv zeta.
  destruct (for_each _ _ _); auto with report.
  destruct (_ && _); auto with report.
  destruct (_ =? 1); auto with report.
  destruct (single_layer_not_glass _); auto with report.
Qed.

Lemma diffusing_glass_checks_reported c n r :
  reported r (diffusing_glass_checks Material c n r).
Proof.
  unfold diffusing_glass_checks. cbv zeta.
  assert (H1 : reported r (for_each_break (upto 1 (Con_TotLayers c))
                             (diffusing_shade_step Material c (TotShadeLayers n)) r)).
  { apply for_each_break_invariant; auto with report.
    intros i x Hx. unfold diffusing_shade_step.
    destruct (LayerPoint c i =? 0); auto.
    destruct (_ && _); cbn [fst]; auto with report. }
  destruct (TotGlassLayers n >? 1); auto.
  apply for_each_invariant with (P := fun s => reported r (snd s)); auto.
  intros i x Hx. unfold diffusing_innermost_step.
  destruct (LayerPoint c i =? 0); auto.
  destruct (_ =? WindowGlass); auto.
  destruct (_ && _); cbn [snd]; auto with report.
Qed.

Lemma between_glass_check_reported c T G r :
  reported r (snd (between_glass_check Material Blind c T G r)).
Proof.
  unfold between_glass_check.
  destruct (G =? 4); [apply reported_refl|].
  destruct (_ || _); [|apply reported_refl].
  match goal with |- context [let '(_, _) := ?e in _] => destruct e as [w v] end.
  cbv zeta.
  destruct (negb _); [|apply reported_refl].
  destruct (negb _); [|apply reported_refl].
  rewrite adjacent_gas_check_report.
  destruct (_ && _); auto with report.
Qed.

Lemma layering_checks_reported c n r : reported r (layering_checks Material Blind c n r).
Proof.
  unfold layering_checks. cbv zeta.
  pose proof (diffusing_glass_checks_reported c n r) as Hd.
  set (rd := diffusing_glass_checks Material c n r) in *. clearbody rd.
  match goal with |- context [let '(_, _) := ?e in _] =>
    assert (Hb : reported r (snd e)); [|destruct e as [w rb]] end.
  { destruct (_ && _); cbn [snd]; auto.
    eapply reported_trans; [exact Hd|apply between_glass_check_reported]. }
  cbn [snd] in Hb.
  assert (Hs : reported r
                 (if LayerGroup Material c 1 =? WindowSimpleGlazing
                  then if Con_TotLayers c >? 1
                       then for_each (upto 1 (Con_TotLayers c))
                                     (simple_glazing_step Material c) rb
                       else rb
                  else rb)).
  { destruct (_ =? WindowSimpleGlazing); auto.
    destruct (_ >? 1); auto.
    apply for_each_invariant; auto.
    intros i x Hx. unfold simple_glazing_step.
    destruct (LayerPoint c i =? 0); auto.
    destruct (_ =? WindowGlass), (_ =? WindowGas); auto with report. }
  destruct w; auto with report.
Qed.

Lemma boundary_report_reported c r i : reported r (boundary_report Material c r i).
Proof.
  unfold boundary_report. cbv zeta.
  assert (H1 : reported r (if LayerGroup Material c 1 =? Air
                           then severe MsgOutsideLayerAir r else r))
    by (destruct (_ =? Air); auto with report).
  set (r1 := if LayerGroup Material c 1 =? Air then _ else _) in *. clearbody r1.
  assert (H2 : reported r (if i >? 0
                           then if LayerGroup Material c i =? Air
                                then severe MsgInsideLayerAir r1 else r1
                           else r1)).
  { destruct (i >? 0); auto. destruct (_ =? Air); auto with report. }
  set (r2 := if i >? 0 then _ else _) in *. clearbody r2.
  assert (H3 : reported r (if LayerGroup Material c 1 =? EcoRoof
                           then for_each (upto 2 (Con_TotLayers c))
                                         (ecoroof_step Material c) r2
                           else r2)).
  { destruct (_ =? EcoRoof); auto. apply for_each_invariant; auto.
    intros k x Hx. unfold ecoroof_step. destruct (_ =? EcoRoof); auto with report. }
  set (r3 := if LayerGroup Material c 1 =? EcoRoof then _ else _) in *. clearbody r3.
  destruct (_ =? IRTMaterial); auto. destruct (negb _); auto with report.
Qed.

Lemma check_construction_reported c r :
  reported r (snd (check_construction Material Blind c r)).
Proof.
  unfold check_construction.
  destruct (_ <=? 0); [apply reported_refl|].
  destruct (_ =? 0); [apply reported_refl|].
  cbv zeta.
  destruct (_ =? 0); [apply reported_refl|].
  destruct (_ =? 0); [apply reported_refl|].
  destruct (Con_TypeIsWindow _).
  - unfold window_branch. cbv zeta.
    destruct (Con_WindowTypeBSDF _); [apply materials_check_reported|].
    destruct (Con_WindowTypeEQL _); [apply materials_check_reported|].
    destruct (window_totals _ _ _ _ _) as [c4 i4].
    rewrite boundary_checks_report.
    eapply reported_trans; [apply materials_check_reported|].
    eapply reported_trans; [apply layering_checks_reported|].
    apply boundary_report_reported.
  - rewrite boundary_checks_report. apply boundary_report_reported.
Qed.

(** X1.  The routine only appends severe messages to the messages shown so far,
    raises the error flag exactly when it appends one, and never lowers it. *)
Theorem validator_only_appends_errors (Construct : list ConstructionData) (ConstrNum : Z)
    (r : Report) :
  let r' := snd (CheckAndSetConstructionProperties Material Blind Construct ConstrNum r) in
  (exists l, Shown r' = Shown r ++ l
             /\ Forall (fun d => is_severe d = true) l
             /\ ErrorsFound r' = ErrorsFound r || negb (Nat.eqb (List.length l) 0))
  /\ (ErrorsFound r = true -> ErrorsFound r' = true).
Proof.
  intros r'. subst r'. rewrite CheckAndSetConstructionProperties_report.
  pose proof (check_construction_reported
                (fget default_ConstructionData Construct ConstrNum) r) as H.
  split; [exact H|].
  destruct H as (l & _ & _ & ->). intros ->. reflexivity.
Qed.

Lemma reported_keeps r r' :
  reported r r' ->
  (ErrorsFound r = true -> ErrorsFound r' = true)
  /\ (forall d, In d (Shown r) -> In d (Shown r')).
Proof.
  intros (l & H1 & _ & H3). split.
  - intros H. rewrite H3, H. reflexivity.
  - intros d Hd. rewrite H1. apply in_or_app. auto.
Qed.

(** What is shown and flagged after a stage stays so to the end of the
    routine, for a construction that passes the tests of lines 679-715. *)
Lemma after_materials_check c r :
  0 < LayerPoint c (Con_TotLayers c) -> Con_TotLayers c <> 0 -> LayerPoint c 1 <> 0 ->
  existsb (window_layer Material c) (upto 1 (Con_TotLayers c)) = true ->
  reported (materials_check Material c r) (snd (check_construction Material Blind c r)).
Proof.
  intros H1 H2 H3 Hw. rewrite check_construction_report by assumption.
  unfold construction_report. rewrite Hw. cbv zeta.
  destruct (Con_WindowTypeBSDF c); [apply reported_refl|].
  destruct (Con_WindowTypeEQL c); [apply reported_refl|].
  eapply reported_trans; [apply layering_checks_reported|apply boundary_report_reported].
Qed.

Lemma valid_single_layer c g :
  Con_TotLayers c = 1 -> LayerGroup Material c 1 = g -> (g =? -1) = false ->
  0 < LayerPoint c (Con_TotLayers c) /\ Con_TotLayers c <> 0 /\ LayerPoint c 1 <> 0.
Proof.
  intros Hn Hg Hne. rewrite Hn.
  pose proof (group_known_ref_positive Material c 1 g Hg Hne). lia.
Qed.

(** X2.  A single-layer construction whose layer is a shade, gas, gas mixture,
    blind, screen, complex shade or complex gap gets the error flag and the
    message that a single-layer window must be glass or a simple glazing
    system. *)
Theorem single_layer_window_must_be_glazing (Construct : list ConstructionData)
    (ConstrNum : Z) (r : Report) :
  let c := fget default_ConstructionData Construct ConstrNum in
  let r' := snd (CheckAndSetConstructionProperties Material Blind Construct ConstrNum r) in
  Con_TotLayers c = 1 ->
  In (LayerGroup Material c 1)
     [Shade; WindowGas; WindowGasMixture; WindowBlind; Screen; ComplexWindowShade;
      ComplexWindowGap] ->
  ErrorsFound r' = true /\ In (SevereError MsgSingleLayerNotGlass) (Shown r').
Proof.
  intros c r' Hn Hg. subst r'. rewrite CheckAndSetConstructionProperties_report. fold c.
  assert (Hne : (LayerGroup Material c 1 =? -1) = false).
  { simpl in Hg. repeat (destruct Hg as [Hg|Hg]; [rewrite <- Hg; reflexivity|]).
    contradiction. }
  assert (Hs : single_layer_not_glass (LayerGroup Material c 1) = true).
  { simpl in Hg. unfold single_layer_not_glass.
    repeat (destruct Hg as [Hg|Hg]; [rewrite <- Hg; reflexivity|]). contradiction. }
  assert (Hwg : is_window_group (LayerGroup Material c 1) = true).
  { simpl in Hg. repeat (destruct Hg as [Hg|Hg]; [rewrite <- Hg; reflexivity|]).
    contradiction. }
  destruct (valid_single_layer c _ Hn eq_refl Hne) as (V1 & V2 & V3).
  assert (Hz : (LayerPoint c 1 =? 0) = false) by (apply Z.eqb_neq; exact V3).
  assert (Hw : existsb (window_layer Material c) (upto 1 (Con_TotLayers c)) = true).
  { rewrite Hn. change (upto 1 1) with [1]. cbn [existsb]. unfold window_layer.
    rewrite Hz, Hwg. reflexivity. }
  destruct (reported_keeps _ _ (after_materials_check c r V1 V2 V3 Hw)) as (K1 & K2).
  assert (Hm : materials_check Material c r = severe MsgSingleLayerNotGlass r).
  { unfold materials_check. rewrite mix_loop, Hn. change (upto 1 1) with [1].
    cbn [existsb]. rewrite Hz, not_window_group_negb, Hwg, Hs. reflexivity. }
  rewrite Hm in K1, K2. split.
  - apply K1. reflexivity.
  - apply K2. unfold severe. cbn [Shown]. apply in_or_app. right. left. reflexivity.
Qed.

(** X3.  A window construction with a layer whose material is of no window group
    gets the error flag and the message on its materials. *)
Theorem window_with_other_material_is_an_error (Construct : list ConstructionData)
    (ConstrNum : Z) (r : Report) (Layer Other : Z) :
  let c := fget default_ConstructionData Construct ConstrNum in
  let r' := snd (CheckAndSetConstructionProperties Material Blind Construct ConstrNum r) in
  0 < LayerPoint c (Con_TotLayers c) -> LayerPoint c 1 <> 0 ->
  1 <= Layer <= Con_TotLayers c -> LayerPoint c Layer <> 0 ->
  In (LayerGroup Material c Layer) window_groups ->
  1 <= Other <= Con_TotLayers c -> LayerPoint c Other <> 0 ->
  ~ In (LayerGroup Material c Other) window_groups ->
  ErrorsFound r' = true /\ In (SevereError MsgWrongMaterialsMix) (Shown r').
Proof.
  intros c r' V1 V3 HL HLz HLg HO HOz HOg. subst r'.
  rewrite CheckAndSetConstructionProperties_report. fold c.
  assert (V2 : Con_TotLayers c <> 0) by lia.
  assert (Hw : existsb (window_layer Material c) (upto 1 (Con_TotLayers c)) = true).
  { apply existsb_exists. exists Layer. split; [apply in_upto; exact HL|].
    unfold window_layer. apply andb_true_iff. split.
    - apply negb_true_iff, Z.eqb_neq. exact HLz.
    - apply is_window_group_In. exact HLg. }
  destruct (reported_keeps _ _ (after_materials_check c r V1 V2 V3 Hw)) as (K1 & K2).
  assert (Hm : materials_check Material c r = severe MsgWrongMaterialsMix r).
  { unfold materials_check. rewrite mix_loop.
    replace (existsb _ _) with true; [reflexivity|]. symmetry.
    apply existsb_exists. exists Other. split; [apply in_upto; exact HO|].
    apply andb_true_iff. split.
    - apply negb_true_iff, Z.eqb_neq. exact HOz.
    - rewrite not_window_group_negb. apply negb_true_iff.
      destruct (is_window_group _) eqn:E; auto.
      apply is_window_group_In in E. contradiction. }
  rewrite Hm in K1, K2. split.
  - apply K1. reflexivity.
  - apply K2. unfold severe. cbn [Shown]. apply in_or_app. right. left. reflexivity.
Qed.

(** A loop whose body shows one message when a test holds raises the flag
    exactly when the test holds for one of the indices. *)
Lemma for_each_severe_flag (hit : Z -> bool) (m : Message) (body : Z -> Report -> Report)
    idx r :
  (forall i x, body i x = if hit i then severe m x else x) ->
  ErrorsFound (for_each idx body r) = ErrorsFound r || existsb hit idx.
Proof.
  intros Hb. unfold for_each. revert r.
  induction idx as [|i t IH]; intros r; cbn [fold_left existsb].
  - now rewrite orb_false_r.
  - rewrite IH, Hb. destruct (hit i); cbn [ErrorsFound severe orb].
    + now rewrite orb_true_r.
    + reflexivity.
Qed.

(** The error flag after lines 973-1005. *)
Lemma boundary_report_flag c r i :
  ErrorsFound (boundary_report Material c r i)
  = ErrorsFound r
    || (LayerGroup Material c 1 =? Air)
    || ((i >? 0) && (LayerGroup Material c i =? Air))
    || ((LayerGroup Material c 1 =? EcoRoof)
        && existsb (fun Layer => LayerGroup Material c Layer =? EcoRoof)
                   (upto 2 (Con_TotLayers c)))
    || ((LayerGroup Material c 1 =? IRTMaterial) && negb (Con_TotLayers c =? 1)).
Proof.
  unfold boundary_report. cbv zeta.
  set (r1 := if LayerGroup Material c 1 =? Air then _ else _).
  assert (H1 : ErrorsFound r1 = ErrorsFound r || (LayerGroup Material c 1 =? Air)).
  { subst r1. destruct (_ =? Air); cbn; now rewrite ?orb_true_r, ?orb_false_r. }
  clearbody r1.
  set (r2 := if i >? 0 then _ else _).
  assert (H2 : ErrorsFound r2
               = ErrorsFound r1 || ((i >? 0) && (LayerGroup Material c i =? Air))).
  { subst r2. destruct (i >? 0); cbn [andb]; [|now rewrite orb_false_r].
    destruct (LayerGroup Material c i =? Air); cbn;
      now rewrite ?orb_true_r, ?orb_false_r. }
  clearbody r2.
  set (r3 := if LayerGroup Material c 1 =? EcoRoof then _ else _).
  assert (H3 : ErrorsFound r3
               = ErrorsFound r2
                 || ((LayerGroup Material c 1 =? EcoRoof)
                     && existsb (fun Layer => LayerGroup Material c Layer =? EcoRoof)
                                (upto 2 (Con_TotLayers c)))).
  { subst r3. destruct (LayerGroup Material c 1 =? EcoRoof); cbn [andb];
      [|now rewrite orb_false_r].
    apply for_each_severe_flag with (m := MsgInteriorEcoRoof).
    intros k x. reflexivity. }
  clearbody r3.
  rewrite <- H1, <- H2, <- H3.
  destruct (LayerGroup Material c 1 =? IRTMaterial); cbn [andb];
    [|now rewrite orb_false_r].
  destruct (negb _); cbn; now rewrite ?orb_true_r, ?orb_false_r.
Qed.

(** The error flag of the routine for an opaque construction that passes
    the tests of lines 679-715. *)
Lemma opaque_construction_flag c r :
  0 < LayerPoint c (Con_TotLayers c) -> LayerPoint c 1 <> 0 ->
  existsb (window_layer Material c) (upto 1 (Con_TotLayers c)) = false ->
  snd (check_construction Material Blind c r)
  = boundary_report Material c r (Con_TotLayers c).
Proof.
  intros V1 V3 Hw.
  assert (V2 : Con_TotLayers c <> 0).
  { intros H0. rewrite H0 in V1. unfold LayerPoint, fget in V1. simpl in V1. lia. }
  rewrite check_construction_report by assumption.
  unfold construction_report. rewrite Hw. reflexivity.
Qed.

(** A layer with a valid reference to a material of no window group, in a
    window construction, raises the flag. *)
Lemma window_with_other_material_flag c r Other :
  0 < LayerPoint c (Con_TotLayers c) -> LayerPoint c 1 <> 0 ->
  existsb (window_layer Material c) (upto 1 (Con_TotLayers c)) = true ->
  1 <= Other <= Con_TotLayers c -> LayerPoint c Other <> 0 ->
  is_window_group (LayerGroup Material c Other) = false ->
  ErrorsFound (snd (check_construction Material Blind c r)) = true.
Proof.
  intros V1 V3 Hw HO HOz HOg.
  assert (V2 : Con_TotLayers c <> 0) by lia.
  destruct (reported_keeps _ _ (after_materials_check c r V1 V2 V3 Hw)) as (K1 & _).
  apply K1. unfold materials_check. rewrite mix_loop.
  replace (existsb _ _) with true; [reflexivity|]. symmetry.
  apply existsb_exists. exists Other. split; [apply in_upto; exact HO|].
  apply andb_true_iff. split.
  - apply negb_true_iff, Z.eqb_neq. exact HOz.
  - rewrite not_window_group_negb, HOg. reflexivity.
Qed.

Lemma inner_layer_in_range c :
  0 < LayerPoint c (Con_TotLayers c) -> 1 <= Con_TotLayers c.
Proof.
  intros V1. destruct (Z_lt_le_dec (Con_TotLayers c) 1) as [H|H]; auto.
  unfold LayerPoint, fget in V1.
  rewrite (proj2 (Z.ltb_lt _ _) H) in V1. lia.
Qed.

(** X4.  A construction whose outermost or innermost layer is an air gap gets
    the error flag, whether it is a window or not. *)
Theorem air_at_a_boundary_is_an_error (Construct : list ConstructionData) (ConstrNum : Z)
    (r : Report) :
  let c := fget default_ConstructionData Construct ConstrNum in
  let r' := snd (CheckAndSetConstructionProperties Material Blind Construct ConstrNum r) in
  0 < LayerPoint c (Con_TotLayers c) -> LayerPoint c 1 <> 0 ->
  LayerGroup Material c 1 = Air \/ LayerGroup Material c (Con_TotLayers c) = Air ->
  ErrorsFound r' = true.
Proof.
  intros c r' V1 V3 Hair. subst r'. rewrite CheckAndSetConstructionProperties_report.
  fold c. pose proof (inner_layer_in_range c V1) as HT.
  destruct (existsb (window_layer Material c) (upto 1 (Con_TotLayers c))) eqn:Hw.
  - destruct Hair as [Ha|Ha].
    + apply (window_with_other_material_flag c r 1); auto; [lia|]. rewrite Ha. reflexivity.
    + apply (window_with_other_material_flag c r (Con_TotLayers c)); auto; try lia.
      rewrite Ha. reflexivity.
  - rewrite opaque_construction_flag by assumption.
    rewrite boundary_report_flag.
    destruct Hair as [Ha|Ha]; rewrite Ha.
    + cbn. now rewrite !orb_true_r.
    + rewrite (proj2 (Z.gtb_lt _ _)) by lia. cbn.
      now rewrite ?orb_true_r.
Qed.

(** X5.  A construction whose outermost layer is roof vegetation and that has
    roof vegetation in another layer as well gets the error flag. *)
Theorem second_ecoroof_layer_is_an_error (Construct : list ConstructionData)
    (ConstrNum : Z) (r : Report) (Layer : Z) :
  let c := fget default_ConstructionData Construct ConstrNum in
  let r' := snd (CheckAndSetConstructionProperties Material Blind Construct ConstrNum r) in
  0 < LayerPoint c (Con_TotLayers c) -> LayerPoint c 1 <> 0 ->
  LayerGroup Material c 1 = EcoRoof ->
  2 <= Layer <= Con_TotLayers c -> LayerGroup Material c Layer = EcoRoof ->
  ErrorsFound r' = true.
Proof.
  intros c r' V1 V3 H1 HL HLg. subst r'. rewrite CheckAndSetConstructionProperties_report.
  fold c.
  destruct (existsb (window_layer Material c) (upto 1 (Con_TotLayers c))) eqn:Hw.
  - apply (window_with_other_material_flag c r 1); auto; [lia|]. rewrite H1. reflexivity.
  - rewrite opaque_construction_flag by assumption.
    rewrite boundary_report_flag, H1.
    replace (existsb _ (upto 2 (Con_TotLayers c))) with true.
    + cbn. now rewrite ?orb_true_r.
    + symmetry. apply existsb_exists. exists Layer. split; [apply in_upto; exact HL|].
      rewrite HLg. reflexivity.
Qed.

(** X6.  A construction whose outermost layer is infrared transparent and that
    has more than one layer gets the error flag. *)
Theorem infrared_transparent_is_single_layer (Construct : list ConstructionData)
    (ConstrNum : Z) (r : Report) :
  let c := fget default_ConstructionData Construct ConstrNum in
  let r' := snd (CheckAndSetConstructionProperties Material Blind Construct ConstrNum r) in
  0 < LayerPoint c (Con_TotLayers c) -> LayerPoint c 1 <> 0 ->
  LayerGroup Material c 1 = IRTMaterial -> Con_TotLayers c <> 1 ->
  ErrorsFound r' = true.
Proof.
  intros c r' V1 V3 H1 Hn. subst r'. rewrite CheckAndSetConstructionProperties_report.
  fold c. pose proof (inner_layer_in_range c V1) as HT.
  destruct (existsb (window_layer Material c) (upto 1 (Con_TotLayers c))) eqn:Hw.
  - apply (window_with_other_material_flag c r 1); auto; [lia|]. rewrite H1. reflexivity.
  - rewrite opaque_construction_flag by assumption.
    rewrite boundary_report_flag, H1, (proj2 (Z.eqb_neq _ _) Hn).
    cbn. now rewrite ?orb_true_r.
Qed.

(** X7.  An opaque construction whose boundary layers are no air gaps and whose
    outermost layer is neither roof vegetation nor infrared transparent is
    accepted without a message. *)
Theorem opaque_construction_accepted (Construct : list ConstructionData) (ConstrNum : Z)
    (r : Report) :
  let c := fget default_ConstructionData Construct ConstrNum in
  0 < LayerPoint c (Con_TotLayers c) -> LayerPoint c 1 <> 0 ->
  (forall Layer, 1 <= Layer <= Con_TotLayers c ->
     LayerPoint c Layer = 0 \/ ~ In (LayerGroup Material c Layer) window_groups) ->
  ~ In (LayerGroup Material c 1) [Air; EcoRoof; IRTMaterial] ->
  LayerGroup Material c (Con_TotLayers c) <> Air ->
  snd (CheckAndSetConstructionProperties Material Blind Construct ConstrNum r) = r.
Proof.
  intros c V1 V3 Hop H1 HT. rewrite CheckAndSetConstructionProperties_report. fold c.
  assert (Hw : existsb (window_layer Material c) (upto 1 (Con_TotLayers c)) = false).
  { destruct (existsb _ _) eqn:E; auto. apply existsb_exists in E as (L & HL & Hh).
    apply in_upto in HL. unfold window_layer in Hh. apply andb_true_iff in Hh as [Ha Hb].
    apply negb_true_iff, Z.eqb_neq in Ha. apply is_window_group_In in Hb.
    destruct (Hop L HL); contradiction. }
  rewrite opaque_construction_flag by assumption.
  pose proof (inner_layer_in_range c V1) as Hn.
  unfold boundary_report. cbv zeta.
  assert (E1 : (LayerGroup Material c 1 =? Air) = false)
    by (apply Z.eqb_neq; intros E; apply H1; rewrite E; simpl; auto).
  assert (E2 : (LayerGroup Material c 1 =? EcoRoof) = false)
    by (apply Z.eqb_neq; intros E; apply H1; rewrite E; simpl; auto).
  assert (E3 : (LayerGroup Material c 1 =? IRTMaterial) = false)
    by (apply Z.eqb_neq; intros E; apply H1; rewrite E; simpl; auto).
  rewrite E1, E2, E3, (proj2 (Z.eqb_neq _ _) HT).
  destruct (_ >? 0); reflexivity.
Qed.

(** The rulebook message of lines 920-940 once [WrongWindowLayering] is up
    before the between-glass rules. *)
Lemma layering_checks_wrong c n r :
  AdjacentSameGroup n = true
  \/ is_gas_group (LayerGroup Material c 1)
     || is_gas_group (LayerGroup Material c (Con_TotLayers c)) = true
  \/ (TotShadeLayers n >? 1) = true ->
  ErrorsFound (layering_checks Material Blind c n r) = true
  /\ In (SevereError MsgWindowLayeringRules) (Shown (layering_checks Material Blind c n r)).
Proof.
  intros H. unfold layering_checks. cbv zeta.
  set (w1 := if is_gas_group _ || is_gas_group _ then true else AdjacentSameGroup n).
  set (w2 := if TotShadeLayers n >? 1 then true else w1).
  set (w3 := if (TotShadeLayers n =? 1) && _ && _ then true else w2).
  assert (Hw3 : w3 = true).
  { subst w3 w2 w1.
    destruct ((TotShadeLayers n =? 1) && _ && _); auto.
    destruct (TotShadeLayers n >? 1); auto.
    destruct (is_gas_group _ || is_gas_group _); auto.
    destruct H as [H|[H|H]]; auto; discriminate. }
  rewrite Hw3, andb_false_r.
  match goal with |- context [if _ =? WindowSimpleGlazing then ?a else ?b] =>
    set (rs := if _ =? WindowSimpleGlazing then a else b) end.
  unfold severe. cbn [ErrorsFound Shown]. split; [reflexivity|].
  apply in_or_app. right. left. reflexivity.
Qed.

(** A window that passes the tests of lines 679-715 and is neither a BSDF
    nor an equivalent-layer window reaches the layering rules. *)
Lemma after_layering_checks c r :
  0 < LayerPoint c (Con_TotLayers c) -> LayerPoint c 1 <> 0 ->
  existsb (window_layer Material c) (upto 1 (Con_TotLayers c)) = true ->
  Con_WindowTypeBSDF c = false -> Con_WindowTypeEQL c = false ->
  reported (layering_checks Material Blind c (count_layers Material c)
                            (materials_check Material c r))
           (snd (check_construction Material Blind c r)).
Proof.
  intros V1 V3 Hw HB HQ. pose proof (inner_layer_in_range c V1) as Hn.
  rewrite check_construction_report by (auto; lia).
  unfold construction_report. rewrite Hw, HB, HQ. apply boundary_report_reported.
Qed.

Lemma window_layer_of_group c Layer :
  1 <= Layer <= Con_TotLayers c -> LayerPoint c Layer <> 0 ->
  In (LayerGroup Material c Layer) window_groups ->
  existsb (window_layer Material c) (upto 1 (Con_TotLayers c)) = true.
Proof.
  intros HL Hz Hg. apply existsb_exists. exists Layer. split; [apply in_upto; exact HL|].
  unfold window_layer. apply andb_true_iff. split.
  - apply negb_true_iff, Z.eqb_neq. exact Hz.
  - apply is_window_group_In. exact Hg.
Qed.

(** X8.  A construction that is neither a BSDF nor an equivalent-layer window and
    whose outermost or innermost layer is a gas or a gas mixture gets the
    error flag and the layering rulebook. *)
Theorem gas_at_a_boundary_is_an_error (Construct : list ConstructionData) (ConstrNum : Z)
    (r : Report) :
  let c := fget default_ConstructionData Construct ConstrNum in
  let r' := snd (CheckAndSetConstructionProperties Material Blind Construct ConstrNum r) in
  0 < LayerPoint c (Con_TotLayers c) -> LayerPoint c 1 <> 0 ->
  Con_WindowTypeBSDF c = false -> Con_WindowTypeEQL c = false ->
  In (LayerGroup Material c 1) [WindowGas; WindowGasMixture]
  \/ In (LayerGroup Material c (Con_TotLayers c)) [WindowGas; WindowGasMixture] ->
  ErrorsFound r' = true /\ In (SevereError MsgWindowLayeringRules) (Shown r').
Proof.
  intros c r' V1 V3 HB HQ Hg. subst r'. rewrite CheckAndSetConstructionProperties_report.
  fold c. pose proof (inner_layer_in_range c V1) as Hn.
  assert (Hgas : forall g, In g [WindowGas; WindowGasMixture] ->
                 is_gas_group g = true /\ In g window_groups).
  { intros g [<-|[<-|[]]]; split; try reflexivity; simpl; auto. }
  assert (Hw : existsb (window_layer Material c) (upto 1 (Con_TotLayers c)) = true).
  { destruct Hg as [Hg|Hg]; apply Hgas in Hg as [_ Hg].
    - apply (window_layer_of_group c 1); auto. lia.
    - apply (window_layer_of_group c (Con_TotLayers c)); auto; lia. }
  destruct (reported_keeps _ _ (after_layering_checks c r V1 V3 Hw HB HQ)) as (K1 & K2).
  destruct (layering_checks_wrong c (count_layers Material c) (materials_check Material c r))
    as (W1 & W2).
  { right. left. destruct Hg as [Hg|Hg]; apply Hgas in Hg as [Hg _]; rewrite Hg;
      now rewrite ?orb_true_r. }
  split; [apply K1; exact W1|apply K2; exact W2].
Qed.

Lemma count_step_keeps_adjacent c T L s :
  AdjacentSameGroup s = true -> AdjacentSameGroup (count_step Material c T L s) = true.
Proof.
  intros H. unfold count_step. destruct (LayerPoint c L =? 0); auto.
  cbn [AdjacentSameGroup]. destruct (L <? T); auto.
  destruct (LayerPoint c (L + 1) =? 0); auto. destruct (_ =? _); auto.
Qed.

Lemma count_layers_adjacent c Layer :
  1 <= Layer < Con_TotLayers c ->
  LayerPoint c Layer <> 0 -> LayerPoint c (Layer + 1) <> 0 ->
  LayerGroup Material c Layer = LayerGroup Material c (Layer + 1) ->
  AdjacentSameGroup (count_layers Material c) = true.
Proof.
  intros HL Hz Hz1 Hg. unfold count_layers.
  assert (Hin : In Layer (upto 1 (Con_TotLayers c))) by (apply in_upto; lia).
  apply in_split in Hin as (l1 & l2 & ->).
  unfold for_each. rewrite fold_left_app. cbn [fold_left].
  apply (for_each_invariant (fun s => AdjacentSameGroup s = true)).
  - intros i x Hx. apply count_step_keeps_adjacent. exact Hx.
  - unfold count_step.
    rewrite (proj2 (Z.eqb_neq _ _) Hz), (proj2 (Z.ltb_lt _ _) (proj2 HL)),
      (proj2 (Z.eqb_neq _ _) Hz1).
    cbn [AdjacentSameGroup]. unfold LayerGroup in Hg. rewrite Hg, Z.eqb_refl. reflexivity.
Qed.

(** X9.  A construction that is neither a BSDF nor an equivalent-layer window and
    in which two consecutive layers have materials of the same window group
    gets the error flag and the layering rulebook. *)
Theorem adjacent_layers_of_one_group_are_an_error (Construct : list ConstructionData)
    (ConstrNum : Z) (r : Report) (Layer : Z) :
  let c := fget default_ConstructionData Construct ConstrNum in
  let r' := snd (CheckAndSetConstructionProperties Material Blind Construct ConstrNum r) in
  0 < LayerPoint c (Con_TotLayers c) -> LayerPoint c 1 <> 0 ->
  Con_WindowTypeBSDF c = false -> Con_WindowTypeEQL c = false ->
  1 <= Layer < Con_TotLayers c ->
  LayerPoint c Layer <> 0 -> LayerPoint c (Layer + 1) <> 0 ->
  In (LayerGroup Material c Layer) window_groups ->
  LayerGroup Material c Layer = LayerGroup Material c (Layer + 1) ->
  ErrorsFound r' = true /\ In (SevereError MsgWindowLayeringRules) (Shown r').
Proof.
  intros c r' V1 V3 HB HQ HL Hz Hz1 Hwg Hg. subst r'.
  rewrite CheckAndSetConstructionProperties_report. fold c.
  assert (Hw : existsb (window_layer Material c) (upto 1 (Con_TotLayers c)) = true)
    by (apply (window_layer_of_group c Layer); auto; lia).
  destruct (reported_keeps _ _ (after_layering_checks c r V1 V3 Hw HB HQ)) as (K1 & K2).
  destruct (layering_checks_wrong c (count_layers Material c) (materials_check Material c r))
    as (W1 & W2).
  { left. apply (count_layers_adjacent c Layer); auto. }
  split; [apply K1; exact W1|apply K2; exact W2].
Qed.

(** X10.  A window of more than 8 layers that is neither a BSDF nor an
    equivalent-layer window gets the error flag. *)
Theorem window_of_more_than_8_layers_is_an_error (Construct : list ConstructionData)
    (ConstrNum : Z) (r : Report) (Layer : Z) :
  let c := fget default_ConstructionData Construct ConstrNum in
  let r' := snd (CheckAndSetConstructionProperties Material Blind Construct ConstrNum r) in
  0 < LayerPoint c (Con_TotLayers c) -> LayerPoint c 1 <> 0 ->
  Con_WindowTypeBSDF c = false -> Con_WindowTypeEQL c = false ->
  1 <= Layer <= Con_TotLayers c -> LayerPoint c Layer <> 0 ->
  In (LayerGroup Material c Layer) window_groups ->
  8 < Con_TotLayers c ->
  ErrorsFound r' = true.
Proof.
  intros c r' V1 V3 HB HQ HL Hz Hwg H8. subst r'.
  rewrite CheckAndSetConstructionProperties_report. fold c.
  assert (Hw : existsb (window_layer Material c) (upto 1 (Con_TotLayers c)) = true)
    by (apply (window_layer_of_group c Layer); auto).
  assert (V2 : Con_TotLayers c <> 0) by lia.
  destruct (reported_keeps _ _ (after_materials_check c r V1 V2 V3 Hw)) as (K1 & _).
  apply K1. unfold materials_check. cbv zeta.
  destruct (for_each _ _ _); [reflexivity|].
  rewrite (proj2 (Z.gtb_lt _ _)) by lia. rewrite HB, HQ. reflexivity.
Qed.

(** X11.  For a BSDF or an equivalent-layer window the routine returns before the
    layering rules: with window materials in all its layers, and more than
    one layer, it is accepted without a message whatever the order of the
    layers. *)
Theorem bsdf_and_eql_windows_skip_layering_rules (Construct : list ConstructionData)
    (ConstrNum : Z) (r : Report) :
  let c := fget default_ConstructionData Construct ConstrNum in
  0 < LayerPoint c (Con_TotLayers c) -> LayerPoint c 1 <> 0 ->
  Con_WindowTypeBSDF c = true \/ Con_WindowTypeEQL c = true ->
  (forall Layer, 1 <= Layer <= Con_TotLayers c ->
     In (LayerGroup Material c Layer) window_groups) ->
  Con_TotLayers c <> 1 ->
  snd (CheckAndSetConstructionProperties Material Blind Construct ConstrNum r) = r.
Proof.
  intros c V1 V3 Hk Hall Hn1. rewrite CheckAndSetConstructionProperties_report. fold c.
  pose proof (inner_layer_in_range c V1) as Hn.
  assert (Hw : existsb (window_layer Material c) (upto 1 (Con_TotLayers c)) = true).
  { apply (window_layer_of_group c 1); auto; [lia|]. apply Hall. lia. }
  rewrite check_construction_report by (auto; lia).
  unfold construction_report. rewrite Hw. cbv zeta.
  assert (Hm : materials_check Material c r = r).
  { unfold materials_check. rewrite mix_loop.
    replace (existsb _ _) with false.
    - destruct Hk as [Hk|Hk]; rewrite Hk, ?andb_false_r, (proj2 (Z.eqb_neq _ _) Hn1);
        reflexivity.
    - symmetry. apply not_true_is_false. intros E.
      apply existsb_exists in E as (L & HL & Hh). apply in_upto in HL.
      cbv beta in Hh. apply andb_true_iff in Hh as [_ Hh].
      rewrite not_window_group_negb in Hh.
      rewrite (proj2 (is_window_group_In _) (Hall L HL)) in Hh. discriminate. }
  rewrite Hm. destruct Hk as [Hk|Hk]; rewrite Hk; [reflexivity|].
  destruct (Con_WindowTypeBSDF c); reflexivity.
Qed.

(** X12.  A construction whose innermost layer reference is not positive is left
    as it is, and so are the error flag and the messages. *)
Theorem unresolved_innermost_layer_is_skipped (Construct : list ConstructionData)
    (ConstrNum : Z) (r : Report) :
  let c := fget default_ConstructionData Construct ConstrNum in
  LayerPoint c (Con_TotLayers c) <= 0 ->
  CheckAndSetConstructionProperties Material Blind Construct ConstrNum r = (Construct, r).
Proof.
  intros c H. unfold CheckAndSetConstructionProperties, check_construction. fold c.
  rewrite (proj2 (Z.leb_le _ _) H). f_equal. apply fset_fget_same.
Qed.

(** X13.  The routine touches one construction only, and not its layer count,
    its layer references or its kind of window model. *)
Theorem validator_changes_one_construction (Construct : list ConstructionData)
    (ConstrNum : Z) (r : Report) :
  let Construct' :=
    fst (CheckAndSetConstructionProperties Material Blind Construct ConstrNum r) in
  List.length Construct' = List.length Construct
  /\ (forall k, k <> ConstrNum ->
        fget default_ConstructionData Construct' k
        = fget default_ConstructionData Construct k)
  /\ same_input (fget default_ConstructionData Construct ConstrNum)
                (fget default_ConstructionData Construct' ConstrNum).
Proof.
  intros C'. subst C'. unfold CheckAndSetConstructionProperties.
  pose proof (check_construction_same_input Material Blind
                (fget default_ConstructionData Construct ConstrNum) r) as Hs.
  destruct (check_construction _ _ _ _) as [c' r']. cbn [fst] in *.
  split; [apply fset_length|]. split.
  - intros k Hk. apply fget_fset_other. auto.
  - destruct (Z_lt_le_dec ConstrNum 1) as [Hlt|Hge].
    + unfold fset. rewrite (proj2 (Z.ltb_lt _ _) Hlt). apply same_input_refl.
    + destruct (Z_le_gt_dec ConstrNum (Z.of_nat (List.length Construct))) as [Hle|Hgt].
      * rewrite fget_fset_same by lia. exact Hs.
      * rewrite !fget_out_of_range by (rewrite ?fset_length; lia). apply same_input_refl.
Qed.
End ValidatorReports.

(** *** Sample constructions *)

Lemma single_layer_window_must_be_glazing_witness :
  let r' := snd (CheckAndSetConstructionProperties [mat_of_group WindowGas] []
                   [construct_of [1]] 1 no_report) in
  ErrorsFound r' = true /\ In (SevereError MsgSingleLayerNotGlass) (Shown r').
Proof.
  refine (single_layer_window_must_be_glazing [mat_of_group WindowGas] []
            [construct_of [1]] 1 no_report _ _).
  - reflexivity.
  - simpl. auto.
Defined.

Lemma window_with_other_material_is_an_error_witness :
  let r' := snd (CheckAndSetConstructionProperties
                   [mat_of_group WindowGlass; mat_of_group RegularMaterial] []
                   [construct_of [1; 2]] 1 no_report) in
  ErrorsFound r' = true /\ In (SevereError MsgWrongMaterialsMix) (Shown r').
Proof.
  refine (window_with_other_material_is_an_error
            [mat_of_group WindowGlass; mat_of_group RegularMaterial] []
            [construct_of [1; 2]] 1 no_report 1 2 _ _ _ _ _ _ _ _).
  - reflexivity.
  - discriminate.
  - simpl. lia.
  - discriminate.
  - simpl. auto.
  - simpl. lia.
  - discriminate.
  - vm_compute. intuition discriminate.
Defined.

Lemma air_at_a_boundary_is_an_error_witness :
  ErrorsFound (snd (CheckAndSetConstructionProperties [mat_of_group Air] []
                      [construct_of [1]] 1 no_report)) = true.
Proof.
  refine (air_at_a_boundary_is_an_error [mat_of_group Air] [] [construct_of [1]] 1
            no_report _ _ _).
  - reflexivity.
  - discriminate.
  - left. reflexivity.
Defined.

Lemma second_ecoroof_layer_is_an_error_witness :
  ErrorsFound (snd (CheckAndSetConstructionProperties [mat_of_group EcoRoof] []
                      [construct_of [1; 1]] 1 no_report)) = true.
Proof.
  refine (second_ecoroof_layer_is_an_error [mat_of_group EcoRoof] [] [construct_of [1; 1]] 1
            no_report 2 _ _ _ _ _).
  - reflexivity.
  - discriminate.
  - reflexivity.
  - simpl. lia.
  - reflexivity.
Defined.

Lemma infrared_transparent_is_single_layer_witness :
  ErrorsFound (snd (CheckAndSetConstructionProperties [mat_of_group IRTMaterial] []
                      [construct_of [1; 1]] 1 no_report)) = true.
Proof.
  refine (infrared_transparent_is_single_layer [mat_of_group IRTMaterial] []
            [construct_of [1; 1]] 1 no_report _ _ _ _).
  - reflexivity.
  - discriminate.
  - reflexivity.
  - discriminate.
Defined.

Lemma opaque_construction_accepted_witness :
  snd (CheckAndSetConstructionProperties [mat_of_group RegularMaterial] []
         [construct_of [1; 1]] 1 no_report) = no_report.
Proof.
  refine (opaque_construction_accepted [mat_of_group RegularMaterial] []
            [construct_of [1; 1]] 1 no_report _ _ _ _ _).
  - reflexivity.
  - discriminate.
  - intros Layer HL. right. simpl in HL.
    assert (HLayer : Layer = 1 \/ Layer = 2) by lia.
    destruct HLayer; subst Layer; vm_compute; intuition discriminate.
  - vm_compute. intuition discriminate.
  - discriminate.
Defined.

Lemma gas_at_a_boundary_is_an_error_witness :
  let r' := snd (CheckAndSetConstructionProperties
                   [mat_of_group WindowGas; mat_of_group WindowGlass] []
                   [construct_of [1; 2]] 1 no_report) in
  ErrorsFound r' = true /\ In (SevereError MsgWindowLayeringRules) (Shown r').
Proof.
  refine (gas_at_a_boundary_is_an_error
            [mat_of_group WindowGas; mat_of_group WindowGlass] []
            [construct_of [1; 2]] 1 no_report _ _ _ _ _).
  - reflexivity.
  - discriminate.
  - reflexivity.
  - reflexivity.
  - left. simpl. auto.
Defined.

Lemma adjacent_layers_of_one_group_are_an_error_witness :
  let r' := snd (CheckAndSetConstructionProperties [mat_of_group WindowGlass] []
                   [construct_of [1; 1]] 1 no_report) in
  ErrorsFound r' = true /\ In (SevereError MsgWindowLayeringRules) (Shown r').
Proof.
  refine (adjacent_layers_of_one_group_are_an_error [mat_of_group WindowGlass] []
            [construct_of [1; 1]] 1 no_report 1 _ _ _ _ _ _ _ _ _).
  - reflexivity.
  - discriminate.
  - reflexivity.
  - reflexivity.
  - simpl. lia.
  - discriminate.
  - discriminate.
  - simpl. auto.
  - reflexivity.
Defined.

Lemma window_of_more_than_8_layers_is_an_error_witness :
  ErrorsFound (snd (CheckAndSetConstructionProperties
                      [mat_of_group WindowGlass; mat_of_group WindowGas] []
                      [construct_of [1; 2; 1; 2; 1; 2; 1; 2; 1]] 1 no_report)) = true.
Proof.
  refine (window_of_more_than_8_layers_is_an_error
            [mat_of_group WindowGlass; mat_of_group WindowGas] []
            [construct_of [1; 2; 1; 2; 1; 2; 1; 2; 1]] 1 no_report 1 _ _ _ _ _ _ _ _).
  - reflexivity.
  - discriminate.
  - reflexivity.
  - reflexivity.
  - simpl. lia.
  - discriminate.
  - simpl. auto.
  - reflexivity.
Defined.

Lemma bsdf_and_eql_windows_skip_layering_rules_witness :
  snd (CheckAndSetConstructionProperties [mat_of_group WindowGlass] []
         [set_Con_WindowTypeBSDF true (construct_of [1; 1])] 1 no_report) = no_report.
Proof.
  refine (bsdf_and_eql_windows_skip_layering_rules [mat_of_group WindowGlass] []
            [set_Con_WindowTypeBSDF true (construct_of [1; 1])] 1 no_report _ _ _ _ _).
  - reflexivity.
  - discriminate.
  - left. reflexivity.
  - intros Layer HL. simpl in HL.
    assert (HLayer : Layer = 1 \/ Layer = 2) by lia.
    destruct HLayer; subst Layer; simpl; auto.
  - discriminate.
Defined.

Lemma unresolved_innermost_layer_is_skipped_witness :
  CheckAndSetConstructionProperties [mat_of_group WindowGlass] [] [construct_of [1; 0]] 1
                                    no_report
  = ([construct_of [1; 0]], no_report).
Proof.
  refine (unresolved_innermost_layer_is_skipped [mat_of_group WindowGlass] []
            [construct_of [1; 0]] 1 no_report _).
  discriminate.
Defined.

(** ** More on reverse constructions *)

Section ReverseConstructionsMore.
Variable Material : list MaterialProperties.
Variable Blind : list WindowBlindProperties.
Variable NominalR : list R.

(** X14.  The local array of lines 1064-1069 holds the first [TotLayers] layer
    references in reverse order, followed by zeros. *)
Theorem reversed_layers_is_the_reversal (c : ConstructionData) :
  array_extent_ok c -> 0 <= Con_TotLayers c <= MaxLayersInConstruct ->
  reversed_layers c
  = rev (firstn (Z.to_nat (Con_TotLayers c)) (Con_LayerPoint c))
    ++ repeat 0 (Z.to_nat (MaxLayersInConstruct - Con_TotLayers c)).
Proof.
  intros Hext HT.
  destruct (reversed_layers_spec c Hext HT) as (R1 & R2 & R3).
  unfold array_extent_ok in Hext. unfold MaxLayersInConstruct in *.
  apply nth_ext with (d := 0) (d' := 0).
  - rewrite R1, length_app, length_rev, length_firstn, repeat_length, Hext. lia.
  - intros n Hn. rewrite R1 in Hn.
    pose proof (R2 (Z.of_nat n + 1)) as A2. pose proof (R3 (Z.of_nat n + 1)) as A3.
    unfold fget in A2, A3.
    destruct (Z.of_nat n + 1 <? 1) eqn:E; [apply Z.ltb_lt in E; lia|].
    replace (Z.to_nat (Z.of_nat n + 1 - 1)) with n in A2, A3 by lia.
    destruct (Z_lt_le_dec (Z.of_nat n) (Con_TotLayers c)) as [Hlt|Hge].
    + rewrite A2 by lia.
      rewrite app_nth1 by (rewrite length_rev, length_firstn, Hext; lia).
      rewrite rev_nth by (rewrite length_firstn, Hext; lia).
      rewrite length_firstn, Hext.
      rewrite nth_firstn.
      replace (Nat.min (Z.to_nat (Con_TotLayers c)) (Z.to_nat 11))
        with (Z.to_nat (Con_TotLayers c)) by lia.
      destruct (Nat.ltb_spec (Z.to_nat (Con_TotLayers c) - S n) (Z.to_nat (Con_TotLayers c)));
        [|lia].
      unfold LayerPoint, fget.
      destruct (Con_TotLayers c + 1 - (Z.of_nat n + 1) <? 1) eqn:E2;
        [apply Z.ltb_lt in E2; lia|].
      f_equal. lia.
    + rewrite A3 by lia.
      rewrite app_nth2 by (rewrite length_rev, length_firstn, Hext; lia).
      symmetry. apply nth_repeat.
Qed.

(** X15.  A call on an allocated construction returns the lowest index of a
    construction that has the reversed layers in all its layer slots; it
    keeps the counter equal to the extent of the registry, appends at most
    one construction, and leaves the layer count, the layer references and
    the kind of window model of every construction that was there. *)
Theorem reverse_returns_first_match_and_keeps_the_rest (st : Constructions) (c : Z)
    (r : Report) :
  let LayerPoint' := reversed_layers (entry st c) in
  let n := fst (fst (AssignReverseConstructionNumber Material Blind NominalR st c r)) in
  let st' := snd (fst (AssignReverseConstructionNumber Material Blind NominalR st c r)) in
  registry_extent_ok st -> 1 <= c <= TotConstructs st -> array_extent_ok (entry st c) ->
  registry_extent_ok st'
  /\ (TotConstructs st' = TotConstructs st \/ TotConstructs st' = TotConstructs st + 1)
  /\ 1 <= n <= TotConstructs st'
  /\ (forall nLayer, 1 <= nLayer <= MaxLayersInConstruct ->
        LayerPoint (entry st' n) nLayer = fget 0 LayerPoint' nLayer)
  /\ (forall k, 1 <= k < n ->
        exists nLayer, 1 <= nLayer <= MaxLayersInConstruct
                       /\ LayerPoint (entry st' k) nLayer <> fget 0 LayerPoint' nLayer)
  /\ (forall k, 1 <= k <= TotConstructs st -> same_input (entry st k) (entry st' k))
  /\ Con_IsUsed (entry st' c) = true.
Proof.
  intros LP n st' Hext Hc Harr.
  destruct (assign_spec Material Blind NominalR st c r Hext Hc Harr)
    as (S1 & S2 & S3 & S4 & S5 & S6 & S7).
  fold LP n st' in S1, S2, S3, S4, S5, S6, S7.
  split; [exact S1|]. split; [destruct S7 as [(H & _)|(H & _)]; auto|].
  split; [exact S2|]. split; [apply layers_match_true; exact S3|].
  split; [|split; [exact S5|exact S6]].
  intros k Hk. specialize (S4 k Hk). rewrite layers_match_all in S4.
  destruct (forallb_forall (fun nLayer => LayerPoint (entry st' k) nLayer =? fget 0 LP nLayer)
              (upto 1 MaxLayersInConstruct)) as [_ Hf].
  destruct (existsb (fun nLayer => negb (LayerPoint (entry st' k) nLayer =? fget 0 LP nLayer))
              (upto 1 MaxLayersInConstruct)) eqn:E.
  - apply existsb_exists in E as (i & Hi & Hne). exists i. split; [apply in_upto; exact Hi|].
    apply Z.eqb_neq, negb_true_iff. exact Hne.
  - exfalso. rewrite Hf in S4; [discriminate|].
    intros i Hi. destruct (_ =? _) eqn:Ei; auto.
    assert (Hx : existsb (fun nLayer => negb (LayerPoint (entry st' k) nLayer
                                               =? fget 0 LP nLayer))
                   (upto 1 MaxLayersInConstruct) = true).
    { apply existsb_exists. exists i. split; auto. rewrite Ei. reflexivity. }
    congruence.
Qed.
(** X16.  A construction whose layers read the same from both sides, with zero
    in the layer slots beyond its layer count, needs no new construction:
    the call appends nothing and returns an index, no higher than the one
    given, of a construction with the same layers. *)
Theorem symmetric_construction_needs_no_new_construction (st : Constructions) (c : Z)
    (r : Report) :
  let old := entry st c in
  let n := fst (fst (AssignReverseConstructionNumber Material Blind NominalR st c r)) in
  let st' := snd (fst (AssignReverseConstructionNumber Material Blind NominalR st c r)) in
  registry_extent_ok st -> 1 <= c <= TotConstructs st -> array_extent_ok old ->
  0 <= Con_TotLayers old <= MaxLayersInConstruct ->
  (forall i, 1 <= i <= Con_TotLayers old ->
     LayerPoint old i = LayerPoint old (Con_TotLayers old + 1 - i)) ->
  (forall i, Con_TotLayers old < i <= MaxLayersInConstruct -> LayerPoint old i = 0) ->
  1 <= n <= c
  /\ TotConstructs st' = TotConstructs st
  /\ (forall nLayer, 1 <= nLayer <= MaxLayersInConstruct ->
        LayerPoint (entry st' n) nLayer = LayerPoint old nLayer).
Proof.
  intros old n st' Hext Hc Harr HT Hsym Hzero.
  destruct (assign_spec Material Blind NominalR st c r Hext Hc Harr)
    as (S1 & S2 & S3 & S4 & S5 & S6 & S7).
  fold old n st' in S1, S2, S3, S4, S5, S6, S7.
  destruct (reversed_layers_spec old Harr HT) as (_ & R2 & R3).
  assert (HLP : forall i, 1 <= i <= MaxLayersInConstruct ->
                  LayerPoint old i = fget 0 (reversed_layers old) i).
  { intros i Hi. destruct (Z_le_gt_dec i (Con_TotLayers old)).
    - rewrite R2 by lia. apply Hsym. lia.
    - rewrite R3 by lia. apply Hzero. lia. }
  assert (Hn : n <= c).
  { destruct (Z_le_gt_dec n c) as [Hle|Hgt]; [exact Hle|exfalso].
    pose proof (S4 c ltac:(lia)) as Hf.
    rewrite (layers_match_same_input _ _ _ (S5 c Hc)) in Hf.
    pose proof (proj2 (layers_match_true old (reversed_layers old)) HLP) as Ht.
    unfold old in Ht, Hf. congruence. }
  split; [lia|]. split; [destruct S7 as [(H & _)|(_ & H & _)]; [exact H|lia]|].
  intros i Hi. rewrite (proj1 (layers_match_true _ _) S3 i Hi). symmetry. apply HLP. exact Hi.
Qed.
(** The resistance that the loop of lines 1117-1122 adds up. *)
Definition layers_resistance (LayerPoint' : list Z) (R0 : R) : R :=
  fold_left (fun acc MaterNum =>
               if MaterNum =? 0 then acc else (acc + fget 0%R NominalR MaterNum)%R)
            LayerPoint' R0.

Lemma copy_layers_resistance LP c0 x0 k :
  (k <= List.length LP)%nat ->
  snd (for_each (upto 1 (Z.of_nat k)) (copy_layer_step NominalR LP) (c0, x0))
  = layers_resistance (firstn k LP) x0.
Proof.
  induction k as [|k IH]; intros Hk; [reflexivity|].
  replace (Z.of_nat (S k)) with (Z.of_nat k + 1) by lia.
  rewrite upto_snoc by lia. unfold for_each in *. rewrite fold_left_app. cbn [fold_left].
  assert (Hn : firstn (S k) LP = firstn k LP ++ [fget 0 LP (Z.of_nat k + 1)]).
  { unfold fget. destruct (Z.of_nat k + 1 <? 1) eqn:E; [apply Z.ltb_lt in E; lia|].
    replace (Z.to_nat (Z.of_nat k + 1 - 1)) with k by lia.
    clear IH E. revert k Hk. induction LP as [|x l IHl]; intros k Hk; [simpl in Hk; lia|].
    destruct k as [|k]; [reflexivity|]. cbn [firstn nth app]. f_equal.
    apply IHl. simpl in Hk. lia. }
  rewrite Hn. unfold layers_resistance. rewrite fold_left_app. cbn [fold_left].
  fold (layers_resistance (firstn k LP) x0). rewrite <- IH by lia.
  unfold copy_layer_step.
  destruct (fget 0 LP (Z.of_nat k + 1) =? 0); reflexivity.
Qed.

(** X17.  When the call appends a construction, the nominal resistance recorded
    for it is what the nominal resistances of the materials in its layer
    slots add up to, slot by slot from zero; its nominal U-value is the
    inverse of that resistance, or zero when the resistance is zero; and the
    values recorded for the constructions that were there are as before. *)
Theorem new_reverse_construction_nominal_values (st : Constructions) (c : Z) (r : Report) :
  let result := AssignReverseConstructionNumber Material Blind NominalR st c r in
  let n := fst (fst result) in
  let st' := snd (fst result) in
  let Rnew := layers_resistance (reversed_layers (entry st c)) 0%R in
  registry_extent_ok st ->
  List.length (NominalRforNominalUCalculation st) = List.length (Construct st) ->
  List.length (NominalU st) = List.length (Construct st) ->
  1 <= c <= TotConstructs st -> array_extent_ok (entry st c) ->
  0 <= Con_TotLayers (entry st c) <= MaxLayersInConstruct ->
  TotConstructs st' = TotConstructs st + 1 ->
  n = TotConstructs st + 1
  /\ fget 0%R (NominalRforNominalUCalculation st') n = Rnew
  /\ fget 0%R (NominalU st') n = (if Rneb Rnew 0 then 1 / Rnew else 0)%R
  /\ (forall k, 1 <= k <= TotConstructs st ->
        fget 0%R (NominalRforNominalUCalculation st') k
        = fget 0%R (NominalRforNominalUCalculation st) k
        /\ fget 0%R (NominalU st') k = fget 0%R (NominalU st) k).
Proof.
  intros result n st' Rnew Hext HlenR HlenU Hc Harr HT Hnew.
  subst n st' result Rnew. revert Hnew.
  unfold AssignReverseConstructionNumber.
  destruct (c =? 0) eqn:E0; [apply Z.eqb_eq in E0; lia|].
  fold (entry st c).
  destruct (find_reverse _ _ _ =? 0) eqn:Ef; [|cbn [fst snd TotConstructs]; lia].
  unfold registry_extent_ok in Hext.
  rewrite (grow_full 0%R (NominalRforNominalUCalculation st)) by lia.
  rewrite (grow_full 0%R (NominalU st)) by lia.
  replace (fget 0%R (NominalRforNominalUCalculation st ++ [0%R]) (TotConstructs st + 1))
    with 0%R
    by (rewrite Hext, <- HlenR; symmetry; apply fget_app_last).
  destruct (reversed_layers_spec (entry st c) Harr HT) as (R1 & _).
  match goal with
  | |- context [for_each (upto 1 MaxLayersInConstruct) (copy_layer_step NominalR ?LP)
                         (?c0, 0%R)] =>
      pose proof (copy_layers_resistance LP c0 0%R (Z.to_nat MaxLayersInConstruct)) as Hsum;
      rewrite Z2Nat.id in Hsum by (unfold MaxLayersInConstruct; lia);
      rewrite <- R1, firstn_all in Hsum;
      specialize (Hsum (Nat.le_refl _));
      destruct (for_each (upto 1 MaxLayersInConstruct) (copy_layer_step NominalR LP)
                         (c0, 0%R)) as [new NomR]
  end.
  cbn [snd] in Hsum. subst NomR.
  destruct (CheckAndSetConstructionProperties _ _ _ _ _) as [C4 r4].
  cbn [fst snd TotConstructs NominalRforNominalUCalculation NominalU]. intros _.
  set (Rnew := layers_resistance (reversed_layers (entry st c)) 0%R).
  assert (HR : forall (a : list R) v, List.length a = List.length (Construct st) ->
                 fget 0%R (fset (a ++ [0%R]) (TotConstructs st + 1) v) (TotConstructs st + 1)
                 = v).
  { intros a v Ha. apply fget_fset_same. rewrite length_app. simpl. lia. }
  assert (HU : forall a : list R, List.length a = List.length (Construct st) ->
                 fget 0%R (a ++ [0%R]) (TotConstructs st + 1) = 0%R).
  { intros a Ha. rewrite Hext, <- Ha. apply fget_app_last. }
  assert (Hk : forall (a : list R) v k, List.length a = List.length (Construct st) ->
                 1 <= k <= TotConstructs st ->
                 fget 0%R (fset (a ++ [0%R]) (TotConstructs st + 1) v) k = fget 0%R a k).
  { intros a v k Ha Hk. rewrite fget_fset_other by lia. apply fget_app_l. lia. }
  split; [reflexivity|]. split; [apply HR; exact HlenR|]. split.
  - destruct (Rneb Rnew 0); [apply HR; exact HlenU|apply HU; exact HlenU].
  - intros k Hk1. split; [apply Hk; assumption|].
    destruct (Rneb Rnew 0); [apply Hk; assumption|apply fget_app_l; lia].
Qed.
End ReverseConstructionsMore.

(** ** More on variable-slat blinds *)

Lemma find_from_appended s names pos :
  1 <= pos ->
  find_from s names (List.length names) pos = 0 ->
  find_from s (names ++ [s]) (S (List.length names)) pos
  = pos + Z.of_nat (List.length names).
Proof.
  revert pos. induction names as [|x rest IH]; intros pos Hp H.
  - simpl. rewrite String.eqb_refl. lia.
  - cbn [app List.length find_from] in *. destruct (String.eqb s x); [lia|].
    rewrite IH by (auto; lia). lia.
Qed.

Section VariableSlatBlindMore.
Local Open Scope R_scope.

Lemma nset_app_last {A} (a : list A) (d v : A) :
  nset (a ++ [d]) (List.length a) v = a ++ [v].
Proof. induction a as [|x a IH]; simpl; [reflexivity|now rewrite IH]. Qed.

Lemma fset_app_last {A} (a : list A) (d v : A) :
  fset (a ++ [d]) (Z.of_nat (List.length a) + 1) v = a ++ [v].
Proof.
  unfold fset.
  destruct (Z.of_nat (List.length a) + 1 <? 1)%Z eqn:E; [apply Z.ltb_lt in E; lia|].
  replace (Z.to_nat (Z.of_nat (List.length a) + 1 - 1)) with (List.length a) by lia.
  apply nset_app_last.
Qed.

(** The result of a call that finds no clone. *)
Lemma add_blind_appends (st : Blinds) (inBlindNumber : Z) (shown : list Diagnostic) :
  let source := fget default_WindowBlindProperties (Blind st) inBlindNumber in
  let checked := check_slat_angles
                   (set_Bl_SlatAngleType VariableSlats
                      (set_Bl_Name ("~" ++ Bl_Name source)%string source))
                   (mkReport false shown) in
  TotBlinds st = Z.of_nat (List.length (Blind st)) ->
  (1 <= inBlindNumber <= TotBlinds st)%Z ->
  FindItemInList ("~" ++ trim (Bl_Name source))%string (map Bl_Name (Blind st))
                 (TotBlinds st) = 0%Z ->
  AddVariableSlatBlind st inBlindNumber shown
  = (mkBlinds (Blind st ++ [fst checked]) (TotBlinds st + 1), (TotBlinds st + 1)%Z,
     snd checked).
Proof.
  intros source checked HT Hin Hfind. subst checked.
  unfold AddVariableSlatBlind. fold source. rewrite Hfind. cbn [Z.eqb].
  rewrite grow_full by exact HT.
  replace (fget default_WindowBlindProperties
             (Blind st ++ [default_WindowBlindProperties]) inBlindNumber)
    with source by (unfold source; rewrite fget_app_l by lia; reflexivity).
  destruct (check_slat_angles _ _) as [b' r']. cbn [fst snd].
  rewrite HT at 1. rewrite fset_app_last. reflexivity.
Qed.

(** X18.  When the routine appends a clone, the clone is the last blind, the
    blinds that were there are as they were, the clone has the geometry and
    the slat angle of the source under the name of the source with a tilde in
    front, and its minimum and maximum slat angles lie within the geometric
    bounds. *)
Theorem clone_is_appended_within_geometric_bounds (st : Blinds) (inBlindNumber : Z)
    (shown : list Diagnostic) :
  let source := fget default_WindowBlindProperties (Blind st) inBlindNumber in
  let result := AddVariableSlatBlind st inBlindNumber shown in
  let st' := fst (fst result) in
  let clone := fget default_WindowBlindProperties (Blind st') (TotBlinds st') in
  TotBlinds st = Z.of_nat (List.length (Blind st)) ->
  (1 <= inBlindNumber <= TotBlinds st)%Z ->
  FindItemInList ("~" ++ trim (Bl_Name source))%string (map Bl_Name (Blind st))
                 (TotBlinds st) = 0%Z ->
  TotBlinds st' = (TotBlinds st + 1)%Z
  /\ TotBlinds st' = Z.of_nat (List.length (Blind st'))
  /\ (forall k, (1 <= k <= TotBlinds st)%Z ->
        fget default_WindowBlindProperties (Blind st') k
        = fget default_WindowBlindProperties (Blind st) k)
  /\ Bl_Name clone = ("~" ++ Bl_Name source)%string
  /\ Bl_SlatWidth clone = Bl_SlatWidth source
  /\ Bl_SlatSeparation clone = Bl_SlatSeparation source
  /\ Bl_SlatThickness clone = Bl_SlatThickness source
  /\ Bl_SlatAngle clone = Bl_SlatAngle source
  /\ MinSlatAngGeom source <= Bl_MinSlatAngle clone
  /\ Bl_MaxSlatAngle clone <= MaxSlatAngGeom source.
Proof.
  intros source result st' clone HT Hin Hfind. subst clone st' result.
  rewrite (add_blind_appends st inBlindNumber shown HT Hin Hfind). fold source.
  cbn [fst snd Blind TotBlinds].
  set (new := set_Bl_SlatAngleType VariableSlats
                (set_Bl_Name ("~" ++ Bl_Name source)%string source)).
  assert (Hclone : forall b, fget default_WindowBlindProperties (Blind st ++ [b])
                               (TotBlinds st + 1) = b)
    by (intros b; rewrite HT; apply fget_app_last).
  rewrite !Hclone.
  destruct (check_slat_angles_spec new (mkReport false shown))
    as (S1 & S2 & _ & _ & S5 & S6 & S7 & S8 & S9 & _).
  change (MinSlatAngGeom new) with (MinSlatAngGeom source) in S1.
  change (MaxSlatAngGeom new) with (MaxSlatAngGeom source) in S2.
  cbn [new Bl_MinSlatAngle Bl_MaxSlatAngle Bl_SlatAngle Bl_SlatWidth Bl_SlatSeparation
       Bl_SlatThickness Bl_Name set_Bl_SlatAngleType set_Bl_Name]
    in S1, S2, S5, S6, S7, S8, S9.
  split; [reflexivity|]. split; [rewrite length_app; simpl; lia|].
  split; [intros k Hk; apply fget_app_l; lia|].
  split; [exact S9|]. split; [exact S5|]. split; [exact S6|]. split; [exact S7|].
  split; [exact S8|]. split.
  - rewrite S1. destruct (Rltb (Bl_MinSlatAngle source) (MinSlatAngGeom source)) eqn:E;
      [lra|]. apply Rltb_false in E. exact E.
  - rewrite S2. unfold Rgtb.
    destruct (Rltb (MaxSlatAngGeom source) (Bl_MaxSlatAngle source)) eqn:E; [lra|].
    apply Rltb_false in E. exact E.
Qed.

(** X19.  Asking twice for the variable-slat clone of a blind whose name has no
    trailing blanks: the second call returns the index the first one
    returned and leaves the blinds as the first call left them, with the
    error flag down whatever the first call reported. *)
Theorem clone_is_made_once (st : Blinds) (inBlindNumber : Z) (shown : list Diagnostic) :
  let source := fget default_WindowBlindProperties (Blind st) inBlindNumber in
  let first := AddVariableSlatBlind st inBlindNumber shown in
  let second := AddVariableSlatBlind (fst (fst first)) inBlindNumber (Shown (snd first)) in
  TotBlinds st = Z.of_nat (List.length (Blind st)) ->
  (1 <= inBlindNumber <= TotBlinds st)%Z ->
  trim (Bl_Name source) = Bl_Name source ->
  snd (fst second) = snd (fst first)
  /\ fst (fst second) = fst (fst first)
  /\ ErrorsFound (snd second) = false
  /\ Shown (snd second) = Shown (snd first).
Proof.
  intros source first second HT Hin Htrim.
  assert (Hfound : forall st0 shown0 k,
            FindItemInList ("~" ++ trim (Bl_Name
                              (fget default_WindowBlindProperties (Blind st0) inBlindNumber)))
                           (map Bl_Name (Blind st0)) (TotBlinds st0) = k -> k <> 0%Z ->
            AddVariableSlatBlind st0 inBlindNumber shown0
            = (st0, k, mkReport false shown0)).
  { intros st0 shown0 k Hk Hne. unfold AddVariableSlatBlind. rewrite Hk.
    destruct (k =? 0)%Z eqn:E; [apply Z.eqb_eq in E; contradiction|]. reflexivity. }
  destruct (Z.eq_dec (FindItemInList ("~" ++ trim (Bl_Name source))%string
                        (map Bl_Name (Blind st)) (TotBlinds st)) 0) as [Hz|Hnz].
  - (* the first call appends the clone *)
    pose proof (add_blind_appends st inBlindNumber shown HT Hin Hz) as Hfirst.
    cbv zeta in Hfirst. fold source first in Hfirst.
    set (checked := check_slat_angles _ _) in Hfirst.
    set (clone := fst checked) in Hfirst.
    assert (Hname : Bl_Name clone = ("~" ++ Bl_Name source)%string).
    { destruct (check_slat_angles_spec
                  (set_Bl_SlatAngleType VariableSlats
                     (set_Bl_Name ("~" ++ Bl_Name source)%string source))
                  (mkReport false shown)) as (_ & _ & _ & _ & _ & _ & _ & _ & S9 & _).
      exact S9. }
    assert (Hst : fst (fst first) = mkBlinds (Blind st ++ [clone]) (TotBlinds st + 1))
      by (rewrite Hfirst; reflexivity).
    assert (Hout : snd (fst first) = (TotBlinds st + 1)%Z)
      by (rewrite Hfirst; reflexivity).
    assert (Hsrc : fget default_WindowBlindProperties (Blind (fst (fst first))) inBlindNumber
                   = source).
    { rewrite Hst. cbn [Blind]. apply fget_app_l. lia. }
    assert (Hk : FindItemInList
                   ("~" ++ trim (Bl_Name (fget default_WindowBlindProperties
                                            (Blind (fst (fst first))) inBlindNumber)))%string
                   (map Bl_Name (Blind (fst (fst first)))) (TotBlinds (fst (fst first)))
                 = (TotBlinds st + 1)%Z).
    { rewrite Hsrc, Hst, Htrim. cbn [Blind TotBlinds].
      rewrite map_app. cbn [map]. rewrite Hname. unfold FindItemInList.
      replace (Z.to_nat (TotBlinds st + 1)) with (S (List.length (map Bl_Name (Blind st))))
        by (rewrite length_map; lia).
      rewrite find_from_appended; [rewrite length_map; lia|lia|].
      unfold FindItemInList in Hz. rewrite Htrim, HT, Nat2Z.id in Hz.
      rewrite length_map. exact Hz. }
    subst second. rewrite (Hfound _ _ _ Hk) by lia. cbn [fst snd ErrorsFound Shown].
    rewrite Hout. auto.
  - (* the clone was there before the first call *)
    assert (H1 : first = (st, FindItemInList ("~" ++ trim (Bl_Name source))%string
                                (map Bl_Name (Blind st)) (TotBlinds st),
                          mkReport false shown))
      by (apply Hfound; auto).
    subst second. rewrite H1. cbn [fst snd Shown].
    rewrite (Hfound st shown _ eq_refl Hnz). cbn [fst snd ErrorsFound Shown]. auto.
Qed.
(** X20.  When the routine appends a clone, it raises the error flag exactly when
    the maximum slat angle of the source is below its minimum, or above it
    with the slat angle outside the two; a minimum or maximum beyond the
    geometric bounds leaves the flag down. *)
Theorem clone_error_flag_is_about_the_slat_angles (st : Blinds) (inBlindNumber : Z)
    (shown : list Diagnostic) :
  let source := fget default_WindowBlindProperties (Blind st) inBlindNumber in
  let errFlag := ErrorsFound (snd (AddVariableSlatBlind st inBlindNumber shown)) in
  TotBlinds st = Z.of_nat (List.length (Blind st)) ->
  (1 <= inBlindNumber <= TotBlinds st)%Z ->
  FindItemInList ("~" ++ trim (Bl_Name source))%string (map Bl_Name (Blind st))
                 (TotBlinds st) = 0%Z ->
  errFlag = true <->
  Bl_MaxSlatAngle source < Bl_MinSlatAngle source
  \/ (Bl_MinSlatAngle source < Bl_MaxSlatAngle source
      /\ (Bl_SlatAngle source < Bl_MinSlatAngle source
          \/ Bl_MaxSlatAngle source < Bl_SlatAngle source)).
Proof.
  intros source errFlag HT Hin Hfind. subst errFlag.
  rewrite (add_blind_appends st inBlindNumber shown HT Hin Hfind). fold source.
  cbn [snd].
  destruct (check_slat_angles_spec
              (set_Bl_SlatAngleType VariableSlats
                 (set_Bl_Name ("~" ++ Bl_Name source)%string source))
              (mkReport false shown)) as (_ & _ & S3 & _).
  rewrite S3.
  cbn [ErrorsFound Bl_MinSlatAngle Bl_MaxSlatAngle Bl_SlatAngle set_Bl_SlatAngleType
       set_Bl_Name orb].
  unfold Rgtb.
  rewrite orb_true_iff, andb_true_iff, orb_true_iff, !Rltb_true. reflexivity.
Qed.
End VariableSlatBlindMore.

(** *** Sample registries *)

Definition wall_and_its_reverse : Constructions :=
  mkConstructions [construct_of [1; 2]; construct_of [2; 1]] 2 [0%R; 0%R] [0%R; 0%R].

Definition symmetric_wall : Constructions :=
  mkConstructions [construct_of [1; 2; 1]] 1 [0%R] [0%R].

Lemma reversed_layers_is_the_reversal_witness :
  reversed_layers (construct_of [1; 2]) = [2; 1; 0; 0; 0; 0; 0; 0; 0; 0; 0].
Proof.
  refine (reversed_layers_is_the_reversal (construct_of [1; 2]) _ _).
  - reflexivity.
  - simpl. unfold MaxLayersInConstruct. lia.
Defined.

Lemma reverse_returns_first_match_and_keeps_the_rest_witness :
  let result := AssignReverseConstructionNumber [mat_of_group RegularMaterial] [] []
                  wall_and_its_reverse 1 no_report in
  Con_IsUsed (entry (snd (fst result)) 1) = true.
Proof.
  refine (proj2 (proj2 (proj2 (proj2 (proj2 (proj2
            (reverse_returns_first_match_and_keeps_the_rest
               [mat_of_group RegularMaterial] [] [] wall_and_its_reverse 1 no_report
               _ _ _))))))).
  - reflexivity.
  - simpl. lia.
  - reflexivity.
Defined.

Lemma symmetric_construction_needs_no_new_construction_witness :
  let result := AssignReverseConstructionNumber [mat_of_group RegularMaterial] [] []
                  symmetric_wall 1 no_report in
  TotConstructs (snd (fst result)) = TotConstructs symmetric_wall.
Proof.
  refine (proj1 (proj2 (symmetric_construction_needs_no_new_construction
                          [mat_of_group RegularMaterial] [] [] symmetric_wall 1 no_report
                          _ _ _ _ _ _))).
  - reflexivity.
  - simpl. lia.
  - reflexivity.
  - simpl. unfold MaxLayersInConstruct. lia.
  - intros i Hi. simpl in Hi.
    assert (Hc : i = 1 \/ i = 2 \/ i = 3) by lia.
    destruct Hc as [-> | [-> | ->]]; reflexivity.
  - intros i Hi. simpl in Hi. unfold MaxLayersInConstruct in Hi.
    assert (Hc : i = 4 \/ i = 5 \/ i = 6 \/ i = 7 \/ i = 8 \/ i = 9 \/ i = 10 \/ i = 11)
      by lia.
    destruct Hc as [->|[->|[->|[->|[->|[-> | [-> | ->]]]]]]]; reflexivity.
Defined.

Definition one_wall : Constructions :=
  mkConstructions [construct_of [1; 2]] 1 [0%R] [0%R].

Lemma new_reverse_construction_nominal_values_witness :
  fst (fst (AssignReverseConstructionNumber
              [mat_of_group RegularMaterial; mat_of_group RegularMaterial] [] [1%R; 2%R]
              one_wall 1 no_report)) = 2.
Proof.
  refine (proj1 (new_reverse_construction_nominal_values
                   [mat_of_group RegularMaterial; mat_of_group RegularMaterial] []
                   [1%R; 2%R] one_wall 1 no_report _ _ _ _ _ _ _)).
  - reflexivity.
  - reflexivity.
  - reflexivity.
  - simpl. lia.
  - reflexivity.
  - simpl. unfold MaxLayersInConstruct. lia.
  - reflexivity.
Defined.

(** *** A sample blind *)

Definition venetian_blind : WindowBlindProperties :=
  {| Bl_Name := "VENETIAN"; Bl_SlatAngleType := FixedSlats; Bl_SlatWidth := 0.025;
     Bl_SlatSeparation := 0.020; Bl_SlatThickness := 0.001; Bl_SlatAngle := 45;
     Bl_MinSlatAngle := 0; Bl_MaxSlatAngle := 180 |}.

Lemma clone_is_appended_within_geometric_bounds_witness :
  TotBlinds (fst (fst (AddVariableSlatBlind (mkBlinds [venetian_blind] 1) 1 []))) = 2.
Proof.
  refine (proj1 (clone_is_appended_within_geometric_bounds
                   (mkBlinds [venetian_blind] 1) 1 [] _ _ _)).
  - reflexivity.
  - simpl. lia.
  - reflexivity.
Defined.

Lemma clone_is_made_once_witness :
  let first := AddVariableSlatBlind (mkBlinds [venetian_blind] 1) 1 [] in
  let second := AddVariableSlatBlind (fst (fst first)) 1 (Shown (snd first)) in
  snd (fst second) = snd (fst first).
Proof.
  refine (proj1 (clone_is_made_once (mkBlinds [venetian_blind] 1) 1 [] _ _ _)).
  - reflexivity.
  - simpl. lia.
  - reflexivity.
Defined.

Lemma clone_error_flag_is_about_the_slat_angles_witness :
  ErrorsFound (snd (AddVariableSlatBlind (mkBlinds [venetian_blind] 1) 1 [])) = false.
Proof.
  pose proof (clone_error_flag_is_about_the_slat_angles (mkBlinds [venetian_blind] 1) 1 []
                eq_refl ltac:(simpl; lia) eq_refl) as H.
  cbv zeta in H.
  destruct (ErrorsFound (snd (AddVariableSlatBlind (mkBlinds [venetian_blind] 1) 1 [])));
    [|reflexivity].
  exfalso. destruct (proj1 H eq_refl) as [H1|[_ [H1|H1]]]; simpl in H1; lra.
Defined.

(** ** More on the screen model *)

Section ScreenModelMore.
Local Open Scope R_scope.
Variable env : ScreenEnvironment.

Lemma Pi_pos : 0 < Pi /\ PiOvr2 = Pi / 2.
Proof. unfold Pi, PiOvr2. split; [exact PI_RGT_0|reflexivity]. Qed.

(** X21.  The angle between the sun and the screen normal in azimuth is never
    negative, and the one in altitude is negative only for an explicit
    [Phi] beyond half a turn. *)
Theorem sun_to_screen_angles_sign (SurfaceNum : Z) (Phi Theta : option R)
    (ScreenNumber : option Z) (tilt : R) :
  let a := screen_angles env SurfaceNum Phi Theta ScreenNumber tilt in
  0 <= SunAzimuthToScreenNormal a
  /\ (0 <= SunAltitudeToScreenNormal a \/ exists p, Phi = Some p /\ Pi < Rabs p).
Proof.
  destruct Pi_pos as [Hpi Hhalf].
  unfold screen_angles, Rgtb.
  destruct Theta as [t|]; destruct Phi as [p|]; cbv zeta; cbn [SunAzimuthToScreenNormal
    SunAltitudeToScreenNormal]; split.
  - pose proof (Rabs_pos t).
    destruct (Rltb Pi (Rabs t)) eqn:E1; [lra|]. apply Rltb_false in E1.
    destruct (Rltb PiOvr2 (Rabs t)) eqn:E2; lra.
  - pose proof (Rabs_pos p).
    destruct (Rltb PiOvr2 (Rabs p)) eqn:E2; [|left; lra].
    destruct (Rlt_le_dec Pi (Rabs p)); [right; exists p; auto|left; lra].
  - pose proof (Rabs_pos t).
    destruct (Rltb Pi (Rabs t)) eqn:E1; [lra|]. apply Rltb_false in E1.
    destruct (Rltb PiOvr2 (Rabs t)) eqn:E2; lra.
  - left. match goal with |- 0 <= (if Rltb PiOvr2 (Rabs ?x) then _ else _) =>
      pose proof (Rabs_pos x); destruct (Rltb PiOvr2 (Rabs x)) eqn:E2;
      [apply Rltb_true in E2; lra|lra] end.
  - match goal with |- 0 <= (if Rltb PiOvr2 (Rabs ?x) then _ else _) =>
      pose proof (Rabs_pos x); destruct (Rltb PiOvr2 (Rabs x)) eqn:E2;
      [apply Rltb_true in E2; lra|lra] end.
  - pose proof (Rabs_pos p).
    destruct (Rltb PiOvr2 (Rabs p)) eqn:E2; [|left; lra].
    destruct (Rlt_le_dec Pi (Rabs p)); [right; exists p; auto|left; lra].
  - match goal with |- 0 <= (if Rltb PiOvr2 (Rabs ?x) then _ else _) =>
      pose proof (Rabs_pos x); destruct (Rltb PiOvr2 (Rabs x)) eqn:E2;
      [apply Rltb_true in E2; lra|lra] end.
  - left. match goal with |- 0 <= (if Rltb PiOvr2 (Rabs ?x) then _ else _) =>
      pose proof (Rabs_pos x); destruct (Rltb PiOvr2 (Rabs x)) eqn:E2;
      [apply Rltb_true in E2; lra|lra] end.
Qed.

Lemma explicit_angles (SurfaceNum : Z) (t p : R) (ScreenNumber : option Z) (tilt : R) :
  let a := screen_angles env SurfaceNum (Some p) (Some t) ScreenNumber tilt in
  Rabs p <= Pi ->
  0 <= SunAzimuthToScreenNormal a <= PiOvr2
  /\ 0 <= SunAltitudeToScreenNormal a <= PiOvr2
  /\ NormalAzimuth a = SunAzimuthToScreenNormal a.
Proof.
  destruct Pi_pos as [Hpi Hhalf].
  unfold screen_angles, Rgtb. cbv zeta.
  cbn [SunAzimuthToScreenNormal SunAltitudeToScreenNormal NormalAzimuth].
  intros Hp. pose proof (Rabs_pos t). pose proof (Rabs_pos p).
  split; [|split; [|reflexivity]].
  - destruct (Rltb Pi (Rabs t)) eqn:E1; [lra|]. apply Rltb_false in E1.
    destruct (Rltb PiOvr2 (Rabs t)) eqn:E2;
      [apply Rltb_true in E2|apply Rltb_false in E2]; lra.
  - destruct (Rltb PiOvr2 (Rabs p)) eqn:E2;
      [apply Rltb_true in E2|apply Rltb_false in E2]; lra.
Qed.

(** X22.  With both angles given, and [Phi] within half a turn, the routine
    works with an azimuth and an altitude between 0 and a quarter turn. *)
Theorem explicit_angles_fold_into_a_quarter_turn (SurfaceNum : Z) (Phi Theta : option R)
    (ScreenNumber : option Z) (tilt : R) (t p : R) :
  let a := screen_angles env SurfaceNum Phi Theta ScreenNumber tilt in
  Theta = Some t -> Phi = Some p -> Rabs p <= Pi ->
  0 <= SunAzimuthToScreenNormal a <= PiOvr2
  /\ 0 <= SunAltitudeToScreenNormal a <= PiOvr2
  /\ NormalAzimuth a = SunAzimuthToScreenNormal a.
Proof. intros a Ht Hp. subst a Theta Phi. apply explicit_angles. Qed.

Lemma Tdirect_grazing Gamma az alt :
  az = PiOvr2 \/ alt = PiOvr2 -> Tdirect Gamma az alt = 0.
Proof.
  pose proof Small_pos as [Hs _].
  intros H. unfold Tdirect.
  assert (HY : TransYDir Gamma az alt = 0).
  { unfold TransYDir, Rgtb. cbv zeta. destruct H as [H|H]; subst.
    - replace (PiOvr2 - PiOvr2) with 0 by ring.
      rewrite (proj2 (Rltb_false Small 0)) by lra. reflexivity.
    - replace (PiOvr2 - PiOvr2) with 0 by ring. rewrite Rabs_R0.
      rewrite (proj2 (Rltb_false Small 0)) by lra.
      destruct (Rltb Small (PiOvr2 - az)); reflexivity. }
  rewrite HY, Rmult_0_r. apply Rmax_left. lra.
Qed.

Lemma Tscattered_grazing Gamma Reflect az alt :
  az = PiOvr2 \/ alt = PiOvr2 -> Tscattered Gamma Reflect az alt = 0.
Proof.
  pose proof Small_pos as [Hs _].
  intros H. unfold Tscattered.
  assert (Hg : grazing az alt = true).
  { unfold grazing. apply orb_true_iff. destruct H as [H|H]; subst; [left|right];
      replace (PiOvr2 - PiOvr2) with 0 by ring; rewrite Rabs_R0; apply Rltb_true; lra. }
  rewrite Hg. apply Rmax_left. lra.
Qed.

Lemma store_results_dark s inc :
  let s' := store_results s 0 0 0 inc in
  Sc_BmBmTrans s' = 0 /\ Sc_BmBmTransVis s' = 0 /\ Sc_BmBmTransBack s' = 0
  /\ Sc_BmDifTrans s' = 0 /\ Sc_BmDifTransVis s' = 0 /\ Sc_BmDifTransBack s' = 0.
Proof.
  unfold store_results.
  destruct (Sc_ScreenBeamReflectanceAccounting s); destruct (Rleb (Rabs inc) PiOvr2);
    cbn; repeat split; try reflexivity; ring.
Qed.

(** X23.  When the sun is a quarter turn from the screen normal, in azimuth or in
    altitude, the call stores zero for all six transmittances of the
    screen. *)
Theorem nothing_passes_at_grazing_incidence (S S' : list SurfaceScreenProperties)
    (SurfaceNum : Z) (Phi Theta : option R) (ScreenNumber : option Z) (tilt : R)
    (ScNum : Z) :
  let a := screen_angles env SurfaceNum Phi Theta ScreenNumber tilt in
  let s' := fget default_SurfaceScreenProperties S' ScNum in
  CalcScreenTransmittance env S SurfaceNum Phi Theta ScreenNumber tilt = Completed S' ->
  screen_index env SurfaceNum Phi Theta ScreenNumber = Completed ScNum ->
  (1 <= ScNum <= Z.of_nat (List.length S))%Z ->
  SunAzimuthToScreenNormal a = PiOvr2 \/ SunAltitudeToScreenNormal a = PiOvr2 ->
  Sc_BmBmTrans s' = 0 /\ Sc_BmBmTransVis s' = 0 /\ Sc_BmBmTransBack s' = 0
  /\ Sc_BmDifTrans s' = 0 /\ Sc_BmDifTransVis s' = 0 /\ Sc_BmDifTransBack s' = 0.
Proof.
  intros a s' H Hi Hr Hg. subst s'.
  rewrite (CalcScreenTransmittance_stored env _ _ _ _ _ _ _ _ H Hi Hr).
  unfold screen_after. fold a.
  rewrite (Tdirect_grazing _ _ _ Hg), !(Tscattered_grazing _ _ _ _ Hg).
  apply store_results_dark.
Qed.

Lemma store_results_diffuse s Td Ts Tv inc :
  Sc_ScreenBeamReflectanceAccounting s <> ModelAsDiffuse ->
  let s' := store_results s Td Ts Tv inc in
  Sc_BmDifTrans s' = 0 /\ Sc_BmDifTransVis s' = 0 /\ Sc_BmDifTransBack s' = 0.
Proof.
  intros Hm. unfold store_results.
  destruct (Sc_ScreenBeamReflectanceAccounting s); [| |contradiction];
    destruct (Rleb (Rabs inc) PiOvr2); cbn; auto.
Qed.

(** X24.  Unless the screen models the beam reflected by the screen material as
    diffuse, the call stores zero for the three beam-to-diffuse
    transmittances. *)
Theorem diffuse_transmittance_only_when_modelled_as_diffuse
    (S S' : list SurfaceScreenProperties) (SurfaceNum : Z) (Phi Theta : option R)
    (ScreenNumber : option Z) (tilt : R) (ScNum : Z) :
  let s := fget default_SurfaceScreenProperties S ScNum in
  let s' := fget default_SurfaceScreenProperties S' ScNum in
  CalcScreenTransmittance env S SurfaceNum Phi Theta ScreenNumber tilt = Completed S' ->
  screen_index env SurfaceNum Phi Theta ScreenNumber = Completed ScNum ->
  (1 <= ScNum <= Z.of_nat (List.length S))%Z ->
  Sc_ScreenBeamReflectanceAccounting s <> ModelAsDiffuse ->
  Sc_BmDifTrans s' = 0 /\ Sc_BmDifTransVis s' = 0 /\ Sc_BmDifTransBack s' = 0.
Proof.
  intros s s' H Hi Hr Hm. subst s'.
  rewrite (CalcScreenTransmittance_stored env _ _ _ _ _ _ _ _ H Hi Hr).
  unfold screen_after. apply store_results_diffuse. exact Hm.
Qed.

Lemma store_results_keeps s Td Ts Tv inc :
  let s' := store_results s Td Ts Tv inc in
  Sc_ScreenDiameterToSpacingRatio s' = Sc_ScreenDiameterToSpacingRatio s
  /\ Sc_ReflectCylinder s' = Sc_ReflectCylinder s
  /\ Sc_ReflectCylinderVis s' = Sc_ReflectCylinderVis s
  /\ Sc_ScreenBeamReflectanceAccounting s' = Sc_ScreenBeamReflectanceAccounting s.
Proof.
  unfold store_results.
  destruct (Sc_ScreenBeamReflectanceAccounting s) eqn:Em;
    destruct (Rleb (Rabs inc) PiOvr2); cbn; rewrite ?Em; auto.
Qed.

(** X25.  A call that completes writes one element of [SurfaceScreens]: the
    extent and the other elements are as before, and in the element written
    the diameter-to-spacing ratio, the two cylinder reflectances and the
    way of accounting for the reflected beam are as before. *)
Theorem screen_call_writes_results_of_one_screen (S S' : list SurfaceScreenProperties)
    (SurfaceNum : Z) (Phi Theta : option R) (ScreenNumber : option Z) (tilt : R)
    (ScNum : Z) :
  let s := fget default_SurfaceScreenProperties S ScNum in
  let s' := fget default_SurfaceScreenProperties S' ScNum in
  CalcScreenTransmittance env S SurfaceNum Phi Theta ScreenNumber tilt = Completed S' ->
  screen_index env SurfaceNum Phi Theta ScreenNumber = Completed ScNum ->
  List.length S' = List.length S
  /\ (forall k, k <> ScNum ->
        fget default_SurfaceScreenProperties S' k = fget default_SurfaceScreenProperties S k)
  /\ Sc_ScreenDiameterToSpacingRatio s' = Sc_ScreenDiameterToSpacingRatio s
  /\ Sc_ReflectCylinder s' = Sc_ReflectCylinder s
  /\ Sc_ReflectCylinderVis s' = Sc_ReflectCylinderVis s
  /\ Sc_ScreenBeamReflectanceAccounting s' = Sc_ScreenBeamReflectanceAccounting s.
Proof.
  intros s s' H Hi. subst s'.
  assert (HS : S' = fset S ScNum (screen_after env s SurfaceNum Phi Theta ScreenNumber tilt)).
  { unfold CalcScreenTransmittance in H. rewrite Hi in H. inversion H. reflexivity. }
  split; [rewrite HS; apply fset_length|].
  split; [intros k Hk; rewrite HS; apply fget_fset_other; auto|].
  destruct (Z_le_dec 1 ScNum) as [H1|H1].
  - destruct (Z_le_dec ScNum (Z.of_nat (List.length S))) as [H2|H2].
    + rewrite HS, fget_fset_same by lia. unfold screen_after. apply store_results_keeps.
    + assert (Hd : fget default_SurfaceScreenProperties S' ScNum
                   = default_SurfaceScreenProperties).
      { apply fget_out_of_range. rewrite HS, fset_length. lia. }
      assert (Hs : s = default_SurfaceScreenProperties)
        by (apply fget_out_of_range; lia).
      rewrite Hd, Hs. auto.
  - assert (Hd : forall T, fget default_SurfaceScreenProperties T ScNum
                           = default_SurfaceScreenProperties).
    { intros T. unfold fget. destruct (ScNum <? 1)%Z eqn:E; auto.
      apply Z.ltb_ge in E. lia. }
    unfold s. rewrite !Hd. auto.
Qed.

(** *** The direct beam *)

Lemma atan_sign T : (0 <= T -> 0 <= atan T) /\ (T <= 0 -> atan T <= 0).
Proof.
  split; intros H.
  - destruct (Req_dec T 0) as [->|Hn]; [rewrite atan_0; lra|].
    pose proof (atan_increasing 0 T ltac:(lra)) as Hi. rewrite atan_0 in Hi. lra.
  - destruct (Req_dec T 0) as [->|Hn]; [rewrite atan_0; lra|].
    pose proof (atan_increasing T 0 ltac:(lra)) as Hi. rewrite atan_0 in Hi. lra.
Qed.

Lemma cos_atan_pos T : 0 < cos (atan T).
Proof. pose proof (atan_bound T). apply cos_gt_0; lra. Qed.

(** The term that the shading model multiplies by [Gamma]. *)
Lemma shading_term_nonneg T c q :
  0 < c -> 0 <= q -> 0 <= cos (atan (T / c)) + sin (atan (T / c)) * T * q.
Proof.
  intros Hc Hq. pose proof (cos_atan_pos (T / c)) as Hcos.
  pose proof (atan_bound (T / c)) as Hb.
  assert (Hs : 0 <= sin (atan (T / c)) * T).
  { destruct (Rle_dec 0 T) as [HT|HT].
    - assert (0 <= T / c) by (apply Rmult_le_pos; [lra|left; apply Rinv_0_lt_compat; lra]).
      pose proof (proj1 (atan_sign (T / c)) H).
      pose proof (sin_ge_0 (atan (T / c)) ltac:(lra) ltac:(lra)).
      apply Rmult_le_pos; lra.
    - assert (T / c <= 0).
      { unfold Rdiv. pose proof (Rinv_0_lt_compat c Hc).
        replace 0 with (0 * / c) by ring. apply Rmult_le_compat_r; lra. }
      pose proof (proj2 (atan_sign (T / c)) H).
      assert (sin (atan (T / c)) <= 0).
      { pose proof (sin_ge_0 (- atan (T / c)) ltac:(lra) ltac:(lra)) as Hn.
        rewrite sin_neg in Hn. lra. }
      replace (sin (atan (T / c)) * T) with ((- sin (atan (T / c))) * (- T)) by ring.
      apply Rmult_le_pos; lra. }
  pose proof (Rmult_le_pos _ _ Hs Hq). lra.
Qed.

Lemma Rmax_shaded G K : 0 <= G -> 0 <= K -> 0 <= Rmax 0 (1 - G * K) <= 1.
Proof.
  intros HG HK. pose proof (Rmult_le_pos _ _ HG HK).
  split; [apply Rmax_l|apply Rmax_lub; lra].
Qed.

Lemma TransYDir_bound Gamma az alt :
  0 <= Gamma -> 0 <= az -> 0 <= TransYDir Gamma az alt <= 1.
Proof.
  intros HG Haz. pose proof Small_pos as [Hs _].
  unfold TransYDir, Rgtb. cbv zeta.
  destruct (Rltb Small (PiOvr2 - az)) eqn:E1; [|lra].
  destruct (Rltb Small (Rabs (alt - PiOvr2))) eqn:E2; [|lra].
  apply Rltb_true in E1. unfold PiOvr2 in E1.
  assert (Hc : 0 < cos az) by (apply cos_gt_0; lra).
  apply Rmax_shaded; [exact HG|].
  apply shading_term_nonneg; [exact Hc|apply sqrt_pos].
Qed.

Lemma cos_quarter x : 0 <= x <= PiOvr2 -> 0 <= cos x.
Proof.
  unfold PiOvr2. intros [H1 H2]. destruct (Req_dec x (PI / 2)) as [->|Hn].
  - rewrite cos_PI2. lra.
  - left. apply cos_gt_0; lra.
Qed.

Lemma TransXDir_bound Gamma az alt :
  0 <= Gamma -> 0 <= az <= PiOvr2 -> 0 <= alt <= PiOvr2 ->
  0 <= TransXDir Gamma az alt <= 1 \/ TransXDir Gamma az alt = 1 - Gamma.
Proof.
  intros HG Haz Halt. pose proof Small_pos as [Hs _].
  unfold TransXDir, Rgtb. cbv zeta.
  set (A := cos alt ^ 2 * cos az ^ 2 + sin alt ^ 2).
  destruct (Rltb Small (sqrt A)) eqn:E1; [|right; reflexivity].
  left. apply Rltb_true in E1.
  set (x := cos alt * cos az / sqrt A).
  destruct (Rneb (cos (acos x)) 0) eqn:E2; [|lra].
  destruct (Rneb (PiOvr2 - acos x) 0) eqn:E3; [|lra].
  pose proof (cos_quarter az Haz) as Ha. pose proof (cos_quarter alt Halt) as Hc.
  assert (Hca : 0 <= cos alt * cos az) by (apply Rmult_le_pos; assumption).
  assert (Hle : cos alt * cos az <= sqrt A).
  { rewrite <- (sqrt_square (cos alt * cos az)) by exact Hca.
    apply sqrt_le_1_alt. unfold A. pose proof (pow2_ge_0 (sin alt)). lra. }
  assert (Hx : 0 <= x <= 1).
  { unfold x. pose proof (Rinv_0_lt_compat (sqrt A) ltac:(lra)) as Hi. split.
    - apply Rmult_le_pos; lra.
    - apply Rmult_le_reg_r with (r := sqrt A); [lra|].
      unfold Rdiv. rewrite Rmult_assoc, Rinv_l by lra. lra. }
  assert (Hcx : cos (acos x) = x) by (apply cos_acos; lra).
  assert (Hpos : 0 < cos (acos x)).
  { unfold Rneb in E2. apply negb_true_iff in E2.
    destruct (Req_dec (cos (acos x)) 0) as [Hz|Hz].
    - rewrite Hz in E2. unfold Reqb in E2. destruct (Req_dec_T 0 0); [discriminate|lra].
    - rewrite Hcx in *. lra. }
  apply Rmax_shaded; [exact HG|].
  apply shading_term_nonneg; [exact Hpos|apply sqrt_pos].
Qed.

Lemma Tdirect_bound Gamma az alt :
  0 <= Gamma -> 0 <= az <= PiOvr2 -> 0 <= alt <= PiOvr2 ->
  0 <= Tdirect Gamma az alt <= 1.
Proof.
  intros HG Haz Halt.
  pose proof (TransYDir_bound Gamma az alt HG (proj1 Haz)) as HY.
  unfold Tdirect. split; [apply Rmax_l|]. apply Rmax_lub; [lra|].
  destruct (TransXDir_bound Gamma az alt HG Haz Halt) as [HX|HX].
  - replace 1 with (1 * 1) by ring. apply Rmult_le_compat; lra.
  - rewrite HX. assert (0 <= Gamma * TransYDir Gamma az alt) by (apply Rmult_le_pos; lra).
    lra.
Qed.

Lemma store_results_balance s Td Ts Tv inc :
  Sc_ScreenBeamReflectanceAccounting s = DoNotModel ->
  0 <= Td <= 1 -> 0 <= Sc_ReflectCylinder s <= 1 ->
  let s' := store_results s Td Ts Tv inc in
  (Sc_BmBmTrans s' + Sc_BmBmTransBack s')
  + (Sc_ReflectSolBeamFront s' + Sc_ReflectSolBeamBack s')
  + (Sc_AbsorpSolarBeamFront s' + Sc_AbsorpSolarBeamBack s') = 1.
Proof.
  intros Hm HT Hr. unfold store_results. rewrite Hm.
  assert (H1 : Rmax 0 (Sc_ReflectCylinder s * (1.0 - Td) - 0)
               = Sc_ReflectCylinder s * (1 - Td)).
  { rewrite Rmax_right; [lra|].
    assert (0 <= Sc_ReflectCylinder s * (1 - Td)) by (apply Rmult_le_pos; lra). lra. }
  assert (H2 : Rmax 0 ((1.0 - Td) * (1.0 - Sc_ReflectCylinder s))
               = (1 - Td) * (1 - Sc_ReflectCylinder s)).
  { rewrite Rmax_right; [lra|].
    assert (0 <= (1 - Td) * (1 - Sc_ReflectCylinder s)) by (apply Rmult_le_pos; lra). lra. }
  destruct (Rleb (Rabs inc) PiOvr2); cbn; rewrite H1, H2; ring.
Qed.

(** X26.  For a screen with a nonnegative diameter-to-spacing ratio and angles
    given by the caller, [Phi] within half a turn, the transmittance, the
    reflectance and the absorptance of the solar beam that the call stores
    add up to one when the beam reflected by the screen material is not
    modelled. *)
Theorem beam_is_transmitted_reflected_or_absorbed (S S' : list SurfaceScreenProperties)
    (SurfaceNum : Z) (Phi Theta : option R) (ScreenNumber : option Z) (tilt : R)
    (ScNum : Z) (t p : R) :
  let s := fget default_SurfaceScreenProperties S ScNum in
  let s' := fget default_SurfaceScreenProperties S' ScNum in
  CalcScreenTransmittance env S SurfaceNum Phi Theta ScreenNumber tilt = Completed S' ->
  screen_index env SurfaceNum Phi Theta ScreenNumber = Completed ScNum ->
  (1 <= ScNum <= Z.of_nat (List.length S))%Z ->
  Theta = Some t -> Phi = Some p -> Rabs p <= Pi ->
  0 <= Sc_ScreenDiameterToSpacingRatio s -> 0 <= Sc_ReflectCylinder s <= 1 ->
  Sc_ScreenBeamReflectanceAccounting s = DoNotModel ->
  (Sc_BmBmTrans s' + Sc_BmBmTransBack s')
  + (Sc_ReflectSolBeamFront s' + Sc_ReflectSolBeamBack s')
  + (Sc_AbsorpSolarBeamFront s' + Sc_AbsorpSolarBeamBack s') = 1.
Proof.
  intros s s' H Hi Hr Ht Hp Hpi HG Hrho Hm. subst s' Theta Phi.
  rewrite (CalcScreenTransmittance_stored env _ _ _ _ _ _ _ _ H Hi Hr).
  unfold screen_after. fold s.
  destruct (explicit_angles SurfaceNum t p ScreenNumber tilt Hpi) as (Haz & Halt & _).
  apply store_results_balance; [exact Hm| |exact Hrho].
  apply Tdirect_bound; assumption.
Qed.

Lemma store_results_beam s Td Ts Tv inc :
  Sc_ScreenBeamReflectanceAccounting s <> ModelAsDirectBeam -> 0 <= Td <= 1 ->
  let s' := store_results s Td Ts Tv inc in
  Sc_BmBmTrans s' <= 1 /\ Sc_BmBmTransVis s' <= 1 /\ Sc_BmBmTransBack s' <= 1.
Proof.
  intros Hm HT. unfold store_results.
  destruct (Sc_ScreenBeamReflectanceAccounting s); [|contradiction|];
    destruct (Rleb (Rabs inc) PiOvr2); cbn; lra.
Qed.

(** X27.  Under the same conditions on the angles and the ratio, the three
    beam-to-beam transmittances that the call stores are no more than one,
    unless the beam reflected by the screen material is modelled as direct
    beam. *)
Theorem beam_transmittance_is_at_most_one (S S' : list SurfaceScreenProperties)
    (SurfaceNum : Z) (Phi Theta : option R) (ScreenNumber : option Z) (tilt : R)
    (ScNum : Z) (t p : R) :
  let s := fget default_SurfaceScreenProperties S ScNum in
  let s' := fget default_SurfaceScreenProperties S' ScNum in
  CalcScreenTransmittance env S SurfaceNum Phi Theta ScreenNumber tilt = Completed S' ->
  screen_index env SurfaceNum Phi Theta ScreenNumber = Completed ScNum ->
  (1 <= ScNum <= Z.of_nat (List.length S))%Z ->
  Theta = Some t -> Phi = Some p -> Rabs p <= Pi ->
  0 <= Sc_ScreenDiameterToSpacingRatio s ->
  Sc_ScreenBeamReflectanceAccounting s <> ModelAsDirectBeam ->
  Sc_BmBmTrans s' <= 1 /\ Sc_BmBmTransVis s' <= 1 /\ Sc_BmBmTransBack s' <= 1.
Proof.
  intros s s' H Hi Hr Ht Hp Hpi HG Hm. subst s' Theta Phi.
  rewrite (CalcScreenTransmittance_stored env _ _ _ _ _ _ _ _ H Hi Hr).
  unfold screen_after. fold s.
  destruct (explicit_angles SurfaceNum t p ScreenNumber tilt Hpi) as (Haz & Halt & _).
  apply store_results_beam; [exact Hm|].
  apply Tdirect_bound; assumption.
Qed.
End ScreenModelMore.

(** *** A sample screen *)

Definition insect_screen : SurfaceScreenProperties :=
  {| Sc_ScreenDiameterToSpacingRatio := (1 / 4)%R; Sc_ReflectCylinder := (1 / 2)%R;
     Sc_ReflectCylinderVis := (1 / 2)%R; Sc_ScreenBeamReflectanceAccounting := DoNotModel;
     Sc_BmBmTrans := 0%R; Sc_BmBmTransVis := 0%R; Sc_BmBmTransBack := 0%R;
     Sc_BmDifTrans := 0%R; Sc_BmDifTransVis := 0%R; Sc_BmDifTransBack := 0%R;
     Sc_ReflectSolBeamFront := 0%R; Sc_ReflectVisBeamFront := 0%R;
     Sc_AbsorpSolarBeamFront := 0%R; Sc_ReflectSolBeamBack := 0%R;
     Sc_ReflectVisBeamBack := 0%R; Sc_AbsorpSolarBeamBack := 0%R |}.

Definition no_sun : ScreenEnvironment := mkScreenEnvironment [] [] [] [].

Lemma Rabs_0_le_Pi : (Rabs 0 <= Pi)%R.
Proof. rewrite Rabs_R0. left. exact PI_RGT_0. Qed.

Lemma quarter_turn_azimuth env SurfaceNum Phi ScreenNumber tilt :
  SunAzimuthToScreenNormal
    (screen_angles env SurfaceNum Phi (Some PiOvr2) ScreenNumber tilt) = PiOvr2.
Proof.
  pose proof PI_RGT_0 as Hpi.
  assert (Ha : Rabs PiOvr2 = PiOvr2) by (apply Rabs_right; unfold PiOvr2; lra).
  unfold screen_angles, Rgtb. cbv zeta. rewrite Ha.
  rewrite (proj2 (Rltb_false Pi PiOvr2)) by (unfold Pi, PiOvr2; lra).
  rewrite (proj2 (Rltb_false PiOvr2 PiOvr2)) by lra.
  destruct Phi; reflexivity.
Qed.

Lemma explicit_angles_fold_into_a_quarter_turn_witness :
  let a := screen_angles no_sun 0 (Some 0%R) (Some 0%R) (Some 1) 0%R in
  (0 <= SunAzimuthToScreenNormal a <= PiOvr2)%R.
Proof.
  refine (proj1 (explicit_angles_fold_into_a_quarter_turn no_sun 0 (Some 0%R) (Some 0%R)
                   (Some 1) 0%R 0%R 0%R _ _ _)).
  - reflexivity.
  - reflexivity.
  - exact Rabs_0_le_Pi.
Defined.

Lemma nothing_passes_at_grazing_incidence_witness :
  Sc_BmBmTrans
    (fget default_SurfaceScreenProperties
       (fset [insect_screen] 1
          (screen_after no_sun insect_screen 0 (Some 0%R) (Some PiOvr2) (Some 1) 0%R))
       1) = 0%R.
Proof.
  refine (proj1 (nothing_passes_at_grazing_incidence no_sun [insect_screen] _ 0 (Some 0%R)
                   (Some PiOvr2) (Some 1) 0%R 1 _ _ _ _)).
  - reflexivity.
  - reflexivity.
  - simpl. lia.
  - left. apply quarter_turn_azimuth.
Defined.

Lemma diffuse_transmittance_only_when_modelled_as_diffuse_witness :
  Sc_BmDifTrans
    (fget default_SurfaceScreenProperties
       (fset [insect_screen] 1
          (screen_after no_sun insect_screen 0 (Some 0%R) (Some 0%R) (Some 1) 0%R))
       1) = 0%R.
Proof.
  refine (proj1 (diffuse_transmittance_only_when_modelled_as_diffuse no_sun [insect_screen]
                   _ 0 (Some 0%R) (Some 0%R) (Some 1) 0%R 1 _ _ _ _)).
  - reflexivity.
  - reflexivity.
  - simpl. lia.
  - discriminate.
Defined.

Lemma screen_call_writes_results_of_one_screen_witness :
  List.length
    (fset [insect_screen] 1
       (screen_after no_sun insect_screen 0 (Some 0%R) (Some 0%R) (Some 1) 0%R))
  = List.length [insect_screen].
Proof.
  refine (proj1 (screen_call_writes_results_of_one_screen no_sun [insect_screen] _ 0
                   (Some 0%R) (Some 0%R) (Some 1) 0%R 1 _ _)).
  - reflexivity.
  - reflexivity.
Defined.

Lemma beam_is_transmitted_reflected_or_absorbed_witness :
  let s' := fget default_SurfaceScreenProperties
              (fset [insect_screen] 1
                 (screen_after no_sun insect_screen 0 (Some 0%R) (Some 0%R) (Some 1) 0%R))
              1 in
  ((Sc_BmBmTrans s' + Sc_BmBmTransBack s')
   + (Sc_ReflectSolBeamFront s' + Sc_ReflectSolBeamBack s')
   + (Sc_AbsorpSolarBeamFront s' + Sc_AbsorpSolarBeamBack s') = 1)%R.
Proof.
  refine (beam_is_transmitted_reflected_or_absorbed no_sun [insect_screen] _ 0 (Some 0%R)
            (Some 0%R) (Some 1) 0%R 1 0%R 0%R _ _ _ _ _ _ _ _ _).
  - reflexivity.
  - reflexivity.
  - simpl. lia.
  - reflexivity.
  - reflexivity.
  - exact Rabs_0_le_Pi.
  - simpl. lra.
  - simpl. lra.
  - reflexivity.
Defined.

Lemma beam_transmittance_is_at_most_one_witness :
  let s' := fget default_SurfaceScreenProperties
              (fset [insect_screen] 1
                 (screen_after no_sun insect_screen 0 (Some 0%R) (Some 0%R) (Some 1) 0%R))
              1 in
  (Sc_BmBmTrans s' <= 1)%R.
Proof.
  refine (proj1 (beam_transmittance_is_at_most_one no_sun [insect_screen] _ 0 (Some 0%R)
                   (Some 0%R) (Some 1) 0%R 1 0%R 0%R _ _ _ _ _ _ _ _)).
  - reflexivity.
  - reflexivity.
  - simpl. lia.
  - reflexivity.
  - reflexivity.
  - exact Rabs_0_le_Pi.
  - simpl. lra.
  - discriminate.
Defined.

(** ** Nominal U-value with film coefficients *)

Section NominalUProperties.
Local Open Scope R_scope.
Variables SurfaceClass_Wall SurfaceClass_Floor SurfaceClass_Roof SurfaceClass_Door : Z.
Variables ExternalEnvironment Ground GroundFCfactorMethod : Z.
Variable Surface : list SurfaceData.
Variable NominalU : list R.

(** The film resistances of the table of ASHRAE 90.1 that the routine
    quotes, for the inside and for the outside of a surface. *)
Definition inside_films : list R := [0.1197548; 0.1620212; 0.1074271; 0.0].

Definition outside_films : list R :=
  [0.0299387; 0.0; 0.1197548; 0.1620212; 0.1074271; 0.0810106].

Lemma exterior_film_table numSurf :
  In (exterior_film SurfaceClass_Wall SurfaceClass_Floor SurfaceClass_Roof
        SurfaceClass_Door ExternalEnvironment Ground GroundFCfactorMethod Surface numSurf)
     outside_films.
Proof.
  unfold exterior_film, outside_films. cbv zeta.
  repeat match goal with
         | |- context [if ?b then _ else _] => destruct b
         end; cbn [In]; auto 8.
Qed.

Lemma interior_film_table numSurf out :
  In out outside_films ->
  let f := interior_film SurfaceClass_Wall SurfaceClass_Floor SurfaceClass_Roof
             SurfaceClass_Door Surface numSurf out in
  In (fst f) inside_films /\ In (snd f) outside_films.
Proof.
  intros H. unfold interior_film, inside_films. cbv zeta.
  repeat match goal with
         | |- context [if ?b then _ else _] => destruct b
         end; cbn [fst snd]; (split; [cbn [In]; auto 8|]); try exact H.
  unfold outside_films. cbn [In]. auto.
Qed.

(** X28.  The result is flagged valid exactly when the nominal U-value of
    the construction of the surface is positive.  A result that is not valid
    is the U-value itself.  A valid result is the expression of line 1729,
    one over the sum of an inside film, the inverse of the U-value and an
    outside film, in that order, with each film one of the resistances of
    the table. *)
Theorem films_add_resistance_to_a_positive_U (numSurf : Z) :
  let U := fget 0 NominalU
             (Sur_Construction (fget default_SurfaceData Surface numSurf)) in
  let result := ComputeNominalUwithConvCoeffs SurfaceClass_Wall SurfaceClass_Floor
                  SurfaceClass_Roof SurfaceClass_Door ExternalEnvironment Ground
                  GroundFCfactorMethod Surface NominalU numSurf in
  (snd result = true <-> 0 < U)
  /\ (snd result = false -> fst result = U)
  /\ (snd result = true ->
        exists insideFilm outsideFilm,
          In insideFilm inside_films /\ In outsideFilm outside_films
          /\ fst result = 1.0 / (insideFilm + (1.0 / U) + outsideFilm)).
Proof.
  intros U result. subst result. unfold ComputeNominalUwithConvCoeffs, Rgtb, Sur. cbv zeta.
  fold U.
  destruct (Rltb 0.0 U) eqn:E.
  - apply Rltb_true in E.
    pose proof (interior_film_table numSurf _ (exterior_film_table numSurf)) as Hf.
    cbv zeta in Hf.
    destruct (interior_film _ _ _ _ _ _ _) as [i o]. cbn [fst snd] in *.
    split; [split; [intros _; lra|reflexivity]|]. split; [discriminate|].
    intros _. exists i, o. destruct Hf as [Hi Ho]. auto.
  - apply Rltb_false in E. cbn [fst snd].
    split; [split; [discriminate|intros; lra]|]. split; [reflexivity|discriminate].
Qed.

(** X29.  For a surface whose class is neither wall, door, floor nor roof
    the film chosen from the outside boundary condition is dropped together
    with the inside film: the routine evaluates the expression of line 1729
    with zero for both films when the U-value is positive, and returns the
    U-value otherwise, whatever the outside boundary condition and the
    adjacent surface. *)
Theorem surface_of_another_class_gets_no_films (numSurf : Z) :
  let s := fget default_SurfaceData Surface numSurf in
  let U := fget 0 NominalU (Sur_Construction s) in
  let result := ComputeNominalUwithConvCoeffs SurfaceClass_Wall SurfaceClass_Floor
                  SurfaceClass_Roof SurfaceClass_Door ExternalEnvironment Ground
                  GroundFCfactorMethod Surface NominalU numSurf in
  Sur_Class s <> SurfaceClass_Wall -> Sur_Class s <> SurfaceClass_Door ->
  Sur_Class s <> SurfaceClass_Floor -> Sur_Class s <> SurfaceClass_Roof ->
  result = if Rgtb U 0.0 then (1.0 / (0.0 + (1.0 / U) + 0.0), true) else (U, false).
Proof.
  intros s U result Hw Hd Hf Hr. subst result.
  unfold ComputeNominalUwithConvCoeffs, Sur. cbv zeta. fold s. fold U.
  destruct (Rgtb U 0.0); [|reflexivity].
  unfold interior_film, Sur. cbv zeta. fold s.
  apply Z.eqb_neq in Hw, Hd, Hf, Hr. rewrite Hw, Hd, Hf, Hr. reflexivity.
Qed.
End NominalUProperties.

(** *** A sample surface *)

Lemma surface_of_another_class_gets_no_films_witness :
  ComputeNominalUwithConvCoeffs 1 2 3 4 0 (-1) (-2) [mkSurfaceData 0 9 1] [2%R] 1
  = if Rgtb 2 0.0 then ((1.0 / (0.0 + (1.0 / 2) + 0.0))%R, true) else (2%R, false).
Proof.
  refine (surface_of_another_class_gets_no_films 1 2 3 4 0 (-1) (-2)
            [mkSurfaceData 0 9 1] [2%R] 1 _ _ _ _).
  - discriminate.
  - discriminate.
  - discriminate.
  - discriminate.
Defined.
